(** * Header-chain reconciliation engine of qtum_electrum/network.py

    A shallow embedding of the [Network] class: the per-interface
    header-synchronisation state machine, server selection and failover, and
    the request/subscription router.  Python objects that are shared by
    reference (interfaces, blockchains) live in explicit heaps; methods are
    computations in a state-and-exception monad over the [Network] record. *)

From Stdlib Require Import ZArith Lia Ascii String.
From stdpp Require Import base option list gmap sets strings pretty.

Local Open Scope Z_scope.

(** ** Plain data *)

(** JSON scalars occurring as request parameters. *)
Inductive Value :=
  | VStr (s : string)
  | VInt (n : Z)
  | VBool (b : bool).

#[global] Instance Value_eq_dec : EqDecision Value.
Proof. solve_decision. Defined.

#[global] Instance Value_countable : Countable Value.
Proof.
  refine (inj_countable'
    (fun v => match v with
              | VStr s => inl s
              | VInt n => inr (inl n)
              | VBool b => inr (inr b)
              end)
    (fun x => match x with
              | inl s => VStr s
              | inr (inl n) => VInt n
              | inr (inr b) => VBool b
              end) _).
  by intros [].
Defined.

(** [interface.mode] only ever holds one of these four strings. *)
Inductive Mode := Default | Backward | Binary | CatchUp.

#[global] Instance Mode_eq_dec : EqDecision Mode.
Proof. solve_decision. Defined.

(** Python exceptions that the modelled methods can raise. *)
Inductive Exn :=
  | KeyError
  | IndexError
  | AttributeError
  | ValueError
  | TypeError
  | AssertionError
  | ZeroDivisionError
  | ModeException (m : Mode).

(** References into the object heaps, and callback identities. *)
Abbreviation IRef := nat (only parsing).
Abbreviation ChainRef := nat (only parsing).
Abbreviation Callback := nat (only parsing).

(** [(method, params, message_id)] as handed to [Interface.queue_request]. *)
Abbreviation Request := (string * list Value * Z)%type (only parsing).

(** [(method, params, callback)] as kept in [unanswered_requests]. *)
Abbreviation ClientRequest := (string * list Value * Callback)%type (only parsing).

(** ** Insertion-ordered dictionaries

    [unanswered_requests] is iterated by [send_subscriptions], so the order of
    its entries is kept. *)
(** [l.remove(x)] when [x] may be absent: drops the first occurrence. *)
Fixpoint list_remove_first {A} `{EqDecision A} (x : A) (l : list A) : list A :=
  match l with
  | [] => []
  | y :: l' => if decide (y = x) then l' else y :: list_remove_first x l'
  end.

Section pydict.
Context {K V : Type} `{EqDecision K}.

Fixpoint dict_set (k : K) (v : V) (d : list (K * V)) : list (K * V) :=
  match d with
  | [] => [(k, v)]
  | (k', v') :: d' =>
      if decide (k' = k) then (k, v) :: d' else (k', v') :: dict_set k v d'
  end.

Definition dict_values (d : list (K * V)) : list V := snd <$> d.
End pydict.

Section network.
Context {Header Store Response : Type} `{EqDecision Header}.

(** ** Objects *)

(** A [Blockchain] object: network.py reads and writes [catch_up] directly;
    everything else belongs to blockchain.py. *)
Record Blockchain := Build_Blockchain {
  catch_up : option string;
  store : Store
}.

Definition set_catch_up (v : option string) (b : Blockchain) : Blockchain :=
  Build_Blockchain v (store b).

(** The module-level dictionary [blockchain.blockchains] (which
    [Network.blockchains] aliases) together with the objects it refers to. *)
Record ChainSet := Build_ChainSet {
  blockchains : gmap Z ChainRef;
  chain_heap : gmap ChainRef Blockchain
}.

Definition set_blockchains (v : gmap Z ChainRef) (c : ChainSet) : ChainSet :=
  Build_ChainSet v (chain_heap c).
Definition set_chain_heap (v : gmap ChainRef Blockchain) (c : ChainSet) : ChainSet :=
  Build_ChainSet (blockchains c) v.

(** An [Interface] object with the attributes network.py keeps on it. *)
Record Interface := Build_Interface {
  server : string;  (* server string host:port:protocol *)
  blockchain : option ChainRef;  (* chain believed canonical *)
  tip : Z;
  tip_header : option Header;
  mode : Mode;
  request : option Z;  (* height currently awaited *)
  req_time : option Z;
  good : option Z;  (* unset until the search assigns it *)
  bad : option Z;
  bad_header : option Header;
  unsent_requests : list Request;  (* outgoing queue of the Interface class *)
  request_time : Z;
  closed : bool
}.

(** Attribute assignment [interface.f = v], one function per attribute. *)
Definition set_server (v : string) (x : Interface) : Interface :=
  Build_Interface v (blockchain x) (tip x) (tip_header x) (mode x)
    (request x) (req_time x) (good x) (bad x) (bad_header x)
    (unsent_requests x) (request_time x) (closed x).
Definition set_blockchain (v : option ChainRef) (x : Interface) : Interface :=
  Build_Interface (server x) v (tip x) (tip_header x) (mode x) (request x)
    (req_time x) (good x) (bad x) (bad_header x) (unsent_requests x)
    (request_time x) (closed x).
Definition set_tip (v : Z) (x : Interface) : Interface :=
  Build_Interface (server x) (blockchain x) v (tip_header x) (mode x)
    (request x) (req_time x) (good x) (bad x) (bad_header x)
    (unsent_requests x) (request_time x) (closed x).
Definition set_tip_header (v : option Header) (x : Interface) : Interface :=
  Build_Interface (server x) (blockchain x) (tip x) v (mode x) (request x)
    (req_time x) (good x) (bad x) (bad_header x) (unsent_requests x)
    (request_time x) (closed x).
Definition set_mode (v : Mode) (x : Interface) : Interface :=
  Build_Interface (server x) (blockchain x) (tip x) (tip_header x) v
    (request x) (req_time x) (good x) (bad x) (bad_header x)
    (unsent_requests x) (request_time x) (closed x).
Definition set_request (v : option Z) (x : Interface) : Interface :=
  Build_Interface (server x) (blockchain x) (tip x) (tip_header x) (mode x)
    v (req_time x) (good x) (bad x) (bad_header x) (unsent_requests x)
    (request_time x) (closed x).
Definition set_req_time (v : option Z) (x : Interface) : Interface :=
  Build_Interface (server x) (blockchain x) (tip x) (tip_header x) (mode x)
    (request x) v (good x) (bad x) (bad_header x) (unsent_requests x)
    (request_time x) (closed x).
Definition set_good (v : option Z) (x : Interface) : Interface :=
  Build_Interface (server x) (blockchain x) (tip x) (tip_header x) (mode x)
    (request x) (req_time x) v (bad x) (bad_header x) (unsent_requests x)
    (request_time x) (closed x).
Definition set_bad (v : option Z) (x : Interface) : Interface :=
  Build_Interface (server x) (blockchain x) (tip x) (tip_header x) (mode x)
    (request x) (req_time x) (good x) v (bad_header x) (unsent_requests x)
    (request_time x) (closed x).
Definition set_bad_header (v : option Header) (x : Interface) : Interface :=
  Build_Interface (server x) (blockchain x) (tip x) (tip_header x) (mode x)
    (request x) (req_time x) (good x) (bad x) v (unsent_requests x)
    (request_time x) (closed x).
Definition set_unsent_requests (v : list Request) (x : Interface) : Interface :=
  Build_Interface (server x) (blockchain x) (tip x) (tip_header x) (mode x)
    (request x) (req_time x) (good x) (bad x) (bad_header x) v
    (request_time x) (closed x).
Definition set_request_time (v : Z) (x : Interface) : Interface :=
  Build_Interface (server x) (blockchain x) (tip x) (tip_header x) (mode x)
    (request x) (req_time x) (good x) (bad x) (bad_header x)
    (unsent_requests x) v (closed x).
Definition set_closed (v : bool) (x : Interface) : Interface :=
  Build_Interface (server x) (blockchain x) (tip x) (tip_header x) (mode x)
    (request x) (req_time x) (good x) (bad x) (bad_header x)
    (unsent_requests x) (request_time x) v.

(** The attributes of the [Network] object, with the clock and the random
    draws it reads. *)
Record Network := Build_Network {
  interfaces : gmap string IRef;  (* server -> interface object *)
  iface_heap : gmap IRef Interface;  (* the interface objects *)
  interface : option IRef;  (* the active interface *)
  default_server : string;
  connecting : gset string;
  disconnected_servers : gset string;
  connection_status : string;
  connection_attempts : list string;  (* Connection threads started *)
  num_server : Z;
  auto_connect : bool;
  protocol : string;
  chains : ChainSet;  (* blockchain.blockchains and its objects *)
  blockchain_index : Z;
  requested_chunks : gset Z;
  message_id : Z;
  sub_cache : gmap string Response;
  subscriptions : gmap string (list Callback);
  unanswered_requests : list (option Z * ClientRequest);  (* insertion-ordered dict *)
  pending_sends : list (list (string * list Value) * Callback);
  subscribed_addresses : gset Value;
  subscribed_tokens : gset (Value * Value * Value);
  callback_log : list (Callback * Response);  (* client callbacks invoked, oldest first *)
  pending_events : gmap string (list (list Value));  (* GUICallbackProcessor.pending_events *)
  recent_servers : list string;
  nodes_retry_time : Z;
  server_retry_time : Z;
  socket_queue : list (string * option nat);  (* results of connection attempts *)
  now : Z;  (* reading of time.time() *)
  rng : list nat  (* draws consumed by random.choice *)
}.

(** Attribute assignment [self.f = v], one function per attribute. *)
Definition set_interfaces (v : gmap string IRef) (x : Network) : Network :=
  Build_Network v (iface_heap x) (interface x) (default_server x)
    (connecting x) (disconnected_servers x) (connection_status x)
    (connection_attempts x) (num_server x) (auto_connect x) (protocol x)
    (chains x) (blockchain_index x) (requested_chunks x) (message_id x)
    (sub_cache x) (subscriptions x) (unanswered_requests x)
    (pending_sends x) (subscribed_addresses x) (subscribed_tokens x)
    (callback_log x) (pending_events x) (recent_servers x)
    (nodes_retry_time x) (server_retry_time x) (socket_queue x) (now x)
    (rng x).
Definition set_iface_heap (v : gmap IRef Interface) (x : Network) : Network :=
  Build_Network (interfaces x) v (interface x) (default_server x)
    (connecting x) (disconnected_servers x) (connection_status x)
    (connection_attempts x) (num_server x) (auto_connect x) (protocol x)
    (chains x) (blockchain_index x) (requested_chunks x) (message_id x)
    (sub_cache x) (subscriptions x) (unanswered_requests x)
    (pending_sends x) (subscribed_addresses x) (subscribed_tokens x)
    (callback_log x) (pending_events x) (recent_servers x)
    (nodes_retry_time x) (server_retry_time x) (socket_queue x) (now x)
    (rng x).
Definition set_interface (v : option IRef) (x : Network) : Network :=
  Build_Network (interfaces x) (iface_heap x) v (default_server x)
    (connecting x) (disconnected_servers x) (connection_status x)
    (connection_attempts x) (num_server x) (auto_connect x) (protocol x)
    (chains x) (blockchain_index x) (requested_chunks x) (message_id x)
    (sub_cache x) (subscriptions x) (unanswered_requests x)
    (pending_sends x) (subscribed_addresses x) (subscribed_tokens x)
    (callback_log x) (pending_events x) (recent_servers x)
    (nodes_retry_time x) (server_retry_time x) (socket_queue x) (now x)
    (rng x).
Definition set_default_server (v : string) (x : Network) : Network :=
  Build_Network (interfaces x) (iface_heap x) (interface x) v (connecting x)
    (disconnected_servers x) (connection_status x) (connection_attempts x)
    (num_server x) (auto_connect x) (protocol x) (chains x)
    (blockchain_index x) (requested_chunks x) (message_id x) (sub_cache x)
    (subscriptions x) (unanswered_requests x) (pending_sends x)
    (subscribed_addresses x) (subscribed_tokens x) (callback_log x)
    (pending_events x) (recent_servers x) (nodes_retry_time x)
    (server_retry_time x) (socket_queue x) (now x) (rng x).
Definition set_connecting (v : gset string) (x : Network) : Network :=
  Build_Network (interfaces x) (iface_heap x) (interface x)
    (default_server x) v (disconnected_servers x) (connection_status x)
    (connection_attempts x) (num_server x) (auto_connect x) (protocol x)
    (chains x) (blockchain_index x) (requested_chunks x) (message_id x)
    (sub_cache x) (subscriptions x) (unanswered_requests x)
    (pending_sends x) (subscribed_addresses x) (subscribed_tokens x)
    (callback_log x) (pending_events x) (recent_servers x)
    (nodes_retry_time x) (server_retry_time x) (socket_queue x) (now x)
    (rng x).
Definition set_disconnected_servers (v : gset string) (x : Network) : Network :=
  Build_Network (interfaces x) (iface_heap x) (interface x)
    (default_server x) (connecting x) v (connection_status x)
    (connection_attempts x) (num_server x) (auto_connect x) (protocol x)
    (chains x) (blockchain_index x) (requested_chunks x) (message_id x)
    (sub_cache x) (subscriptions x) (unanswered_requests x)
    (pending_sends x) (subscribed_addresses x) (subscribed_tokens x)
    (callback_log x) (pending_events x) (recent_servers x)
    (nodes_retry_time x) (server_retry_time x) (socket_queue x) (now x)
    (rng x).
Definition set_connection_status (v : string) (x : Network) : Network :=
  Build_Network (interfaces x) (iface_heap x) (interface x)
    (default_server x) (connecting x) (disconnected_servers x) v
    (connection_attempts x) (num_server x) (auto_connect x) (protocol x)
    (chains x) (blockchain_index x) (requested_chunks x) (message_id x)
    (sub_cache x) (subscriptions x) (unanswered_requests x)
    (pending_sends x) (subscribed_addresses x) (subscribed_tokens x)
    (callback_log x) (pending_events x) (recent_servers x)
    (nodes_retry_time x) (server_retry_time x) (socket_queue x) (now x)
    (rng x).
Definition set_connection_attempts (v : list string) (x : Network) : Network :=
  Build_Network (interfaces x) (iface_heap x) (interface x)
    (default_server x) (connecting x) (disconnected_servers x)
    (connection_status x) v (num_server x) (auto_connect x) (protocol x)
    (chains x) (blockchain_index x) (requested_chunks x) (message_id x)
    (sub_cache x) (subscriptions x) (unanswered_requests x)
    (pending_sends x) (subscribed_addresses x) (subscribed_tokens x)
    (callback_log x) (pending_events x) (recent_servers x)
    (nodes_retry_time x) (server_retry_time x) (socket_queue x) (now x)
    (rng x).
Definition set_num_server (v : Z) (x : Network) : Network :=
  Build_Network (interfaces x) (iface_heap x) (interface x)
    (default_server x) (connecting x) (disconnected_servers x)
    (connection_status x) (connection_attempts x) v (auto_connect x)
    (protocol x) (chains x) (blockchain_index x) (requested_chunks x)
    (message_id x) (sub_cache x) (subscriptions x) (unanswered_requests x)
    (pending_sends x) (subscribed_addresses x) (subscribed_tokens x)
    (callback_log x) (pending_events x) (recent_servers x)
    (nodes_retry_time x) (server_retry_time x) (socket_queue x) (now x)
    (rng x).
Definition set_auto_connect (v : bool) (x : Network) : Network :=
  Build_Network (interfaces x) (iface_heap x) (interface x)
    (default_server x) (connecting x) (disconnected_servers x)
    (connection_status x) (connection_attempts x) (num_server x) v
    (protocol x) (chains x) (blockchain_index x) (requested_chunks x)
    (message_id x) (sub_cache x) (subscriptions x) (unanswered_requests x)
    (pending_sends x) (subscribed_addresses x) (subscribed_tokens x)
    (callback_log x) (pending_events x) (recent_servers x)
    (nodes_retry_time x) (server_retry_time x) (socket_queue x) (now x)
    (rng x).
Definition set_protocol (v : string) (x : Network) : Network :=
  Build_Network (interfaces x) (iface_heap x) (interface x)
    (default_server x) (connecting x) (disconnected_servers x)
    (connection_status x) (connection_attempts x) (num_server x)
    (auto_connect x) v (chains x) (blockchain_index x) (requested_chunks x)
    (message_id x) (sub_cache x) (subscriptions x) (unanswered_requests x)
    (pending_sends x) (subscribed_addresses x) (subscribed_tokens x)
    (callback_log x) (pending_events x) (recent_servers x)
    (nodes_retry_time x) (server_retry_time x) (socket_queue x) (now x)
    (rng x).
Definition set_chains (v : ChainSet) (x : Network) : Network :=
  Build_Network (interfaces x) (iface_heap x) (interface x)
    (default_server x) (connecting x) (disconnected_servers x)
    (connection_status x) (connection_attempts x) (num_server x)
    (auto_connect x) (protocol x) v (blockchain_index x)
    (requested_chunks x) (message_id x) (sub_cache x) (subscriptions x)
    (unanswered_requests x) (pending_sends x) (subscribed_addresses x)
    (subscribed_tokens x) (callback_log x) (pending_events x)
    (recent_servers x) (nodes_retry_time x) (server_retry_time x)
    (socket_queue x) (now x) (rng x).
Definition set_blockchain_index (v : Z) (x : Network) : Network :=
  Build_Network (interfaces x) (iface_heap x) (interface x)
    (default_server x) (connecting x) (disconnected_servers x)
    (connection_status x) (connection_attempts x) (num_server x)
    (auto_connect x) (protocol x) (chains x) v (requested_chunks x)
    (message_id x) (sub_cache x) (subscriptions x) (unanswered_requests x)
    (pending_sends x) (subscribed_addresses x) (subscribed_tokens x)
    (callback_log x) (pending_events x) (recent_servers x)
    (nodes_retry_time x) (server_retry_time x) (socket_queue x) (now x)
    (rng x).
Definition set_requested_chunks (v : gset Z) (x : Network) : Network :=
  Build_Network (interfaces x) (iface_heap x) (interface x)
    (default_server x) (connecting x) (disconnected_servers x)
    (connection_status x) (connection_attempts x) (num_server x)
    (auto_connect x) (protocol x) (chains x) (blockchain_index x) v
    (message_id x) (sub_cache x) (subscriptions x) (unanswered_requests x)
    (pending_sends x) (subscribed_addresses x) (subscribed_tokens x)
    (callback_log x) (pending_events x) (recent_servers x)
    (nodes_retry_time x) (server_retry_time x) (socket_queue x) (now x)
    (rng x).
Definition set_message_id (v : Z) (x : Network) : Network :=
  Build_Network (interfaces x) (iface_heap x) (interface x)
    (default_server x) (connecting x) (disconnected_servers x)
    (connection_status x) (connection_attempts x) (num_server x)
    (auto_connect x) (protocol x) (chains x) (blockchain_index x)
    (requested_chunks x) v (sub_cache x) (subscriptions x)
    (unanswered_requests x) (pending_sends x) (subscribed_addresses x)
    (subscribed_tokens x) (callback_log x) (pending_events x)
    (recent_servers x) (nodes_retry_time x) (server_retry_time x)
    (socket_queue x) (now x) (rng x).
Definition set_sub_cache (v : gmap string Response) (x : Network) : Network :=
  Build_Network (interfaces x) (iface_heap x) (interface x)
    (default_server x) (connecting x) (disconnected_servers x)
    (connection_status x) (connection_attempts x) (num_server x)
    (auto_connect x) (protocol x) (chains x) (blockchain_index x)
    (requested_chunks x) (message_id x) v (subscriptions x)
    (unanswered_requests x) (pending_sends x) (subscribed_addresses x)
    (subscribed_tokens x) (callback_log x) (pending_events x)
    (recent_servers x) (nodes_retry_time x) (server_retry_time x)
    (socket_queue x) (now x) (rng x).
Definition set_subscriptions (v : gmap string (list Callback)) (x : Network) : Network :=
  Build_Network (interfaces x) (iface_heap x) (interface x)
    (default_server x) (connecting x) (disconnected_servers x)
    (connection_status x) (connection_attempts x) (num_server x)
    (auto_connect x) (protocol x) (chains x) (blockchain_index x)
    (requested_chunks x) (message_id x) (sub_cache x) v
    (unanswered_requests x) (pending_sends x) (subscribed_addresses x)
    (subscribed_tokens x) (callback_log x) (pending_events x)
    (recent_servers x) (nodes_retry_time x) (server_retry_time x)
    (socket_queue x) (now x) (rng x).
Definition set_unanswered_requests (v : list (option Z * ClientRequest)) (x : Network) : Network :=
  Build_Network (interfaces x) (iface_heap x) (interface x)
    (default_server x) (connecting x) (disconnected_servers x)
    (connection_status x) (connection_attempts x) (num_server x)
    (auto_connect x) (protocol x) (chains x) (blockchain_index x)
    (requested_chunks x) (message_id x) (sub_cache x) (subscriptions x) v
    (pending_sends x) (subscribed_addresses x) (subscribed_tokens x)
    (callback_log x) (pending_events x) (recent_servers x)
    (nodes_retry_time x) (server_retry_time x) (socket_queue x) (now x)
    (rng x).
Definition set_pending_sends (v : list (list (string * list Value) * Callback)) (x : Network) : Network :=
  Build_Network (interfaces x) (iface_heap x) (interface x)
    (default_server x) (connecting x) (disconnected_servers x)
    (connection_status x) (connection_attempts x) (num_server x)
    (auto_connect x) (protocol x) (chains x) (blockchain_index x)
    (requested_chunks x) (message_id x) (sub_cache x) (subscriptions x)
    (unanswered_requests x) v (subscribed_addresses x) (subscribed_tokens x)
    (callback_log x) (pending_events x) (recent_servers x)
    (nodes_retry_time x) (server_retry_time x) (socket_queue x) (now x)
    (rng x).
Definition set_subscribed_addresses (v : gset Value) (x : Network) : Network :=
  Build_Network (interfaces x) (iface_heap x) (interface x)
    (default_server x) (connecting x) (disconnected_servers x)
    (connection_status x) (connection_attempts x) (num_server x)
    (auto_connect x) (protocol x) (chains x) (blockchain_index x)
    (requested_chunks x) (message_id x) (sub_cache x) (subscriptions x)
    (unanswered_requests x) (pending_sends x) v (subscribed_tokens x)
    (callback_log x) (pending_events x) (recent_servers x)
    (nodes_retry_time x) (server_retry_time x) (socket_queue x) (now x)
    (rng x).
Definition set_subscribed_tokens (v : gset (Value * Value * Value)) (x : Network) : Network :=
  Build_Network (interfaces x) (iface_heap x) (interface x)
    (default_server x) (connecting x) (disconnected_servers x)
    (connection_status x) (connection_attempts x) (num_server x)
    (auto_connect x) (protocol x) (chains x) (blockchain_index x)
    (requested_chunks x) (message_id x) (sub_cache x) (subscriptions x)
    (unanswered_requests x) (pending_sends x) (subscribed_addresses x) v
    (callback_log x) (pending_events x) (recent_servers x)
    (nodes_retry_time x) (server_retry_time x) (socket_queue x) (now x)
    (rng x).
Definition set_callback_log (v : list (Callback * Response)) (x : Network) : Network :=
  Build_Network (interfaces x) (iface_heap x) (interface x)
    (default_server x) (connecting x) (disconnected_servers x)
    (connection_status x) (connection_attempts x) (num_server x)
    (auto_connect x) (protocol x) (chains x) (blockchain_index x)
    (requested_chunks x) (message_id x) (sub_cache x) (subscriptions x)
    (unanswered_requests x) (pending_sends x) (subscribed_addresses x)
    (subscribed_tokens x) v (pending_events x) (recent_servers x)
    (nodes_retry_time x) (server_retry_time x) (socket_queue x) (now x)
    (rng x).
Definition set_pending_events (v : gmap string (list (list Value))) (x : Network) : Network :=
  Build_Network (interfaces x) (iface_heap x) (interface x)
    (default_server x) (connecting x) (disconnected_servers x)
    (connection_status x) (connection_attempts x) (num_server x)
    (auto_connect x) (protocol x) (chains x) (blockchain_index x)
    (requested_chunks x) (message_id x) (sub_cache x) (subscriptions x)
    (unanswered_requests x) (pending_sends x) (subscribed_addresses x)
    (subscribed_tokens x) (callback_log x) v (recent_servers x)
    (nodes_retry_time x) (server_retry_time x) (socket_queue x) (now x)
    (rng x).
Definition set_recent_servers (v : list string) (x : Network) : Network :=
  Build_Network (interfaces x) (iface_heap x) (interface x)
    (default_server x) (connecting x) (disconnected_servers x)
    (connection_status x) (connection_attempts x) (num_server x)
    (auto_connect x) (protocol x) (chains x) (blockchain_index x)
    (requested_chunks x) (message_id x) (sub_cache x) (subscriptions x)
    (unanswered_requests x) (pending_sends x) (subscribed_addresses x)
    (subscribed_tokens x) (callback_log x) (pending_events x) v
    (nodes_retry_time x) (server_retry_time x) (socket_queue x) (now x)
    (rng x).
Definition set_nodes_retry_time (v : Z) (x : Network) : Network :=
  Build_Network (interfaces x) (iface_heap x) (interface x)
    (default_server x) (connecting x) (disconnected_servers x)
    (connection_status x) (connection_attempts x) (num_server x)
    (auto_connect x) (protocol x) (chains x) (blockchain_index x)
    (requested_chunks x) (message_id x) (sub_cache x) (subscriptions x)
    (unanswered_requests x) (pending_sends x) (subscribed_addresses x)
    (subscribed_tokens x) (callback_log x) (pending_events x)
    (recent_servers x) v (server_retry_time x) (socket_queue x) (now x)
    (rng x).
Definition set_server_retry_time (v : Z) (x : Network) : Network :=
  Build_Network (interfaces x) (iface_heap x) (interface x)
    (default_server x) (connecting x) (disconnected_servers x)
    (connection_status x) (connection_attempts x) (num_server x)
    (auto_connect x) (protocol x) (chains x) (blockchain_index x)
    (requested_chunks x) (message_id x) (sub_cache x) (subscriptions x)
    (unanswered_requests x) (pending_sends x) (subscribed_addresses x)
    (subscribed_tokens x) (callback_log x) (pending_events x)
    (recent_servers x) (nodes_retry_time x) v (socket_queue x) (now x)
    (rng x).
Definition set_socket_queue (v : list (string * option nat)) (x : Network) : Network :=
  Build_Network (interfaces x) (iface_heap x) (interface x)
    (default_server x) (connecting x) (disconnected_servers x)
    (connection_status x) (connection_attempts x) (num_server x)
    (auto_connect x) (protocol x) (chains x) (blockchain_index x)
    (requested_chunks x) (message_id x) (sub_cache x) (subscriptions x)
    (unanswered_requests x) (pending_sends x) (subscribed_addresses x)
    (subscribed_tokens x) (callback_log x) (pending_events x)
    (recent_servers x) (nodes_retry_time x) (server_retry_time x) v (now x)
    (rng x).
Definition set_now (v : Z) (x : Network) : Network :=
  Build_Network (interfaces x) (iface_heap x) (interface x)
    (default_server x) (connecting x) (disconnected_servers x)
    (connection_status x) (connection_attempts x) (num_server x)
    (auto_connect x) (protocol x) (chains x) (blockchain_index x)
    (requested_chunks x) (message_id x) (sub_cache x) (subscriptions x)
    (unanswered_requests x) (pending_sends x) (subscribed_addresses x)
    (subscribed_tokens x) (callback_log x) (pending_events x)
    (recent_servers x) (nodes_retry_time x) (server_retry_time x)
    (socket_queue x) v (rng x).
Definition set_rng (v : list nat) (x : Network) : Network :=
  Build_Network (interfaces x) (iface_heap x) (interface x)
    (default_server x) (connecting x) (disconnected_servers x)
    (connection_status x) (connection_attempts x) (num_server x)
    (auto_connect x) (protocol x) (chains x) (blockchain_index x)
    (requested_chunks x) (message_id x) (sub_cache x) (subscriptions x)
    (unanswered_requests x) (pending_sends x) (subscribed_addresses x)
    (subscribed_tokens x) (callback_log x) (pending_events x)
    (recent_servers x) (nodes_retry_time x) (server_retry_time x)
    (socket_queue x) (now x) v.


(** ** Collaborators

    blockchain.py and interface.py are outside the sources at hand.  The
    functions of blockchain.py that network.py calls are taken as parameters;
    each sees the whole chain set, since a chain reads through to its parent.
    Operations that write headers return the new chain set. *)
Class Collaborators := {
  (* header.get('block_height') *)
  block_height : Header -> Z;
  (* blockchain.deserialize_header(bfh(hex), height); None when it raises *)
  deserialize_header : string -> Z -> option Header;
  (* module-level blockchain.check_header / blockchain.can_connect: the first
     chain that accepts the header, None for False *)
  check_header : ChainSet -> Header -> option ChainRef;
  can_connect : ChainSet -> Header -> option ChainRef;
  (* methods of one Blockchain object *)
  Blockchain_check_header : ChainSet -> ChainRef -> Header -> bool;
  Blockchain_can_connect : ChainSet -> ChainRef -> Header -> bool -> bool;
  Blockchain_height : ChainSet -> ChainRef -> Z;
  Blockchain_forkpoint : ChainSet -> ChainRef -> Z;
  Blockchain_parent : ChainSet -> ChainRef -> option ChainRef;
  Blockchain_is_valid : ChainSet -> ChainRef -> bool;
  Blockchain_read_header : ChainSet -> ChainRef -> Z -> option Header;
  Blockchain_update_size : ChainSet -> ChainRef -> ChainSet;
  Blockchain_save_header : ChainSet -> ChainRef -> Header -> ChainSet;
  (* branch.write(b'', 0) *)
  Blockchain_write_empty : ChainSet -> ChainRef -> ChainSet;
  Blockchain_fork : ChainSet -> ChainRef -> Header -> ChainRef * ChainSet;
  Blockchain_connect_chunk : ChainSet -> ChainRef -> Z -> string -> bool * ChainSet;
  (* Interface.has_timed_out / Interface.ping_required at a clock reading *)
  Interface_has_timed_out : Interface -> Z -> bool;
  Interface_ping_required : Interface -> Z -> bool;
  (* whether the builtin int() accepts a port string *)
  int_parses : string -> bool;
  (* constants of other modules *)
  CHUNK_SIZE : Z;
  FEE_TARGETS : list Z;
  DEFAULT_SERVERS : gmap string (gmap string string);
  ELECTRUM_VERSION : string;
  PROTOCOL_VERSION : string
}.

Context `{Collaborators}.

Definition NODES_RETRY_INTERVAL : Z := 60.
Definition SERVER_RETRY_INTERVAL : Z := 10.

(** ** State and exceptions

    A method is a function from the state before the call to either a
    returned value or a raised exception, each with the state reached. *)
Inductive Res (A : Type) :=
  | Ok (a : A) (n : Network)
  | Raise (e : Exn) (n : Network).
Arguments Ok {A} a n.
Arguments Raise {A} e n.

Definition M (A : Type) : Type := Network -> Res A.

Definition ret {A} (a : A) : M A := fun n => Ok a n.

Definition bind {A B} (m : M A) (k : A -> M B) : M B :=
  fun n => match m n with
           | Ok a n' => k a n'
           | Raise e n' => Raise e n'
           end.

Definition raise {A} (e : Exn) : M A := fun n => Raise e n.
Definition gets {A} (f : Network -> A) : M A := fun n => Ok (f n) n.
Definition modify (f : Network -> Network) : M unit := fun n => Ok tt (f n).

Notation "'let*' p ':=' m 'in' k" := (bind m (fun p => k))
  (at level 10, p pattern, m at level 100, k at level 200).
Notation "m ;;; k" := (bind m (fun _ => k))
  (at level 100, k at level 200, right associativity).

Definition when (b : bool) (m : M unit) : M unit := if b then m else ret tt.

(** [for x in l: body(x)] *)
Fixpoint for_each {A} (l : list A) (body : A -> M unit) : M unit :=
  match l with
  | [] => ret tt
  | x :: l' => body x ;;; for_each l' body
  end.

(** Attribute access on an interface object. *)
Definition get_iface (i : IRef) : M Interface :=
  fun n => match iface_heap n !! i with
           | Some x => Ok x n
           | None => Raise AttributeError n
           end.

Definition upd_iface (i : IRef) (f : Interface -> Interface) : M unit :=
  modify (fun n => set_iface_heap (alter f i (iface_heap n)) n).

(** Reading an attribute that has not been assigned yet. *)
Definition attr {A} (o : option A) : M A :=
  match o with
  | Some a => ret a
  | None => raise AttributeError
  end.

Definition get_chains : M ChainSet := gets chains.
Definition put_chains (c : ChainSet) : M unit := modify (set_chains c).

Definition upd_chain (r : ChainRef) (f : Blockchain -> Blockchain) : M unit :=
  modify (fun n =>
    set_chains (set_chain_heap (alter f r (chain_heap (chains n))) (chains n)) n).

(** [random.choice(l)] for a non-empty [l]: the next draw picks the index. *)
Definition random_choice {A} (l : list A) : M A :=
  fun n =>
    let k := match rng n with [] => O | k :: _ => k end in
    match l !! (k `mod` length l)%nat with
    | Some x => Ok x (set_rng (tail (rng n)) n)
    | None => Raise IndexError n
    end.

(** ** The Interface class

    Modelled from the spec: interface.py is not among the sources.  The
    Interface "exposes a send/receive queue"; [Interface.queue_request] puts a
    request on the outgoing queue and stamps the time, [Interface.close]
    shuts the connection. *)
Definition Interface_queue_request (i : IRef) (method : string)
    (params : list Value) (id : Z) : M unit :=
  let* t := gets now in
  upd_iface i (fun x =>
    set_request_time t (set_unsent_requests (unsent_requests x ++ [(method, params, id)]) x)).

Definition Interface_close (i : IRef) : M unit := upd_iface i (set_closed true).

(** ** GUI events *)

(** [GUICallbackProcessor.trigger_callback(event, *args)] *)
Definition trigger_callback (event : string) (args : list Value) : M unit :=
  modify (fun n =>
    let l := default [] (pending_events n !! event) in
    let l' := if decide (args ∈ l) then l else l ++ [args] in
    set_pending_events (<[event := l']> (pending_events n)) n).

Definition _set_status (status : string) : M unit :=
  modify (set_connection_status status) ;;;
  trigger_callback "status" [].

Definition is_connected (n : Network) : bool := bool_decide (is_Some (interface n)).

Definition is_connecting (n : Network) : bool :=
  bool_decide (connection_status n = "connecting").

(** ** Requests *)

Definition queue_request (method : string) (params : list Value)
    (iface : option IRef) : M (option Z) :=
  let* active := gets interface in
  match (match iface with Some i => Some i | None => active end) with
  | None => ret None  (* warning: dropping request *)
  | Some i =>
      let* message_id := gets message_id in
      modify (fun n => set_message_id (message_id + 1) n) ;;;
      Interface_queue_request i method params message_id ;;;
      ret (Some message_id)
  end.

Definition request_header (i : IRef) (height : Z) : M unit :=
  queue_request "blockchain.block.header" [VInt height] (Some i) ;;;
  let* t := gets now in
  upd_iface i (fun x => set_req_time (Some t) (set_request (Some height) x)).

Definition request_chunk (i : IRef) (index : Z) : M unit :=
  let* requested := gets requested_chunks in
  if decide (index ∈ requested) then ret tt
  else
    let height := index * CHUNK_SIZE in
    queue_request "blockchain.block.headers" [VInt height; VInt CHUNK_SIZE] (Some i) ;;;
    modify (fun n => set_requested_chunks (requested_chunks n ∪ {[index]}) n).

(** ** Connection lifecycle *)

Definition close_interface (iface : option IRef) : M unit :=
  match iface with
  | None => ret tt
  | Some i =>
      let* x := get_iface i in
      (* pop the server's entry when there is one *)
      modify (fun n => set_interfaces (delete (server x) (interfaces n)) n) ;;;
      let* ds := gets default_server in
      when (bool_decide (server x = ds)) (modify (set_interface None)) ;;;
      Interface_close i
  end.

Definition clear_catch_up (srv : string) (b : Blockchain) : Blockchain :=
  if decide (catch_up b = Some srv) then set_catch_up None b else b.

(** The values of a dictionary of references, in iteration order. *)
Definition dict_refs {K} `{Countable K} (d : gmap K nat) : list nat :=
  (map_to_list d).*2.

Definition connection_down (srv : string) : M unit :=
  modify (fun n => set_disconnected_servers (disconnected_servers n ∪ {[srv]}) n) ;;;
  let* ds := gets default_server in
  when (bool_decide (srv = ds)) (_set_status "disconnected") ;;;
  let* ifs := gets interfaces in
  match ifs !! srv with
  | Some i => close_interface (Some i) ;;; trigger_callback "network_updated" []
  | None => ret tt
  end ;;;
  let* c := get_chains in
  for_each (dict_refs (blockchains c)) (fun r => upd_chain r (clear_catch_up srv)).

Definition start_interface (srv : string) : M unit :=
  let* ifs := gets interfaces in
  let* cn := gets connecting in
  if bool_decide (srv ∉ dom ifs) && bool_decide (srv ∉ cn) then
    let* ds := gets default_server in
    when (bool_decide (srv = ds)) (_set_status "connecting") ;;;
    modify (fun n => set_connecting (connecting n ∪ {[srv]}) n) ;;;
    (* c = Connection(server, self.socket_queue, self.config.path) *)
    modify (fun n => set_connection_attempts (connection_attempts n ++ [srv]) n)
  else ret tt.

(** ** Server strings and server selection *)

(** [s.rsplit(c, 1)] when [c] occurs in [s]: the parts around its last
    occurrence. *)
Fixpoint rsplit1 (c : ascii) (s : string) : option (string * string) :=
  match s with
  | EmptyString => None
  | String a s' =>
      match rsplit1 c s' with
      | Some (b, e) => Some (String a b, e)
      | None => if decide (a = c) then Some (EmptyString, s') else None
      end
  end.

(** [deserialize_server]; [None] stands for any of its exceptions (too few
    fields, the failed assertion, a port that is not a number). *)
Definition deserialize_server (server_str : string) : option (string * string * string) :=
  match rsplit1 ":"%char server_str with
  | None => None
  | Some (rest, protocol) =>
      match rsplit1 ":"%char rest with
      | None => None
      | Some (host, port) =>
          (* assert protocol in 'st' is a substring test *)
          if bool_decide (protocol ∈ ["" ; "s" ; "t" ; "st"]) && int_parses port
          then Some (host, port, protocol)
          else None
      end
  end.

Definition serialize_server (host port protocol : string) : string :=
  host +:+ ":" +:+ port +:+ ":" +:+ protocol.

Definition filter_protocol (hostmap : gmap string (gmap string string))
    (protocol : string) : list string :=
  omap (fun '(host, portmap) =>
          match portmap !! protocol with
          | Some port =>
              if decide (port = "") then None
              else Some (serialize_server host port protocol)
          | None => None
          end)
       (map_to_list hostmap).

Definition pick_random_server (hostmap : gmap string (gmap string string))
    (protocol : string) (exclude_set : gset string) : M (option string) :=
  let eligible := elements (list_to_set (filter_protocol hostmap protocol) ∖ exclude_set) in
  match eligible with
  | [] => ret None
  | _ => let* s := random_choice eligible in ret (Some s)
  end.

Definition get_servers (n : Network) : gmap string (gmap string string) :=
  fold_left
    (fun out s =>
       match deserialize_server s with
       | None => out
       | Some (host, port, protocol) =>
           match out !! host with
           | Some _ => out
           | None => <[host := {[protocol := port]}]> out
           end
       end)
    (recent_servers n) DEFAULT_SERVERS.

Definition get_interfaces (n : Network) : list string := (map_to_list (interfaces n)).*1.

Definition start_random_interface : M unit :=
  let* n := gets id in
  let exclude_set := disconnected_servers n ∪ dom (interfaces n) in
  let* srv := pick_random_server (get_servers n) (protocol n) exclude_set in
  match srv with
  | Some s => start_interface s
  | None => ret tt
  end.

(** ** Switching the active interface *)

(** [for request in requests: ...] of [send_subscriptions] *)
Definition resend_unanswered (requests : list ClientRequest) : M unit :=
  for_each requests (fun request =>
    let* message_id := queue_request request.1.1 request.1.2 None in
    modify (fun n =>
      set_unanswered_requests (dict_set message_id request (unanswered_requests n)) n)).

Definition send_subscriptions : M unit :=
  let* active := gets interface in
  match active with
  | None => raise AssertionError
  | Some _ =>
      modify (set_sub_cache ∅) ;;;
      (* Resend unanswered requests *)
      let* requests := gets (fun n => dict_values (unanswered_requests n)) in
      modify (set_unanswered_requests []) ;;;
      resend_unanswered requests ;;;
      queue_request "server.banner" [] None ;;;
      for_each FEE_TARGETS (fun i =>
        queue_request "blockchain.estimatefee" [VInt i] None ;;; ret tt) ;;;
      queue_request "blockchain.relayfee" [] None ;;;
      let* addrs := gets subscribed_addresses in
      for_each (elements addrs) (fun h =>
        queue_request "blockchain.scripthash.subscribe" [h] None ;;; ret tt) ;;;
      let* tokens := gets subscribed_tokens in
      for_each (elements tokens) (fun '(hash160, contract_addr, topic) =>
        queue_request "blockchain.contract.event.subscribe"
          [hash160; contract_addr; topic] None ;;; ret tt)
  end.

(** The block of [switch_to_interface] that stops the current interface
    [cur] before [i] takes over; returns [blockchain_updated]. *)
Definition stop_current_interface (srv : string) (i : IRef) (cur : option IRef) : M bool :=
  match cur with
  | None => ret false
  | Some old =>
      let* xi := get_iface i in
      let* xo := get_iface old in
      let updated := bool_decide (blockchain xi ≠ blockchain xo) in
      (* Stop any current interface in order to terminate subscriptions.
         However, for headers sub, give preference to this interface
         over unknown ones, i.e. start it again right away. *)
      let old_server := server xo in
      close_interface (Some old) ;;;
      let* n := gets id in
      when (bool_decide (old_server ≠ srv)
            && bool_decide (Z.of_nat (size (interfaces n)) ≤ num_server n))
           (start_interface old_server) ;;;
      ret updated
  end.

Definition switch_to_interface (srv : string) : M unit :=
  modify (set_default_server srv) ;;;
  let* ifs := gets interfaces in
  match ifs !! srv with
  | None =>
      modify (set_interface None) ;;;
      start_interface srv
  | Some i =>
      let* cur := gets interface in
      if decide (cur = Some i) then ret tt
      else
        let* blockchain_updated := stop_current_interface srv i cur in
        modify (set_interface (Some i)) ;;;
        send_subscriptions ;;;
        _set_status "connected" ;;;
        trigger_callback "network_updated" [] ;;;
        when blockchain_updated (trigger_callback "blockchain_updated" [])
  end.

Definition switch_to_random_interface : M unit :=
  let* servers := gets get_interfaces in
  let* ds := gets default_server in
  let servers := list_remove_first ds servers in
  match servers with
  | [] => ret tt
  | _ => let* s := random_choice servers in switch_to_interface s
  end.

(** ** Heights and lagging servers *)

(** Python's [a // b] *)
Definition floordiv (a b : Z) : M Z :=
  if decide (b = 0) then raise ZeroDivisionError else ret (a / b).

Definition get_chain (r : ChainRef) : M Blockchain :=
  fun n => match chain_heap (chains n) !! r with
           | Some b => Ok b n
           | None => Raise AttributeError n
           end.

(** [interface.blockchain] where a method is called on it *)
Definition iface_chain (i : IRef) : M ChainRef :=
  let* x := get_iface i in
  match blockchain x with
  | Some r => ret r
  | None => raise AttributeError
  end.

Definition get_server_height : M Z :=
  let* active := gets interface in
  match active with
  | Some i => let* x := get_iface i in ret (tip x)
  | None => ret 0
  end.

(** [Network.blockchain()] *)
Definition Network_blockchain : M ChainRef :=
  let* active := gets interface in
  match active with
  | Some i =>
      let* x := get_iface i in
      match blockchain x with
      | Some r =>
          let* c := get_chains in
          modify (set_blockchain_index (Blockchain_forkpoint c r))
      | None => ret tt
      end
  | None => ret tt
  end ;;;
  let* n := gets id in
  match blockchains (chains n) !! blockchain_index n with
  | Some r => ret r
  | None => raise KeyError
  end.

Definition get_local_height : M Z :=
  let* r := Network_blockchain in
  let* c := get_chains in
  put_chains (Blockchain_update_size c r) ;;;
  let* r := Network_blockchain in
  let* c := get_chains in
  ret (Blockchain_height c r).

(** Body of the loop over [list(self.blockchains.keys())] in
    [server_is_lagging]. *)
Definition drop_invalid_chain (k : Z) : M unit :=
  let* c := get_chains in
  match blockchains c !! k with
  | None => raise KeyError
  | Some r =>
      if Blockchain_is_valid c r then ret tt
      else
        let* servers := gets get_interfaces in
        for_each servers (fun srv =>
          let* ifs := gets interfaces in
          match ifs !! srv with
          | None => raise KeyError
          | Some i =>
              let* x := get_iface i in
              let* c := get_chains in
              match blockchain x with
              | None => ret tt
              | Some rb =>
                  match blockchains c !! k with
                  | None => raise KeyError
                  | Some rk => when (bool_decide (rb = rk)) (close_interface (Some i))
                  end
              end
          end) ;;;
        modify (fun n =>
          set_chains (set_blockchains (delete k (blockchains (chains n))) (chains n)) n)
  end.

Definition server_is_lagging : M bool :=
  let* sh := get_server_height in
  if decide (sh = 0) then ret true  (* no height for main interface *)
  else
    let* lh := get_local_height in
    let result := bool_decide (lh - sh > 1) in
    when result
      (let* c := get_chains in
       for_each (map_to_list (blockchains c)).*1 drop_invalid_chain) ;;;
    ret result.

Definition switch_lagging_interface : M unit :=
  let* ac := gets auto_connect in
  if negb ac then ret tt
  else
    let* lagging := server_is_lagging in
    if negb lagging then ret tt
    else
      (* switch to one that has the correct header (not height) *)
      let* r := Network_blockchain in
      let* lh := get_local_height in
      let* c := get_chains in
      let best_header := Blockchain_read_header c r lh in
      let* n := gets id in
      let filtered :=
        omap (fun '(srv, i) =>
                match iface_heap n !! i with
                | Some x => if decide (tip_header x = best_header) then Some srv else None
                | None => None
                end)
             (map_to_list (interfaces n)) in
      match filtered with
      | [] => ret tt
      | _ => let* choice := random_choice filtered in switch_to_interface choice
      end.

(** ** Header chunks *)

(** The fields of a chunk response that [on_block_headers] reads: [error] is
    absent or an object with an optional integer [code]; [result] is absent or
    an object with an optional [hex]; [params] is absent or a list. *)
Record ChunkResponse := Build_ChunkResponse {
  cr_error : option (option Z);
  cr_result : option (option string);
  cr_params : option (list Z)
}.

Definition on_block_headers (i : IRef) (response : ChunkResponse) : M unit :=
  let error := cr_error response in
  let result := cr_result response in
  let params := cr_params response in
  let* x := get_iface i in
  let blockchain := blockchain x in
  match result, params, error with
  | Some result, Some params, None =>
      let* height := match params with h :: _ => ret h | [] => raise IndexError end in
      let* index := floordiv height CHUNK_SIZE in
      let* requested := gets requested_chunks in
      if bool_decide (index * CHUNK_SIZE ≠ height) || bool_decide (index ∉ requested)
      then ret tt  (* received chunk (unsolicited) *)
      else
        modify (fun n => set_requested_chunks (requested_chunks n ∖ {[index]}) n) ;;;
        let* hexdata := match result with Some h => ret h | None => raise KeyError end in
        let* b := attr blockchain in
        let* c := get_chains in
        let '(connect, c') := Blockchain_connect_chunk c b index hexdata in
        put_chains c' ;;;
        if negb connect then connection_down (server x)
        else
          (* If not finished, get the next chunk *)
          let* c := get_chains in
          let* x := get_iface i in
          if bool_decide (Blockchain_height c b < tip x) then request_chunk i (index + 1)
          else
            upd_iface i (set_mode Default) ;;;
            upd_chain b (set_catch_up None)
  | _, _, _ =>
      switch_to_random_interface ;;;
      let* e := attr error in
      if decide (e = Some (-101)) then
        let* b := attr blockchain in
        upd_chain b (set_catch_up None) ;;;
        let* params := match params with Some p => ret p | None => raise TypeError end in
        let* height := match params with h :: _ => ret h | [] => raise IndexError end in
        let* index := floordiv height CHUNK_SIZE in
        let* requested := gets requested_chunks in
        if decide (index ∈ requested)
        then modify (fun n => set_requested_chunks (requested_chunks n ∖ {[index]}) n)
        else raise KeyError
      else ret tt
  end.

(** ** The header-sync state machine *)

(** Each branch of [on_get_header] computes [next_height]; [None] is
    Python's [None]. *)

(** [interface.mode == 'backward'] *)
Definition on_get_header_backward (i : IRef) (header : Header) (height : Z)
    (chain : option ChainRef) : M (option Z) :=
  let* c := get_chains in
  let connectable :=
    match can_connect c header with
    | Some r =>
        match chain_heap c !! r with
        | Some b => if decide (catch_up b = None) then Some (inl r) else None
        | None => Some (inr tt)
        end
    | None => None
    end in
  match connectable with
  | Some (inr _) => raise AttributeError
  | Some (inl r) =>
      let* x := get_iface i in
      upd_iface i (fun x => set_blockchain (Some r) (set_mode CatchUp x)) ;;;
      let* c := get_chains in
      put_chains (Blockchain_save_header c r header) ;;;
      upd_chain r (set_catch_up (Some (server x))) ;;;
      trigger_callback "blockchain_updated" [] ;;;
      ret (Some (height + 1))
  | None =>
      match chain with
      | Some r =>
          (* binary search *)
          upd_iface i (fun x =>
            set_good (Some height) (set_blockchain (Some r) (set_mode Binary x))) ;;;
          let* x := get_iface i in
          let* b := attr (bad x) in
          let* g := attr (good x) in
          ret (Some ((b + g) / 2))
      | None =>
          if decide (height = 0) then
            let* x := get_iface i in
            connection_down (server x) ;;;
            ret None
          else
            upd_iface i (fun x => set_bad_header (Some header) (set_bad (Some height) x)) ;;;
            let* x := get_iface i in
            let delta := tip x - height in
            ret (Some (Z.max 0 (tip x - 2 * delta)))
      end
  end.

(** The part of the binary branch reached once [bad = good + 1] and the
    chain accepts [bad_header]: decide which chain the server is on. *)
Definition resolve_fork (i : IRef) (header : Header) : M (option Z) :=
  let* x := get_iface i in
  let* b := attr (bad x) in
  let* g := attr (good x) in
  let* bad_hdr := attr (bad_header x) in
  let* c := get_chains in
  match blockchains c !! b with
  | Some branch =>
      if Blockchain_check_header c branch bad_hdr then ret None  (* joining chain *)
      else
        let* parent := attr (Blockchain_parent c branch) in
        if Blockchain_check_header c parent header then
          (* reorg *)
          let* parent := attr (Blockchain_parent c branch) in
          upd_iface i (set_blockchain (Some parent)) ;;;
          ret (Some b)
        else
          (* forkpoint conflicts with existing fork *)
          put_chains (Blockchain_write_empty c branch) ;;;
          let* c := get_chains in
          put_chains (Blockchain_save_header c branch bad_hdr) ;;;
          upd_iface i (fun x => set_blockchain (Some branch) (set_mode CatchUp x)) ;;;
          upd_chain branch (set_catch_up (Some (server x))) ;;;
          trigger_callback "blockchain_updated" [] ;;;
          ret (Some (b + 1))
  | None =>
      let* r := iface_chain i in
      let bh := Blockchain_height c r in
      if decide (bh > g) then
        if Blockchain_check_header c r bad_hdr then ret None
        else
          let '(nr, c') := Blockchain_fork c r bad_hdr in
          put_chains c' ;;;
          modify (fun n =>
            set_chains (set_blockchains (<[b := nr]> (blockchains (chains n))) (chains n)) n) ;;;
          upd_iface i (fun x => set_mode CatchUp (set_blockchain (Some nr) x)) ;;;
          upd_chain nr (set_catch_up (Some (server x))) ;;;
          trigger_callback "blockchain_updated" [] ;;;
          ret (Some (b + 1))
      else
        if decide (bh = g) then
          let* chain := get_chain r in
          if bool_decide (catch_up chain = None) && bool_decide (bh < tip x) then
            (* catching up from bh + 1 *)
            upd_iface i (set_mode CatchUp) ;;;
            upd_chain r (set_catch_up (Some (server x))) ;;;
            ret (Some (bh + 1))
          else ret None
        else raise AssertionError
  end.

(** The binary branch once [bad = good + 1]: the header at [bad] is the
    first point of disagreement. *)
Definition on_get_header_adjacent (i : IRef) (x : Interface) (header : Header)
    : M (option Z) :=
  let* r := iface_chain i in
  let* bad_hdr := attr (bad_header x) in
  let* c := get_chains in
  if negb (Blockchain_can_connect c r bad_hdr false) then
    connection_down (server x) ;;;
    ret None
  else resolve_fork i header.

(** [interface.mode == 'binary'] *)
Definition on_get_header_binary (i : IRef) (header : Header) (height : Z)
    (chain : option ChainRef) : M (option Z) :=
  match chain with
  | Some r => upd_iface i (fun x => set_blockchain (Some r) (set_good (Some height) x))
  | None => upd_iface i (fun x => set_bad_header (Some header) (set_bad (Some height) x))
  end ;;;
  let* x := get_iface i in
  let* b := attr (bad x) in
  let* g := attr (good x) in
  if decide (b ≠ g + 1) then ret (Some ((b + g) / 2))
  else on_get_header_adjacent i x header.

(** [interface.mode == 'catch_up'] *)
Definition on_get_header_catch_up (i : IRef) (header : Header) (height : Z)
    : M (option Z) :=
  let* r := iface_chain i in
  let* c := get_chains in
  let* next_height :=
    if Blockchain_can_connect c r header true then
      put_chains (Blockchain_save_header c r header) ;;;
      let* x := get_iface i in
      let next_height := if decide (height < tip x) then Some (height + 1) else None in
      trigger_callback "blockchain_updated" [] ;;;
      ret next_height
    else
      (* go back *)
      upd_iface i (fun x =>
        set_bad_header (Some header) (set_bad (Some height) (set_mode Backward x))) ;;;
      ret (Some (height - 1)) in
  match next_height with
  | None =>
      (* exit catch_up state *)
      let* r := iface_chain i in
      upd_chain r (set_catch_up None) ;;;
      switch_lagging_interface
  | Some _ => ret tt
  end ;;;
  ret next_height.

(** The end of [on_get_header]: request what [next_height] asks for, or
    return to default mode. *)
Definition on_get_header_next (i : IRef) (srv : string) (next_height : option Z)
    : M unit :=
  (* If not finished, get the next header *)
  let* next_height :=
    match next_height with
    | Some nh =>
        if decide (nh < 0) then
          connection_down srv ;;;
          ret None
        else
          let* x := get_iface i in
          (if bool_decide (mode x = CatchUp) && bool_decide (tip x > nh + 50) then
             let* index := floordiv nh CHUNK_SIZE in
             request_chunk i index
           else request_header i nh) ;;;
          ret (Some nh)
    | None => ret None
    end in
  match next_height with
  | None => upd_iface i (fun x => set_request None (set_mode Default x))
  | Some _ => ret tt
  end.

(** [on_get_header(interface, response)] with [result = response.get('result')] *)
Definition on_get_header (i : IRef) (result : option Header) : M unit :=
  match result with
  | None =>
      let* x := get_iface i in
      connection_down (server x)
  | Some header =>
      let height := block_height header in
      let* x := get_iface i in
      if decide (request x ≠ Some height) then
        (* unsolicited header *)
        connection_down (server x)
      else
        let* c := get_chains in
        let chain := check_header c header in
        let* next_height :=
          match mode x with
          | Backward => on_get_header_backward i header height chain
          | Binary => on_get_header_binary i header height chain
          | CatchUp => on_get_header_catch_up i header height
          | Default => raise (ModeException Default)
          end in
        on_get_header_next i (server x) next_height
  end.

(** A maximum over the chain heights; [None] for the empty list, where
    Python's [max] raises. *)
Definition max_list (l : list Z) : option Z :=
  match l with
  | [] => None
  | h :: t => Some (foldr Z.max h t)
  end.

(** [on_notify_header(interface, header_dict)]; [header_dict] is [None] when
    it lacks the key ['hex'] or ['height']. *)
Definition on_notify_header (i : IRef) (header_dict : option (string * Z)) : M unit :=
  match header_dict with
  | None =>
      (* no point in keeping this connection without headers sub *)
      let* x := get_iface i in
      connection_down (server x)
  | Some (header_hex, height) =>
      let* header := attr (deserialize_header header_hex height) in
      let height := block_height header in
      if decide (height = 0) then ret tt
      else
        upd_iface i (fun x => set_tip height (set_tip_header (Some header) x)) ;;;
        let* x := get_iface i in
        if decide (mode x ≠ Default) then ret tt
        else
          trigger_callback "network_updated" [] ;;;
          let* c := get_chains in
          match check_header c header with
          | Some b =>
              upd_iface i (set_blockchain (Some b)) ;;;
              switch_lagging_interface
          | None =>
              match can_connect c header with
              | Some b =>
                  upd_iface i (set_blockchain (Some b)) ;;;
                  put_chains (Blockchain_save_header c b header) ;;;
                  switch_lagging_interface ;;;
                  trigger_callback "blockchain_updated" []
              | None =>
                  match max_list (Blockchain_height c <$> dict_refs (blockchains c)) with
                  | None => raise ValueError
                  | Some tip =>
                      if decide (tip >= 0) then
                        upd_iface i (fun x =>
                          set_bad_header (Some header) (set_bad (Some height)
                            (set_mode Backward x))) ;;;
                        request_header i (Z.min tip (height - 1))
                      else
                        match blockchains c !! 0 with
                        | None => raise KeyError
                        | Some chain =>
                            let* b := get_chain chain in
                            if decide (catch_up b = None) then
                              upd_chain chain (set_catch_up (Some (server x))) ;;;
                              upd_iface i (fun x =>
                                set_blockchain (Some chain) (set_mode CatchUp x)) ;;;
                              request_header i 0
                            else ret tt  (* chain already catching up *)
                        end
                  end
              end
          end
  end.

(** ** Request/subscription router *)

(** [s.endswith(suffix)] *)
Definition endswith (s suffix : string) : bool :=
  let n := String.length s in
  let m := String.length suffix in
  if (m <=? n)%nat then bool_decide (substring (n - m) m s = suffix) else false.

(** [str(v)] for a JSON scalar *)
Definition str (v : Value) : string :=
  match v with
  | VStr s => s
  | VInt n => pretty n
  | VBool true => "True"
  | VBool false => "False"
  end.

(** hashable index for subscriptions and cache; [None] for the
    [IndexError] of a parameter list that is too short *)
Definition get_index (method : string) (params : list Value) : option string :=
  if decide (method = "blockchain.contract.event.subscribe") then
    match params with
    | p0 :: p1 :: p2 :: _ =>
        Some (method +:+ ":" +:+ str p0 +:+ ":" +:+ str p1 +:+ ":" +:+ str p2)
    | _ => None
    end
  else
    Some (method +:+ match params with
                     | p0 :: _ => ":" +:+ str p0
                     | [] => ""
                     end).

(** Body of the inner loop of [process_pending_sends]: one [(method, params)]
    of a [send] made with [callback]. *)
Definition process_pending_send (callback : Callback) (method : string)
    (params : list Value) : M unit :=
  let* r :=
    if endswith method ".subscribe" then
      match get_index method params with
      | None => raise IndexError
      | Some k =>
          (* add callback to list *)
          let* subs := gets subscriptions in
          let l := default [] (subs !! k) in
          let l := if decide (callback ∈ l) then l else l ++ [callback] in
          modify (fun n => set_subscriptions (<[k := l]> (subscriptions n)) n) ;;;
          (* check cached response for subscriptions *)
          let* cache := gets sub_cache in
          ret (cache !! k)
      end
    else ret None in
  match r with
  | Some r =>
      if negb (endswith method "contract.subscribe") then
        (* cache hit: callback(r) *)
        modify (fun n => set_callback_log (callback_log n ++ [(callback, r)]) n)
      else
        let* message_id := queue_request method params None in
        modify (fun n =>
          set_unanswered_requests
            (dict_set message_id (method, params, callback) (unanswered_requests n)) n)
  | None =>
      let* message_id := queue_request method params None in
      modify (fun n =>
        set_unanswered_requests
          (dict_set message_id (method, params, callback) (unanswered_requests n)) n)
  end.

Definition process_pending_sends : M unit :=
  let* active := gets interface in
  match active with
  | None => ret tt
  | Some _ =>
      let* sends := gets pending_sends in
      modify (set_pending_sends []) ;;;
      for_each sends (fun '(messages, callback) =>
        for_each messages (fun '(method, params) =>
          process_pending_send callback method params))
  end.

(** ** Socket maintenance *)

Definition add_recent_server (srv : string) : M unit :=
  modify (fun n =>
    let l := list_remove_first srv (recent_servers n) in
    set_recent_servers (take 20 (srv :: l)) n).

Definition new_Interface (srv : string) : Interface :=
  Build_Interface srv None 0 None Default None None None None None [] 0 false.

(** A new object on the interface heap. *)
Definition allocate_interface (x : Interface) : M IRef :=
  fun n =>
    let i := fresh (dom (iface_heap n)) in
    Ok i (set_iface_heap (<[i := x]> (iface_heap n)) n).

Definition new_interface (srv : string) (socket : nat) : M unit :=
  let* i := allocate_interface (new_Interface srv) in
  modify (fun n => set_interfaces (<[srv := i]> (interfaces n)) n) ;;;
  (* server.version should be the first message *)
  queue_request "server.version" [VStr ELECTRUM_VERSION; VStr PROTOCOL_VERSION] (Some i) ;;;
  queue_request "blockchain.headers.subscribe" [VBool true] (Some i) ;;;
  let* ds := gets default_server in
  when (bool_decide (srv = ds)) (switch_to_interface srv) ;;;
  add_recent_server srv.

(** Responses to connection attempts? *)
Definition maintain_connections : M unit :=
  let* queue := gets socket_queue in
  modify (set_socket_queue []) ;;;
  for_each queue (fun '(srv, socket) =>
    modify (fun n => set_connecting (connecting n ∖ {[srv]}) n) ;;;
    match socket with
    | Some sock => new_interface srv sock
    | None => connection_down srv
    end).

(** Send pings and shut down stale interfaces *)
Definition maintain_interfaces : M unit :=
  let* ifaces := gets (fun n => dict_refs (interfaces n)) in
  for_each ifaces (fun i =>
    let* x := get_iface i in
    let* t := gets now in
    if Interface_has_timed_out x t then connection_down (server x)
    else if Interface_ping_required x t then
      queue_request "server.ping" [] (Some i) ;;; ret tt
    else ret tt).

(** nodes *)
Definition maintain_nodes (t : Z) : M unit :=
  let* n := gets id in
  when (bool_decide (Z.of_nat (size (interfaces n)) + Z.of_nat (size (connecting n))
                     < num_server n))
    (start_random_interface ;;;
     let* n := gets id in
     when (bool_decide (t - nodes_retry_time n > NODES_RETRY_INTERVAL))
       (* network: retrying connections *)
       (modify (set_disconnected_servers ∅) ;;;
        modify (set_nodes_retry_time t))).

(** main interface *)
Definition maintain_main_interface (t : Z) : M unit :=
  let* n := gets id in
  if is_connected n then ret tt
  else if auto_connect n then
    when (negb (is_connecting n)) switch_to_random_interface
  else if decide (default_server n ∈ disconnected_servers n) then
    when (bool_decide (t - server_retry_time n > SERVER_RETRY_INTERVAL))
      (modify (fun n =>
         set_disconnected_servers (disconnected_servers n ∖ {[default_server n]}) n) ;;;
       modify (set_server_retry_time t))
  else switch_to_interface (default_server n).

(** [maintain_sockets], its four steps in order *)
Definition maintain_sockets : M unit :=
  maintain_connections ;;;
  maintain_interfaces ;;;
  let* t := gets now in
  maintain_nodes t ;;;
  maintain_main_interface t.

(** ** States named in the properties *)

(** The state after a cache hit: the callback is registered under the index
    and has been called with the cached response. *)
Definition after_cache_hit (cb : Callback) (k : string) (r : Response) (n : Network) : Network :=
  let l := default [] (subscriptions n !! k) in
  let l := if decide (cb ∈ l) then l else l ++ [cb] in
  let n1 := set_subscriptions (<[k := l]> (subscriptions n)) n in
  set_callback_log (callback_log n1 ++ [(cb, r)]) n1.


(** The state a call ends in, whether it returns or raises. *)
Definition state_of {A} (r : Res A) : Network :=
  match r with
  | Ok _ n => n
  | Raise _ n => n
  end.

(** Between [n] and [n'] exactly one request was queued on interface [i]: a
    single-header request for [height], which the interface now awaits. *)
Definition header_requested (i : IRef) (height : Z) (n n' : Network) : Prop :=
  exists x x',
    iface_heap n !! i = Some x
    ∧ iface_heap n' !! i = Some x'
    ∧ request x' = Some height
    ∧ unsent_requests x'
      = unsent_requests x ++ [("blockchain.block.header", [VInt height], message_id n)]
    ∧ message_id n' = message_id n + 1.

(** Between [n] and [n'] no request was queued on any interface and no
    message id was used. *)
Definition nothing_sent (n n' : Network) : Prop :=
  message_id n' = message_id n
  ∧ forall j, unsent_requests <$> iface_heap n' !! j = unsent_requests <$> iface_heap n !! j.

(** What the connection-handling methods leave alone: they never take a
    server out of [disconnected_servers], never touch the clock, the retry
    stamps or [auto_connect], and never drop an interface object or change
    its server or its search bounds. *)
Definition stable (n n' : Network) : Prop :=
  disconnected_servers n ⊆ disconnected_servers n'
  ∧ now n' = now n
  ∧ nodes_retry_time n' = nodes_retry_time n
  ∧ server_retry_time n' = server_retry_time n
  ∧ auto_connect n' = auto_connect n
  ∧ forall i x, iface_heap n !! i = Some x ->
      exists x', iface_heap n' !! i = Some x'
                 ∧ server x' = server x ∧ good x' = good x ∧ bad x' = bad x.

Definition preserves {A} (m : M A) : Prop := forall n, stable n (state_of (m n)).

(** ** A bisection run *)

(** Whether the search bounds of an interface are adjacent. *)
Definition adjacent (x : Interface) : bool :=
  match good x, bad x with
  | Some g, Some b => bool_decide (b = g + 1)
  | _, _ => false
  end.

(** The bounds after a binary-mode response at height [h]. *)
Definition bounds_after (matched : bool) (h g b : Z) : Z * Z :=
  if matched then (h, b) else (g, h).

(** The server answers a request for height [h] with [reply h].  The state
    after [k] round trips made in binary mode: each time the header the
    interface awaits is delivered to [on_get_header].  [None] when, before one
    of the round trips, the interface is not in binary mode or awaits nothing,
    or when one of the calls raises. *)
Fixpoint binary_round_trips (k : nat) (reply : Z -> Header) (i : IRef) (n : Network)
    : option Network :=
  match k with
  | O => Some n
  | S k' =>
      x ← iface_heap n !! i;
      if decide (mode x = Binary) then
        h ← request x;
        match on_get_header i (Some (reply h)) n with
        | Ok _ n' => binary_round_trips k' reply i n'
        | Raise _ _ => None
        end
      else None
  end.

(** Every registered interface is a live object filed under its own server. *)
Definition well_formed (n : Network) : Prop :=
  forall srv i, interfaces n !! srv = Some i ->
    exists x, iface_heap n !! i = Some x ∧ server x = srv.

(** ** What a switch sends *)

(** Requests in queue order, numbered from [start]. *)
Fixpoint number_from (start : Z) (l : list (string * list Value)) : list Request :=
  match l with
  | [] => []
  | (method, params) :: l' => (method, params, start) :: number_from (start + 1) l'
  end.

(** The client requests still unanswered, as [send_subscriptions] resends
    them. *)
Definition unanswered_resends (n : Network) : list (string * list Value) :=
  (fun request : ClientRequest => (request.1.1, request.1.2))
    <$> dict_values (unanswered_requests n).

(** The standing subscriptions in the order [send_subscriptions] queues
    them. *)
Definition standing_subscriptions (n : Network) : list (string * list Value) :=
  [("server.banner", [])]
  ++ ((fun i => ("blockchain.estimatefee", [VInt i])) <$> FEE_TARGETS)
  ++ [("blockchain.relayfee", [])]
  ++ ((fun h => ("blockchain.scripthash.subscribe", [h]))
        <$> elements (subscribed_addresses n))
  ++ ((fun t : Value * Value * Value =>
         ("blockchain.contract.event.subscribe", [t.1.1; t.1.2; t.2]))
        <$> elements (subscribed_tokens n)).

(** How often a request occurs in a list. *)
Definition occurrences (r : string * list Value) (l : list (string * list Value)) : nat :=
  length (filter (fun r' => r' = r) l).

(** Between [n] and [n'] the requests [reqs] were queued on the active
    interface [i], in order, and the subscription state was left alone. *)
Definition sent (i : IRef) (reqs : list (string * list Value)) (n n' : Network) : Prop :=
  interface n' = interface n
  ∧ message_id n' = message_id n + Z.of_nat (length reqs)
  ∧ sub_cache n' = sub_cache n
  ∧ subscribed_addresses n' = subscribed_addresses n
  ∧ subscribed_tokens n' = subscribed_tokens n
  ∧ forall x, iface_heap n !! i = Some x ->
      exists x', iface_heap n' !! i = Some x'
                 ∧ unsent_requests x'
                   = unsent_requests x ++ number_from (message_id n) reqs.

(** * Further definitions

    The parts of network.py that the properties at the end of the file are
    about and that are not defined above. *)

(** ** Server strings *)

(** [c in s] for a character [c] *)
Fixpoint contains (c : ascii) (s : string) : bool :=
  match s with
  | EmptyString => false
  | String a s' => if decide (a = c) then true else contains c s'
  end.

(** Between [n] and [n'] exactly one request was queued on interface [i]: a
    chunk request for [index]. *)
Definition chunk_requested (i : IRef) (index : Z) (n n' : Network) : Prop :=
  exists x x',
    iface_heap n !! i = Some x
    ∧ iface_heap n' !! i = Some x'
    ∧ unsent_requests x'
      = unsent_requests x
        ++ [("blockchain.block.headers", [VInt (index * CHUNK_SIZE); VInt CHUNK_SIZE],
             message_id n)]
    ∧ message_id n' = message_id n + 1.

(** ** The request router *)

(** [send(messages, callback)] *)
Definition send (messages : list (string * list Value)) (callback : Callback) : M unit :=
  modify (fun n => set_pending_sends (pending_sends n ++ [(messages, callback)]) n).

(** [unsubscribe(callback)] *)
Definition unsubscribe (callback : Callback) : M unit :=
  modify (fun n => set_subscriptions (list_remove_first callback <$> subscriptions n) n).

(** ** Stale requests, start and shutdown *)

(** [maintain_requests]; an awaited height of 0 is as falsy as [None]. *)
Definition maintain_requests : M unit :=
  let* ifaces := gets (fun n => dict_refs (interfaces n)) in
  for_each ifaces (fun i =>
    let* x := get_iface i in
    let* t := gets now in
    if bool_decide (request x ≠ None ∧ request x ≠ Some 0)
       && bool_decide (t - request_time x > 30)
    then connection_down (server x)  (* blockchain request timed out *)
    else ret tt).

Definition start_interfaces : M unit :=
  let* ds := gets default_server in
  start_interface ds ;;;
  let* k := gets num_server in
  for_each (seq 0 (Z.to_nat (k - 1))) (fun _ => start_random_interface).

Definition stop_network : M unit :=
  let* ifaces := gets (fun n => dict_refs (interfaces n)) in
  for_each ifaces (fun i => close_interface (Some i)) ;;;
  let* active := gets interface in
  match active with
  | Some i => close_interface (Some i)
  | None => ret tt
  end ;;;
  let* n := gets id in
  if bool_decide (interface n ≠ None) then raise AssertionError
  else if bool_decide (interfaces n ≠ ∅) then raise AssertionError
  else
    modify (set_connecting ∅) ;;;
    (* Get a new queue - no old pending connections thanks! *)
    modify (set_socket_queue []) ;;;
    trigger_callback "network_updated" [].

(** The subscription lists hold no callback twice. *)
Definition subscribed_once (n : Network) : Prop :=
  forall k l, subscriptions n !! k = Some l -> NoDup l.

(** ** Proxy strings *)

(** [s.split(c)] for a single character [c] *)
Fixpoint split (c : ascii) (s : string) : list string :=
  match s with
  | EmptyString => [EmptyString]
  | String a s' =>
      if decide (a = c) then EmptyString :: split c s'
      else
        match split c s' with
        | w :: ws => String a w :: ws
        | [] => [String a EmptyString]
        end
  end.

(** [sep.join(l)] *)
Fixpoint join (sep : string) (l : list string) : string :=
  match l with
  | [] => EmptyString
  | [w] => w
  | w :: l' => w +:+ sep +:+ join sep l'
  end.

(** [s.lower()] on the letters A to Z, which is all that the comparison
    with ['none'] can see. *)
Definition lower_ascii (a : ascii) : ascii :=
  let k := nat_of_ascii a in
  if (65 <=? k)%nat && (k <=? 90)%nat then ascii_of_nat (k + 32) else a.

Fixpoint lower (s : string) : string :=
  match s with
  | EmptyString => EmptyString
  | String a s' => String (lower_ascii a) (lower s')
  end.

Definition proxy_modes : list string := ["socks4"; "socks5"; "http"].

(** [serialize_proxy(p)] for a dictionary [p]; [None] stands for the
    [TypeError] of joining a missing mode, host or port. *)
Definition serialize_proxy (p : gmap string string) : option string :=
  mode ← p !! "mode";
  host ← p !! "host";
  port ← p !! "port";
  Some (join ":" [mode; host; port; default "" (p !! "user");
                  default "" (p !! "password")]).

(** [deserialize_proxy(s)] for a string [s]; [None] is Python's [None]. *)
Definition deserialize_proxy (s : string) : option (gmap string string) :=
  if decide (lower s = "none") then None
  else
    let proxy : gmap string string := {[ "mode" := "socks5"; "host" := "localhost" ]} in
    let args := split ":" s in
    let n := 0%nat in
    let '(proxy, n) :=
      match args !! n with
      | Some a =>
          if decide (length (filter (fun m => m = a) proxy_modes) = 1%nat)
          then (<["mode" := a]> proxy, S n)
          else (proxy, n)
      | None => (proxy, n)
      end in
    let '(proxy, n) :=
      match args !! n with
      | Some a => (<["host" := a]> proxy, S n)
      | None => (proxy, n)
      end in
    let '(proxy, n) :=
      match args !! n with
      | Some a => (<["port" := a]> proxy, S n)
      | None =>
          (<["port" := if decide (proxy !! "mode" = Some "http") then "8080" else "1080"]>
             proxy, n)
      end in
    let '(proxy, n) :=
      match args !! n with
      | Some a => (<["user" := a]> proxy, S n)
      | None => (proxy, n)
      end in
    let proxy :=
      match args !! n with
      | Some a => <["password" := a]> proxy
      | None => proxy
      end in
    Some proxy.
End network.

Arguments Ok {Header Store Response A} a n.
Arguments Raise {Header Store Response A} e n.

(** * A small header chain for the worked examples

    Modelled from the spec: the HeaderChain collaborator (blockchain.py) is
    not among the sources.  "An ordered, persisted sequence of block headers
    rooted at a fork point", with "parent lookup (chains form a tree via fork
    points)".  A header names its height, its own hash and the hash of its
    predecessor; a chain stores the headers from its fork point upwards and
    reads lower heights through its parent. *)
Record SimpleHeader := Build_SimpleHeader {
  sh_height : Z;
  sh_hash : Z;
  sh_prev : Z
}.

#[global] Instance SimpleHeader_eq_dec : EqDecision SimpleHeader.
Proof. solve_decision. Defined.

Record SimpleStore := Build_SimpleStore {
  ss_forkpoint : Z;
  ss_parent : option nat;
  ss_headers : list SimpleHeader
}.

Abbreviation SimpleChains := (@ChainSet SimpleStore).

Fixpoint simple_read (fuel : nat) (c : SimpleChains) (r : nat) (height : Z)
    : option SimpleHeader :=
  match fuel with
  | O => None
  | S fuel' =>
      match chain_heap c !! r with
      | None => None
      | Some b =>
          if height <? ss_forkpoint (store b) then
            match ss_parent (store b) with
            | Some p => simple_read fuel' c p height
            | None => None
            end
          else ss_headers (store b) !! Z.to_nat (height - ss_forkpoint (store b))
      end
  end.

Definition simple_read_header (c : SimpleChains) (r : nat) (height : Z)
    : option SimpleHeader :=
  simple_read (S (size (chain_heap c))) c r height.

Definition simple_height (c : SimpleChains) (r : nat) : Z :=
  match chain_heap c !! r with
  | Some b => ss_forkpoint (store b) + Z.of_nat (length (ss_headers (store b))) - 1
  | None => -1
  end.

Definition simple_check_header (c : SimpleChains) (r : nat) (h : SimpleHeader) : bool :=
  bool_decide (simple_read_header c r (sh_height h) = Some h).

Definition simple_can_connect (c : SimpleChains) (r : nat) (h : SimpleHeader)
    (check_height : bool) : bool :=
  if check_height && negb (simple_height c r =? sh_height h - 1) then false
  else if sh_height h =? 0 then sh_prev h =? 0
  else
    match simple_read_header c r (sh_height h - 1) with
    | Some p => sh_hash p =? sh_prev h
    | None => false
    end.

Definition simple_update_store (f : SimpleStore -> SimpleStore) (c : SimpleChains)
    (r : nat) : SimpleChains :=
  set_chain_heap
    (alter (fun b => Build_Blockchain (catch_up b) (f (store b))) r (chain_heap c)) c.

Definition simple_save_header (c : SimpleChains) (r : nat) (h : SimpleHeader)
    : SimpleChains :=
  simple_update_store
    (fun st =>
       if sh_height h =? ss_forkpoint st + Z.of_nat (length (ss_headers st))
       then Build_SimpleStore (ss_forkpoint st) (ss_parent st) (ss_headers st ++ [h])
       else st)
    c r.

Definition simple_fork (c : SimpleChains) (r : nat) (h : SimpleHeader)
    : nat * SimpleChains :=
  let nr := fresh (dom (chain_heap c)) in
  (nr, set_chain_heap
         (<[nr := Build_Blockchain None (Build_SimpleStore (sh_height h) (Some r) [h])]>
            (chain_heap c)) c).

#[global] Instance simple_collaborators : @Collaborators SimpleHeader SimpleStore := {|
  block_height := sh_height;
  deserialize_header hex height :=
    Some (Build_SimpleHeader height (Z.of_nat (String.length hex)) 0);
  check_header c h :=
    list_find (fun r => simple_check_header c r h = true) (dict_refs (blockchains c))
      ≫= (fun p => Some p.2);
  can_connect c h :=
    list_find (fun r => simple_can_connect c r h true = true) (dict_refs (blockchains c))
      ≫= (fun p => Some p.2);
  Blockchain_check_header := simple_check_header;
  Blockchain_can_connect := simple_can_connect;
  Blockchain_height := simple_height;
  Blockchain_forkpoint c r :=
    match chain_heap c !! r with Some b => ss_forkpoint (store b) | None => 0 end;
  Blockchain_parent c r := chain_heap c !! r ≫= (fun b => ss_parent (store b));
  Blockchain_is_valid c r := true;
  Blockchain_read_header := simple_read_header;
  Blockchain_update_size c r := c;
  Blockchain_save_header := simple_save_header;
  Blockchain_write_empty c r :=
    simple_update_store
      (fun st => Build_SimpleStore (ss_forkpoint st) (ss_parent st) []) c r;
  Blockchain_fork := simple_fork;
  Blockchain_connect_chunk c r index hexdata := (false, c);
  Interface_has_timed_out x t := false;
  Interface_ping_required x t := false;
  int_parses port := true;
  CHUNK_SIZE := 1024;
  FEE_TARGETS := [25; 10; 5; 2];
  DEFAULT_SERVERS := {[ "node.example" := {[ "s" := "50002" ]} ]};
  ELECTRUM_VERSION := "3.3.8";
  PROTOCOL_VERSION := "1.4"
|}.

Abbreviation SimpleNetwork := (@Network SimpleHeader SimpleStore string).

(** A network with no interface, no chain and nothing pending. *)
Definition idle_network : SimpleNetwork :=
  Build_Network ∅ ∅ None "node.example:50002:s" ∅ ∅ "disconnected" [] 10 true "s"
    (Build_ChainSet ∅ ∅) 0 ∅ 0 ∅ ∅ [] [] ∅ ∅ [] ∅ [] 0 0 [] 0 [].

(** Two states used below: an active interface with a response cached under
    the index of a scripthash subscription, and under the index of a method
    ending in [contract.subscribe]. *)
Definition connected_network : SimpleNetwork :=
  set_interface (Some 0%nat)
    (set_interfaces {[ "node.example:50002:s" := 0%nat ]}
       (set_iface_heap {[ 0%nat := new_Interface "node.example:50002:s" ]} idle_network)).

Definition cached_scripthash : SimpleNetwork :=
  set_pending_sends [([("blockchain.scripthash.subscribe", [VStr "ab12"])], 7%nat)]
    (set_sub_cache {[ "blockchain.scripthash.subscribe:ab12" := "status-1" ]}
       connected_network).

Definition cached_contract : SimpleNetwork :=
  set_pending_sends [([("blockchain.hash160.contract.subscribe", [VStr "ab12"])], 7%nat)]
    (set_sub_cache {[ "blockchain.hash160.contract.subscribe:ab12" := "status-1" ]}
       connected_network).


(** The local chain used below: headers at heights 0 to 3, each naming its
    predecessor's hash. *)
Definition local_header (h : Z) : SimpleHeader :=
  Build_SimpleHeader h (100 + h) (if h =? 0 then 0 else 99 + h).

Definition local_chains : SimpleChains :=
  Build_ChainSet {[ 0 := 0%nat ]}
    {[ 0%nat := Build_Blockchain None
                  (Build_SimpleStore 0 None (local_header <$> [0; 1; 2; 3])) ]}.

(** One connected interface in default mode next to the local chain. *)
Definition synced_network : SimpleNetwork := set_chains local_chains connected_network.

(** The same interface in the middle of a backward search: the server
    announced height 10 and the header at height 5 is awaited. *)
Definition searching_interface : @Interface SimpleHeader :=
  Build_Interface "node.example:50002:s" None 10 (Some (Build_SimpleHeader 10 6 0))
    Backward (Some 5) (Some 0) None (Some 10) (Some (Build_SimpleHeader 10 6 0)) [] 0 false.

Definition searching_network : SimpleNetwork :=
  set_iface_heap {[ 0%nat := searching_interface ]} synced_network.

(** A server on a fork that shares only the genesis header with the local
    chain, and an interface bisecting against it with [good = 0], [bad = 3]
    and the midpoint 1 awaited. *)
Definition forked_header (h : Z) : SimpleHeader :=
  if h =? 0 then local_header 0
  else Build_SimpleHeader h (200 + h) (if h =? 1 then 100 else 199 + h).

Definition bisecting_interface : @Interface SimpleHeader :=
  Build_Interface "node.example:50002:s" (Some 0%nat) 5 (Some (forked_header 5))
    Binary (Some 1) (Some 0) (Some 0) (Some 3) (Some (forked_header 3)) [] 0 false.

Definition bisecting_network : SimpleNetwork :=
  set_iface_heap {[ 0%nat := bisecting_interface ]} synced_network.

(** Two servers and a contested fork.  The local chain has heights 0 to 3; a
    fork recorded at forkpoint 2 is being filled in by "other.example", which
    holds its marker.  "node.example" is bisecting with [good = 1], [bad = 3]
    and awaits height 2, where its header differs from both chains. *)
Definition contested_chains : SimpleChains :=
  Build_ChainSet {[ 0 := 0%nat; 2 := 1%nat ]}
    {[ 0%nat := Build_Blockchain None
                  (Build_SimpleStore 0 None (local_header <$> [0; 1; 2; 3]));
       1%nat := Build_Blockchain (Some "other.example:50002:s")
                  (Build_SimpleStore 2 (Some 0%nat) [Build_SimpleHeader 2 302 101]) ]}.

Definition contested_network : SimpleNetwork :=
  set_chains contested_chains
    (set_interfaces {[ "node.example:50002:s" := 0%nat; "other.example:50002:s" := 1%nat ]}
       (set_iface_heap
          {[ 0%nat := Build_Interface "node.example:50002:s" (Some 0%nat) 5
                        (Some (Build_SimpleHeader 5 405 404)) Binary (Some 2) (Some 0)
                        (Some 1) (Some 3) (Some (Build_SimpleHeader 3 403 402)) [] 0 false;
             1%nat := Build_Interface "other.example:50002:s" (Some 1%nat) 5
                        (Some (Build_SimpleHeader 5 305 304)) CatchUp (Some 3) (Some 0)
                        None (Some 5) (Some (Build_SimpleHeader 5 305 304)) [] 0 false ]}
          connected_network)).

(** A server that shares heights 0 and 1 with the local chain and differs
    from it, and from the fork recorded at forkpoint 2, from height 2 on; its
    interface is bisecting with [good = 0], [bad = 2] and awaits the midpoint
    1. *)
Definition reorg_header (h : Z) : SimpleHeader :=
  if h <=? 1 then local_header h
  else Build_SimpleHeader h (400 + h) (if h =? 2 then 101 else 399 + h).

Definition reorg_network : SimpleNetwork :=
  set_iface_heap
    (<[ 0%nat := Build_Interface "node.example:50002:s" (Some 0%nat) 5
                   (Some (reorg_header 5)) Binary (Some 1) (Some 0)
                   (Some 0) (Some 2) (Some (reorg_header 2)) [] 0 false ]>
       (iface_heap contested_network))
    contested_network.

(** The active server has announced height 2 while the local chain is at 3. *)
Definition one_behind_network : SimpleNetwork :=
  set_iface_heap
    {[ 0%nat := set_tip 2 (set_blockchain (Some 0%nat)
                  (new_Interface "node.example:50002:s")) ]}
    synced_network.

(** A second connected server [1], with one scripthash subscribed and a token
    watched; in [resubscribing_network] a client has asked for the same
    scripthash again and that request is still unanswered. *)
Definition two_servers_network : SimpleNetwork :=
  set_subscribed_tokens {[ (VStr "h160", VStr "c0ffee", VStr "topic") ]}
    (set_subscribed_addresses {[ VStr "ab12" ]}
       (set_message_id 40
          (set_interfaces
             {[ "node.example:50002:s" := 0%nat; "other.example:50002:s" := 1%nat ]}
             (set_iface_heap
                {[ 0%nat := new_Interface "node.example:50002:s";
                   1%nat := new_Interface "other.example:50002:s" ]}
                connected_network)))).

Definition resubscribing_network : SimpleNetwork :=
  set_unanswered_requests
    [(Some 39, ("blockchain.scripthash.subscribe", [VStr "ab12"], 7%nat))]
    two_servers_network.

(** The default server was marked disconnected 15 seconds ago; auto_connect
    is off and nothing is connected or connecting. *)
Definition cooling_network : SimpleNetwork :=
  set_now 15
    (set_auto_connect false
       (set_disconnected_servers {[ "node.example:50002:s" ]} idle_network)).

(** The interface is filling in the local chain, whose marker it holds: the
    server announced height 10 and the header at height 4 is awaited. *)
Definition catching_interface : @Interface SimpleHeader :=
  Build_Interface "node.example:50002:s" (Some 0%nat) 10 (Some (Build_SimpleHeader 10 110 109))
    CatchUp (Some 4) (Some 0) None None None [] 0 false.

Definition catching_chains : SimpleChains :=
  Build_ChainSet {[ 0 := 0%nat ]}
    {[ 0%nat := Build_Blockchain (Some "node.example:50002:s")
                  (Build_SimpleStore 0 None (local_header <$> [0; 1; 2; 3])) ]}.

Definition catching_network : SimpleNetwork :=
  set_chains catching_chains
    (set_iface_heap {[ 0%nat := catching_interface ]} connected_network).

(** Modelled from the spec: a chunk is "a fixed-size batch of consecutive
    block headers fetched in one request".  The same collaborators with a
    [connect_chunk] that accepts: the chunk [index] holds one header of
    [local_header] per character of its data and replaces the chain from
    height [index * 1024] on. *)
Definition chunk_connect (c : SimpleChains) (r : nat) (index : Z) (hexdata : string)
    : bool * SimpleChains :=
  (true,
   simple_update_store
     (fun st =>
        Build_SimpleStore (ss_forkpoint st) (ss_parent st)
          (take (Z.to_nat (index * 1024 - ss_forkpoint st)) (ss_headers st)
           ++ ((fun k => local_header (index * 1024 + Z.of_nat k))
                 <$> seq 0 (String.length hexdata))))
     c r).

Definition chunk_collaborators : @Collaborators SimpleHeader SimpleStore := {|
  block_height := sh_height;
  deserialize_header hex height :=
    Some (Build_SimpleHeader height (Z.of_nat (String.length hex)) 0);
  check_header c h :=
    list_find (fun r => simple_check_header c r h = true) (dict_refs (blockchains c))
      ≫= (fun p => Some p.2);
  can_connect c h :=
    list_find (fun r => simple_can_connect c r h true = true) (dict_refs (blockchains c))
      ≫= (fun p => Some p.2);
  Blockchain_check_header := simple_check_header;
  Blockchain_can_connect := simple_can_connect;
  Blockchain_height := simple_height;
  Blockchain_forkpoint c r :=
    match chain_heap c !! r with Some b => ss_forkpoint (store b) | None => 0 end;
  Blockchain_parent c r := chain_heap c !! r ≫= (fun b => ss_parent (store b));
  Blockchain_is_valid c r := true;
  Blockchain_read_header := simple_read_header;
  Blockchain_update_size c r := c;
  Blockchain_save_header := simple_save_header;
  Blockchain_write_empty c r :=
    simple_update_store
      (fun st => Build_SimpleStore (ss_forkpoint st) (ss_parent st) []) c r;
  Blockchain_fork := simple_fork;
  Blockchain_connect_chunk := chunk_connect;
  Interface_has_timed_out x t := false;
  Interface_ping_required x t := false;
  int_parses port := true;
  CHUNK_SIZE := 1024;
  FEE_TARGETS := [25; 10; 5; 2];
  DEFAULT_SERVERS := {[ "node.example" := {[ "s" := "50002" ]} ]};
  ELECTRUM_VERSION := "3.3.8";
  PROTOCOL_VERSION := "1.4"
|}.

(** The catching-up interface with the first chunk outstanding; the server
    announced height 5. *)
Definition chunked_network : SimpleNetwork :=
  set_requested_chunks {[ 0 ]}
    (set_iface_heap {[ 0%nat := set_tip 5 catching_interface ]} catching_network).

(** A local chain that holds only a genesis header with hash 0, followed by
    a connected interface in default mode; [auto_connect] is off. *)
Definition genesis_network : SimpleNetwork :=
  set_auto_connect false
    (set_chains
       (Build_ChainSet {[ 0 := 0%nat ]}
          {[ 0%nat := Build_Blockchain None
                        (Build_SimpleStore 0 None [Build_SimpleHeader 0 0 0]) ]})
       connected_network).

(** No header has been stored yet. *)
Definition empty_chain_network : SimpleNetwork :=
  set_chains
    (Build_ChainSet {[ 0 := 0%nat ]}
       {[ 0%nat := Build_Blockchain None (Build_SimpleStore 0 None []) ]})
    connected_network.

(** Callback 7 is subscribed under two indices, next to callback 8 under the
    first. *)
Definition subscribed_network : SimpleNetwork :=
  set_subscriptions
    {[ "blockchain.scripthash.subscribe:ab12" := [7%nat; 8%nat];
       "blockchain.headers.subscribe:True" := [7%nat] ]}
    cached_scripthash.

(** The clock reads 1000; the interface of [catching_network] has been
    awaiting height 4 since 0, and in [genesis_wait_network] it awaits
    height 0. *)
Definition stale_network : SimpleNetwork := set_now 1000 catching_network.

Definition genesis_wait_network : SimpleNetwork :=
  set_iface_heap {[ 0%nat := set_request (Some 0) catching_interface ]} stale_network.

(** The same, with a second server known from the recent-servers list. *)
Definition cooling_peer_network : SimpleNetwork :=
  set_recent_servers ["other.example:50002:s"] cooling_network.
(** * Properties *)

Section properties.
Context {Header Store Response : Type} `{EqDecision Header}.
Context `{!@Collaborators Header Store}.

Local Abbreviation Net := (@Network Header Store Response).
Local Abbreviation Mn := (@M Header Store Response).
Local Abbreviation framed m := (@preserves Header Store Response _ m).
Implicit Types (n : Net).

(** Unfolding of the monad's operations. *)
Ltac unfold_monad :=
  unfold when, attr, get_chains, put_chains in *;
  unfold bind, ret, raise, gets, modify in *.

(** ** Dropped requests *)

(** C10: [queue_request] called without an interface argument while no
    active interface is set returns [None] and leaves the whole state as it
    was: the message-id counter is not incremented and nothing is queued on
    any interface. *)
Theorem queue_request_without_interface_drops (method : string)
    (params : list Value) (n : Net) :
  interface n = None ->
  queue_request method params None n = Ok None n.
Proof.
  intros Hnone. unfold queue_request. unfold_monad.
  rewrite Hnone. reflexivity.
Qed.

(** ** Unsolicited chunks *)

(** C7 (amended): a chunk response that carries a result and a start height
    and no error, whose start height is not a multiple of [CHUNK_SIZE] or
    whose index is not outstanding, is ignored: [on_block_headers] returns
    normally and the state is unchanged (no blockchain, interface or sync
    mode is touched). *)
Theorem on_block_headers_ignores_unsolicited (i : IRef) (x : Interface)
    (result : option string) (height : Z) (rest : list Z) (n : Net) :
  iface_heap n !! i = Some x ->
  CHUNK_SIZE ≠ 0 ->
  (height / CHUNK_SIZE * CHUNK_SIZE ≠ height
   ∨ height / CHUNK_SIZE ∉ requested_chunks n) ->
  on_block_headers i (Build_ChunkResponse None (Some result) (Some (height :: rest))) n
  = Ok tt n.
Proof.
  intros Hi Hcs Hunsolicited.
  unfold on_block_headers, get_iface, floordiv. unfold_monad. simpl.
  rewrite Hi. simpl.
  destruct (decide (CHUNK_SIZE = 0)) as [|_]; [done|]. simpl.
  destruct Hunsolicited as [Hmis | Hout].
  - rewrite (bool_decide_eq_true_2 _ Hmis). reflexivity.
  - rewrite (bool_decide_eq_true_2 _ Hout). rewrite orb_true_r. reflexivity.
Qed.

(** ** Cached subscription responses *)

(** C8 (amended): a subscribe call whose method name does not end in
    [contract.subscribe], processed when a response is cached under its
    index, has its callback called with the cached response; no request is
    queued, no message id is used and the unanswered-request table is
    unchanged.  This holds for the loop body at any state, and so for
    [process_pending_sends] run on that call. *)
Theorem process_pending_sends_cache_hit (cb : Callback) (method : string)
    (params : list Value) (k : string) (r : Response) n :
  endswith method ".subscribe" = true ->
  endswith method "contract.subscribe" = false ->
  get_index method params = Some k ->
  sub_cache n !! k = Some r ->
  let n' := after_cache_hit cb k r n in
  process_pending_send cb method params n = Ok tt n'
  ∧ callback_log n' = callback_log n ++ [(cb, r)]
  ∧ unanswered_requests n' = unanswered_requests n
  ∧ iface_heap n' = iface_heap n
  ∧ message_id n' = message_id n
  ∧ (is_Some (interface n) ->
     pending_sends n = [([(method, params)], cb)] ->
     process_pending_sends n = Ok tt (set_pending_sends [] n')).
Proof.
  intros Hsub Hcontract Hk Hcache n'.
  assert (Hbody : forall m : Net, sub_cache m = sub_cache n -> subscriptions m = subscriptions n ->
            process_pending_send cb method params m = Ok tt (after_cache_hit cb k r m)).
  { intros m Hc Hs. unfold process_pending_send. unfold_monad.
    rewrite Hsub, Hk. simpl. rewrite Hc, Hcache, Hcontract. reflexivity. }
  split; [by apply Hbody|].
  repeat split; try reflexivity.
  intros [a Ha] Hpending.
  unfold process_pending_sends. unfold_monad.
  rewrite Ha, Hpending. simpl. unfold_monad.
  rewrite Hbody by reflexivity. reflexivity.
Qed.


(** ** Tearing a connection down *)

Lemma set_chains_eta n :
  set_chains (set_chain_heap (chain_heap (chains n)) (chains n)) n = n.
Proof. destruct n as [? ? ? ? ? ? ? ? ? ? ? []]. reflexivity. Qed.

(** The marker loop of [connection_down] as one fold over the chain heap. *)
Lemma for_each_upd_chain (f : Blockchain -> Blockchain) (l : list ChainRef) n :
  for_each l (fun r => upd_chain r f) n
  = Ok tt (set_chains
             (set_chain_heap
                (foldl (fun h r => alter f r h) (chain_heap (chains n)) l) (chains n)) n).
Proof.
  revert n. induction l as [|r l IH]; intros n; simpl.
  - unfold ret. by rewrite set_chains_eta.
  - unfold bind, upd_chain, modify. rewrite IH. reflexivity.
Qed.

Lemma nothing_sent_close (j : IRef) n (h : gmap IRef Interface) :
  h = iface_heap n ->
  forall k, unsent_requests <$> alter (set_closed true) j h !! k
            = unsent_requests <$> iface_heap n !! k.
Proof.
  intros -> k. destruct (decide (k = j)) as [->|Hne].
  - rewrite lookup_alter_eq. by destruct (iface_heap n !! j).
  - by rewrite lookup_alter_ne.
Qed.

(** [connection_down] returns once the object registered for the server
    exists; it marks the server as disconnected, closes and unregisters that
    object, clears the markers the server held, and sends nothing. *)
Lemma connection_down_returns (srv : string) n :
  (forall j, interfaces n !! srv = Some j -> is_Some (iface_heap n !! j)) ->
  exists n',
    connection_down srv n = Ok tt n'
    ∧ disconnected_servers n' = disconnected_servers n ∪ {[srv]}
    ∧ nothing_sent n n'
    ∧ interfaces n'
      = match interfaces n !! srv ≫= (fun j => iface_heap n !! j) with
        | Some y => delete (server y) (interfaces n)
        | None => interfaces n
        end
    ∧ iface_heap n'
      = match interfaces n !! srv with
        | Some j => alter (set_closed true) j (iface_heap n)
        | None => iface_heap n
        end
    ∧ blockchains (chains n') = blockchains (chains n)
    ∧ chain_heap (chains n')
      = foldl (fun h r => alter (clear_catch_up srv) r h) (chain_heap (chains n))
          (dict_refs (blockchains (chains n))).
Proof.
  intros Hvalid.
  unfold connection_down, _set_status, trigger_callback, close_interface,
    Interface_close, upd_iface, get_iface.
  repeat unfold_monad. simpl.
  destruct (interfaces n !! srv) as [j|] eqn:Hj.
  - destruct (Hvalid j eq_refl) as [y Hy].
    destruct (bool_decide (srv = default_server n)); simpl;
      rewrite Hj; simpl; rewrite Hy; simpl;
      destruct (bool_decide (server y = default_server n)); simpl;
      rewrite for_each_upd_chain; simpl;
      (eexists; split; [reflexivity|]); simpl;
      repeat split; try reflexivity; by apply nothing_sent_close.
  - destruct (bool_decide (srv = default_server n)); simpl;
      rewrite Hj; simpl;
      rewrite for_each_upd_chain; simpl;
      (eexists; split; [reflexivity|]); simpl;
      repeat split; reflexivity.
Qed.

(** ** Frame lemmas *)

#[local] Instance stable_preorder : PreOrder (@stable Header Store Response).
Proof.
  split.
  - intros n. unfold stable. split_and!; try done. intros i x Hx. by exists x.
  - intros n1 n2 n3 (Hd1 & Hn1 & Hr1 & Hs1 & Ha1 & Hh1) (Hd2 & Hn2 & Hr2 & Hs2 & Ha2 & Hh2).
    unfold stable. split_and!; try congruence.
    + by transitivity (disconnected_servers n2).
    + intros i x Hx. destruct (Hh1 i x Hx) as (x1 & Hx1 & Hsrv1 & Hg1 & Hb1).
      destruct (Hh2 i x1 Hx1) as (x2 & Hx2 & Hsrv2 & Hg2 & Hb2).
      exists x2. split_and!; congruence.
Qed.

(** A state update that leaves the framed fields as they are. *)
Lemma stable_same n n' :
  disconnected_servers n' = disconnected_servers n ->
  now n' = now n ->
  nodes_retry_time n' = nodes_retry_time n ->
  server_retry_time n' = server_retry_time n ->
  auto_connect n' = auto_connect n ->
  iface_heap n' = iface_heap n ->
  stable n n'.
Proof.
  intros Hd Hn Hr Hs Ha Hh. unfold stable. rewrite Hd, Hh.
  split_and!; try done. intros i x Hx. by exists x.
Qed.

(** An attribute assignment on one interface object that is not to [server],
    [good] or [bad]. *)
Lemma stable_alter (f : Interface -> Interface) (j : IRef) n :
  (forall x, server (f x) = server x ∧ good (f x) = good x ∧ bad (f x) = bad x) ->
  stable n (set_iface_heap (alter f j (iface_heap n)) n).
Proof.
  intros Hf. unfold stable. simpl. split_and!; try done.
  intros i x Hx. destruct (decide (i = j)) as [->|Hne].
  - exists (f x). rewrite lookup_alter_eq, Hx. split; [done|]. apply Hf.
  - exists x. by rewrite lookup_alter_ne.
Qed.

Lemma stable_disconnect (srv : string) n :
  stable n (set_disconnected_servers (disconnected_servers n ∪ {[srv]}) n).
Proof.
  unfold stable. simpl. split_and!; try done.
  - apply union_subseteq_l.
  - intros i x Hx. by exists x.
Qed.

Lemma stable_allocate (x : Interface) n :
  stable n (set_iface_heap (<[fresh (dom (iface_heap n)) := x]> (iface_heap n)) n).
Proof.
  unfold stable. simpl. split_and!; try done.
  intros i y Hy. exists y. split; [|done].
  rewrite lookup_insert_ne; [done|]. intros <-.
  apply (is_fresh (dom (iface_heap n))). apply elem_of_dom. by eexists.
Qed.

Ltac solve_stable :=
  first [ apply stable_disconnect
        | apply stable_allocate
        | apply stable_alter; intros ?; by split_and!
        | by apply stable_same ].

Lemma preserves_ret {A} (a : A) : framed (ret a : Mn A).
Proof. intros n. reflexivity. Qed.

Lemma preserves_raise {A} (e : Exn) : framed (raise e : Mn A).
Proof. intros n. reflexivity. Qed.

Lemma preserves_gets {A} (f : Net -> A) : framed (gets f).
Proof. intros n. reflexivity. Qed.

Lemma preserves_modify (f : Net -> Net) :
  (forall n, stable n (f n)) -> framed (modify f).
Proof. intros Hf n. apply Hf. Qed.

Lemma preserves_bind {A B} (m : Mn A) (k : A -> Mn B) :
  framed m -> (forall a, framed (k a)) -> framed (bind m k).
Proof.
  intros Hm Hk n. unfold bind. specialize (Hm n).
  destruct (m n) as [a n1|e n1]; simpl in *; [|done].
  by transitivity n1; [|apply Hk].
Qed.

Lemma preserves_when (b : bool) (m : Mn unit) : framed m -> framed (when b m).
Proof. intros Hm. destruct b; [done|]. apply preserves_ret. Qed.

Lemma preserves_for_each {A} (l : list A) (body : A -> Mn unit) :
  (forall a, framed (body a)) -> framed (for_each l body).
Proof.
  intros Hbody. induction l as [|a l IH]; simpl.
  - apply preserves_ret.
  - by apply preserves_bind.
Qed.

Lemma preserves_get_iface (i : IRef) : framed (get_iface i).
Proof. intros n. unfold get_iface. by destruct (iface_heap n !! i). Qed.

Lemma preserves_get_chain (r : ChainRef) : framed (get_chain r).
Proof. intros n. unfold get_chain. by destruct (chain_heap (chains n) !! r). Qed.

Lemma preserves_random_choice {A} (l : list A) : framed (random_choice l : Mn A).
Proof.
  intros n. unfold random_choice.
  destruct (l !! _); simpl; [|done]. by apply stable_same.
Qed.

Create HintDb frame.
#[local] Hint Resolve preserves_get_iface preserves_get_chain : frame.

(** Decompose a computation along its binds, loops and case distinctions. *)
Ltac frame_step :=
  first
    [ solve [auto with frame]
    | apply preserves_ret
    | apply preserves_raise
    | apply preserves_gets
    | apply preserves_random_choice
    | apply preserves_bind; [|intros ?]
    | apply preserves_when
    | apply preserves_for_each; intros ?
    | apply preserves_modify; intros ?; solve_stable
    | match goal with
      | |- preserves (match ?x with _ => _ end) => destruct x
      end ].

Ltac frame := repeat frame_step.

Lemma preserves_attr {A} (o : option A) : framed (attr o : Mn A).
Proof. unfold attr. frame. Qed.

Lemma preserves_floordiv (a b : Z) : framed (floordiv a b : Mn Z).
Proof. unfold floordiv. frame. Qed.

Lemma preserves_upd_iface (i : IRef) (f : Interface -> Interface) :
  (forall x, server (f x) = server x ∧ good (f x) = good x ∧ bad (f x) = bad x) ->
  framed (upd_iface i f).
Proof. intros Hf n. by apply stable_alter. Qed.

Lemma preserves_upd_chain (r : ChainRef) (f : Blockchain -> Blockchain) :
  framed (upd_chain r f).
Proof. unfold upd_chain. frame. Qed.

Lemma preserves_put_chains (c : ChainSet) : framed (put_chains c).
Proof. unfold put_chains. frame. Qed.

#[local] Hint Resolve preserves_attr preserves_floordiv preserves_upd_chain
  preserves_put_chains : frame.

Lemma preserves_iface_chain (i : IRef) : framed (iface_chain i).
Proof. unfold iface_chain. frame. Qed.

Lemma preserves_trigger_callback (event : string) (args : list Value) :
  framed (trigger_callback event args).
Proof. unfold trigger_callback. frame. Qed.

#[local] Hint Resolve preserves_iface_chain preserves_trigger_callback : frame.

Lemma preserves_set_status (status : string) : framed (_set_status status).
Proof. unfold _set_status. frame. Qed.

Lemma preserves_Interface_queue_request (i : IRef) (method : string)
    (params : list Value) (id : Z) :
  framed (Interface_queue_request i method params id).
Proof. unfold Interface_queue_request, upd_iface. frame. Qed.

Lemma preserves_Interface_close (i : IRef) : framed (Interface_close i).
Proof. unfold Interface_close, upd_iface. frame. Qed.

#[local] Hint Resolve preserves_set_status preserves_Interface_queue_request
  preserves_Interface_close : frame.

Lemma preserves_queue_request (method : string) (params : list Value)
    (iface : option IRef) :
  framed (queue_request method params iface).
Proof. unfold queue_request. frame. Qed.

#[local] Hint Resolve preserves_queue_request : frame.

Lemma preserves_request_header (i : IRef) (height : Z) :
  framed (request_header i height).
Proof. unfold request_header, upd_iface. frame. Qed.

Lemma preserves_request_chunk (i : IRef) (index : Z) : framed (request_chunk i index).
Proof. unfold request_chunk. frame. Qed.

Lemma preserves_close_interface (iface : option IRef) : framed (close_interface iface).
Proof. unfold close_interface. frame. Qed.

#[local] Hint Resolve preserves_request_header preserves_request_chunk
  preserves_close_interface : frame.

Lemma preserves_connection_down (srv : string) : framed (connection_down srv).
Proof. unfold connection_down. frame. Qed.

Lemma preserves_start_interface (srv : string) : framed (start_interface srv).
Proof. unfold start_interface. frame. Qed.

#[local] Hint Resolve preserves_connection_down preserves_start_interface : frame.

Lemma preserves_start_random_interface : framed start_random_interface.
Proof. unfold start_random_interface, pick_random_server. frame. Qed.

Lemma preserves_send_subscriptions : framed send_subscriptions.
Proof. unfold send_subscriptions, resend_unanswered. frame. Qed.

#[local] Hint Resolve preserves_start_random_interface preserves_send_subscriptions : frame.

Lemma preserves_stop_current_interface (srv : string) (i : IRef) (cur : option IRef) :
  framed (stop_current_interface srv i cur).
Proof. unfold stop_current_interface. frame. Qed.

#[local] Hint Resolve preserves_stop_current_interface : frame.

Lemma preserves_switch_to_interface (srv : string) : framed (switch_to_interface srv).
Proof. unfold switch_to_interface. frame. Qed.

#[local] Hint Resolve preserves_switch_to_interface : frame.

Lemma preserves_switch_to_random_interface : framed switch_to_random_interface.
Proof. unfold switch_to_random_interface. frame. Qed.

Lemma preserves_allocate_interface (x : Interface) : framed (allocate_interface x).
Proof. intros n. apply stable_allocate. Qed.

#[local] Hint Resolve preserves_allocate_interface : frame.

Lemma preserves_new_interface (srv : string) (socket : nat) :
  framed (new_interface srv socket).
Proof. unfold new_interface, add_recent_server. frame. Qed.

#[local] Hint Resolve preserves_switch_to_random_interface preserves_new_interface : frame.

Lemma preserves_maintain_connections : framed maintain_connections.
Proof. unfold maintain_connections. frame. Qed.

Lemma preserves_maintain_interfaces : framed maintain_interfaces.
Proof. unfold maintain_interfaces. frame. Qed.

Lemma preserves_resolve_fork (i : IRef) (header : Header) :
  framed (resolve_fork i header).
Proof.
  unfold resolve_fork.
  frame; apply preserves_upd_iface; intros ?; by split_and!.
Qed.

#[local] Hint Resolve preserves_resolve_fork : frame.

Lemma preserves_on_get_header_adjacent (i : IRef) (x : Interface) (header : Header) :
  framed (on_get_header_adjacent i x header).
Proof. unfold on_get_header_adjacent. frame. Qed.

Lemma preserves_on_get_header_next (i : IRef) (srv : string) (next_height : option Z) :
  framed (on_get_header_next i srv next_height).
Proof.
  unfold on_get_header_next.
  frame; apply preserves_upd_iface; intros ?; by split_and!.
Qed.

(** ** Tip notifications *)

(** C3 (amended): a tip notification with a non-zero announced height,
    received in default mode, whose header neither matches nor connects to a
    known chain.  If the maximum chain height [tip] is non-negative the
    interface enters backward mode with [bad] set to the announced height and
    a header request for [min tip (height - 1)] is queued.  If it is negative
    and the genesis chain's marker is free, the interface takes the marker,
    enters catch_up on that chain and requests height 0; if the marker is
    taken nothing is requested and the interface stays in default mode. *)
Theorem on_notify_header_unknown_tip (i : IRef) (x : Interface) (hex : string)
    (announced : Z) (header : Header) (tip : Z) n :
  iface_heap n !! i = Some x ->
  mode x = Default ->
  deserialize_header hex announced = Some header ->
  block_height header ≠ 0 ->
  check_header (chains n) header = None ->
  can_connect (chains n) header = None ->
  max_list (Blockchain_height (chains n) <$> dict_refs (blockchains (chains n))) = Some tip ->
  let height := block_height header in
  (tip >= 0 ->
   exists n' x',
     on_notify_header i (Some (hex, announced)) n = Ok tt n'
     ∧ iface_heap n' !! i = Some x'
     ∧ mode x' = Backward
     ∧ bad x' = Some height
     ∧ bad_header x' = Some header
     ∧ header_requested i (Z.min tip (height - 1)) n n')
  ∧ (tip < 0 ->
     forall g b,
     blockchains (chains n) !! 0 = Some g ->
     chain_heap (chains n) !! g = Some b ->
     exists n' x',
       on_notify_header i (Some (hex, announced)) n = Ok tt n'
       ∧ iface_heap n' !! i = Some x'
       ∧ if decide (catch_up b = None) then
           mode x' = CatchUp
           ∧ blockchain x' = Some g
           ∧ catch_up <$> chain_heap (chains n') !! g = Some (Some (server x))
           ∧ header_requested i 0 n n'
         else
           mode x' = Default
           ∧ chains n' = chains n
           ∧ nothing_sent n n').
Proof.
  intros Hi Hmode Hde Hnz Hcheck Hconn Hmax height.
  split.
  - intros Htip.
    unfold on_notify_header. unfold_monad. rewrite Hde. simpl.
    case_decide; [done|].
    unfold upd_iface, get_iface. unfold_monad. simpl.
    rewrite lookup_alter_eq, Hi. simpl. rewrite Hmode. simpl.
    unfold trigger_callback. unfold_monad. simpl.
    rewrite Hcheck, Hconn, Hmax.
    case_decide; [|done]. simpl.
    unfold request_header, queue_request, Interface_queue_request, upd_iface.
    unfold_monad. simpl.
    do 2 eexists. split; [reflexivity|]. simpl.
    rewrite !lookup_alter_eq, Hi. simpl.
    repeat split; try reflexivity.
    do 2 eexists. rewrite Hi. simpl. rewrite !lookup_alter_eq, Hi. simpl.
    repeat split; reflexivity.
  - intros Htip g b Hg Hb.
    unfold on_notify_header. unfold_monad. rewrite Hde. simpl.
    case_decide; [done|].
    unfold upd_iface, get_iface. unfold_monad. simpl.
    rewrite lookup_alter_eq, Hi. simpl. rewrite Hmode. simpl.
    unfold trigger_callback. unfold_monad. simpl.
    rewrite Hcheck, Hconn, Hmax.
    case_decide; [lia|]. simpl. rewrite Hg.
    unfold get_chain. simpl. rewrite Hb.
    destruct (decide (catch_up b = None)) as [Hfree | Htaken]; simpl.
    + unfold request_header, queue_request, Interface_queue_request, upd_iface, upd_chain.
      unfold_monad. simpl.
      do 2 eexists. split; [reflexivity|]. simpl.
      rewrite !lookup_alter_eq, Hi, Hb. simpl.
      repeat split; try reflexivity.
      do 2 eexists. rewrite Hi. simpl. rewrite !lookup_alter_eq, Hi. simpl.
      repeat split; reflexivity.
    + do 2 eexists. split; [reflexivity|]. simpl.
      rewrite lookup_alter_eq, Hi. simpl.
      repeat split; try reflexivity; try (by destruct n as [? ? ? ? ? ? ? ? ? ? ? []]).
      intros j. simpl. destruct (decide (j = i)) as [->|Hne].
      * rewrite lookup_alter_eq, Hi. reflexivity.
      * rewrite lookup_alter_ne by done. reflexivity.
Qed.

(** ** Backward search *)

#[local] Arguments connection_down : simpl never.

(** A backward search that reaches height 0 without connecting: the
    registered interface is torn down by [connection_down]. *)
Lemma backward_genesis_mismatch (i : IRef) (x : Interface) (header : Header) n :
  iface_heap n !! i = Some x ->
  mode x = Backward ->
  request x = Some (block_height header) ->
  check_header (chains n) header = None ->
  (forall r, can_connect (chains n) header = Some r ->
             exists b, chain_heap (chains n) !! r = Some b ∧ catch_up b ≠ None) ->
  block_height header = 0 ->
  interfaces n !! server x = Some i ->
  exists n' x',
    on_get_header i (Some header) n = Ok tt n'
    ∧ server x ∈ disconnected_servers n'
    ∧ interfaces n' !! server x = None
    ∧ iface_heap n' !! i = Some x'
    ∧ closed x' = true
    ∧ mode x' = Default
    ∧ request x' = None
    ∧ nothing_sent n n'.
Proof.
  intros Hi Hmode Hreq Hcheck Hconn Hh Hregistered.
  assert (Hmiss :
    match can_connect (chains n) header with
    | Some r =>
        match chain_heap (chains n) !! r with
        | Some b => if decide (catch_up b = None) then Some (inl r) else None
        | None => Some (inr ())
        end
    | None => None
    end = (None : option (nat + unit))).
  { destruct (can_connect (chains n) header) as [r|] eqn:Hr; [|done].
    destruct (Hconn r eq_refl) as (b & -> & Hb). by case_decide. }
  destruct (connection_down_returns (server x) n) as
    (n1 & Hdown & Hdisc & [Hid Hsent] & Hifs & Hheap & _).
  { intros j Hj. rewrite Hregistered in Hj. injection Hj as <-. by eexists. }
  rewrite Hregistered in Hifs, Hheap. simpl in Hifs. rewrite Hi in Hifs.
  assert (Hi1 : iface_heap n1 !! i = Some (set_closed true x)).
  { rewrite Hheap, lookup_alter_eq, Hi. reflexivity. }
  unfold on_get_header, on_get_header_next, on_get_header_backward, get_iface.
  repeat unfold_monad.
  rewrite Hi. simpl. rewrite Hreq.
  case_decide; [done|]. rewrite Hmode, Hcheck. simpl.
  rewrite Hmiss. case_decide; [|done].
  rewrite Hi. simpl. rewrite Hdown. simpl.
  unfold upd_iface. repeat unfold_monad. simpl.
  do 2 eexists. split; [reflexivity|]. simpl.
  rewrite lookup_alter_eq, Hi1. simpl.
  split_and!; try done.
  + rewrite Hdisc. apply elem_of_union; right. by apply elem_of_singleton.
  + rewrite Hifs. apply lookup_delete_eq.
  + split; [done|]. intros j. simpl. rewrite <- Hsent.
    destruct (decide (j = i)) as [->|Hne].
    * rewrite lookup_alter_eq. by destruct (iface_heap n1 !! i).
    * by rewrite lookup_alter_ne.
Qed.

(** C4: a backward-mode response at the awaited height [h] that neither
    connects to a chain with a free marker nor matches a known chain.  For
    [h] other than 0 (so for every [h > 0]) the interface records [bad = h]
    and [bad_header], stays in backward mode, and a header request for
    [max 0 (tip - 2 * (tip - h))] is queued.  For [h = 0] the registered
    interface is torn down by [connection_down]: its server is marked
    disconnected, it is unregistered and closed, and no request is queued. *)
Theorem on_get_header_backward_miss (i : IRef) (x : Interface) (header : Header) n :
  iface_heap n !! i = Some x ->
  mode x = Backward ->
  request x = Some (block_height header) ->
  check_header (chains n) header = None ->
  (forall r, can_connect (chains n) header = Some r ->
             exists b, chain_heap (chains n) !! r = Some b ∧ catch_up b ≠ None) ->
  let h := block_height header in
  (h ≠ 0 ->
   exists n' x',
     on_get_header i (Some header) n = Ok tt n'
     ∧ iface_heap n' !! i = Some x'
     ∧ mode x' = Backward
     ∧ bad x' = Some h
     ∧ bad_header x' = Some header
     ∧ header_requested i (Z.max 0 (tip x - 2 * (tip x - h))) n n')
  ∧ (h = 0 ->
     interfaces n !! server x = Some i ->
     exists n' x',
       on_get_header i (Some header) n = Ok tt n'
       ∧ server x ∈ disconnected_servers n'
       ∧ interfaces n' !! server x = None
       ∧ iface_heap n' !! i = Some x'
       ∧ closed x' = true
       ∧ mode x' = Default
       ∧ request x' = None
       ∧ nothing_sent n n').
Proof.
  intros Hi Hmode Hreq Hcheck Hconn h.
  assert (Hmiss :
    match can_connect (chains n) header with
    | Some r =>
        match chain_heap (chains n) !! r with
        | Some b => if decide (catch_up b = None) then Some (inl r) else None
        | None => Some (inr ())
        end
    | None => None
    end = (None : option (nat + unit))).
  { destruct (can_connect (chains n) header) as [r|] eqn:Hr; [|done].
    destruct (Hconn r eq_refl) as (b & -> & Hb). by case_decide. }
  split.
  - intros Hh.
    unfold on_get_header, on_get_header_next, on_get_header_backward, get_iface.
    repeat unfold_monad.
    rewrite Hi. simpl. rewrite Hreq.
    case_decide; [done|]. rewrite Hmode, Hcheck. simpl.
    rewrite Hmiss. case_decide; [done|].
    unfold upd_iface, request_header, queue_request, Interface_queue_request, upd_iface.
    repeat unfold_monad. simpl.
    rewrite lookup_alter_eq, Hi. simpl.
    case_decide; [lia|]. simpl.
    rewrite lookup_alter_eq, Hi. simpl. rewrite Hmode. simpl.
    do 2 eexists. split; [reflexivity|]. simpl.
    rewrite !lookup_alter_eq, Hi. simpl.
    repeat split; try done.
    do 2 eexists. rewrite Hi. simpl. rewrite !lookup_alter_eq, Hi. simpl.
    repeat split; reflexivity.
  - intros Hh Hregistered. by apply backward_genesis_mismatch.
Qed.

(** ** Binary search *)

Lemma log2_half (a : Z) : 2 <= a -> Z.log2 (a / 2) = Z.log2 a - 1.
Proof.
  intros Ha. change 2 with (2 ^ 1) at 1. rewrite <- Z.shiftr_div_pow2 by lia.
  rewrite Z.log2_shiftr by lia.
  assert (1 <= Z.log2 a) by (change 1 with (Z.log2 2); by apply Z.log2_le_mono).
  lia.
Qed.

Lemma log2_up_upper_half (a : Z) : 2 <= a -> Z.log2_up (a - a / 2) = Z.log2_up a - 1.
Proof.
  intros Ha.
  rewrite (Z.log2_up_eqn a) by lia.
  destruct (decide (a = 2)) as [->|Hne]; [reflexivity|].
  assert (Hdiv : a - a / 2 - 1 = (a - 1) / 2).
  { pose proof (Z.div_mod a 2 ltac:(lia)). pose proof (Z.mod_pos_bound a 2 ltac:(lia)).
    pose proof (Z.div_mod (a - 1) 2 ltac:(lia)).
    pose proof (Z.mod_pos_bound (a - 1) 2 ltac:(lia)). lia. }
  assert (1 < a - a / 2).
  { pose proof (Z.div_mod a 2 ltac:(lia)). pose proof (Z.mod_pos_bound a 2 ltac:(lia)). lia. }
  rewrite (Z.log2_up_eqn (a - a / 2)) by lia.
  replace (Z.pred (a - a / 2)) with ((a - 1) / 2) by lia.
  rewrite log2_half by lia. replace (Z.pred a) with (a - 1) by lia. lia.
Qed.

(** The two possible gaps after one probe sit between the halves. *)
Lemma bisection_bounds (a a1 : Z) :
  2 <= a -> (a1 = a / 2 ∨ a1 = a - a / 2) ->
  Z.log2 a - 1 <= Z.log2 a1 ∧ Z.log2_up a1 <= Z.log2_up a - 1.
Proof.
  intros Ha Ha1.
  assert (a / 2 <= a - a / 2).
  { pose proof (Z.div_mod a 2 ltac:(lia)). pose proof (Z.mod_pos_bound a 2 ltac:(lia)). lia. }
  rewrite <- log2_half, <- log2_up_upper_half by done.
  destruct Ha1 as [-> | ->].
  - split; [done|]. by apply Z.log2_up_le_mono.
  - split; [|done]. by apply Z.log2_le_mono.
Qed.

Lemma midpoint (g b : Z) : (b + g) / 2 = g + (b - g) / 2.
Proof.
  replace (b + g) with ((b - g) + g * 2) by lia.
  rewrite Z.div_add by lia. lia.
Qed.

(** One binary-mode response.  While the new bounds are not adjacent the
    interface stays in binary mode and the midpoint is requested; once they
    are adjacent, they stay as they are until the call ends. *)
Lemma binary_step (i : IRef) (x : Interface) (header : Header) (g b : Z) n :
  iface_heap n !! i = Some x ->
  mode x = Binary ->
  request x = Some (block_height header) ->
  good x = Some g ->
  bad x = Some b ->
  let h := block_height header in
  let g1 := (bounds_after (bool_decide (is_Some (check_header (chains n) header))) h g b).1 in
  let b1 := (bounds_after (bool_decide (is_Some (check_header (chains n) header))) h g b).2 in
  (b1 ≠ g1 + 1 -> 0 <= (b1 + g1) / 2 ->
   exists n1 x1,
     on_get_header i (Some header) n = Ok tt n1
     ∧ iface_heap n1 !! i = Some x1
     ∧ mode x1 = Binary
     ∧ good x1 = Some g1
     ∧ bad x1 = Some b1
     ∧ chains n1 = chains n
     ∧ header_requested i ((b1 + g1) / 2) n n1)
  ∧ (b1 = g1 + 1 ->
     exists x1,
       iface_heap (state_of (on_get_header i (Some header) n)) !! i = Some x1
       ∧ good x1 = Some g1
       ∧ bad x1 = Some b1).
Proof.
  intros Hi Hmode Hreq Hg Hb h g1 b1.
  split.
  - intros Hgap Hmid.
    unfold on_get_header, on_get_header_next, on_get_header_binary, get_iface, upd_iface.
    repeat unfold_monad. rewrite Hi. simpl. rewrite Hreq.
    case_decide; [done|]. rewrite Hmode.
    subst g1 b1 h. destruct (check_header (chains n) header) as [r|] eqn:Hchk; simpl in *.
    + rewrite lookup_alter_eq, Hi. simpl. rewrite Hb. simpl.
      case_decide; [|done]. simpl. case_decide; [lia|]. simpl.
      rewrite lookup_alter_eq, Hi. simpl. rewrite Hmode. simpl.
      unfold request_header, queue_request, Interface_queue_request, upd_iface.
      repeat unfold_monad. simpl.
      do 2 eexists. split; [reflexivity|]. simpl.
      rewrite !lookup_alter_eq, Hi. simpl.
      split_and!; try done.
      do 2 eexists. rewrite Hi. simpl. rewrite !lookup_alter_eq, Hi. simpl.
      split_and!; reflexivity.
    + rewrite lookup_alter_eq, Hi. simpl. rewrite Hg. simpl.
      case_decide; [|done]. simpl. case_decide; [lia|]. simpl.
      rewrite lookup_alter_eq, Hi. simpl. rewrite Hmode. simpl.
      unfold request_header, queue_request, Interface_queue_request, upd_iface.
      repeat unfold_monad. simpl.
      do 2 eexists. split; [reflexivity|]. simpl.
      rewrite !lookup_alter_eq, Hi. simpl.
      split_and!; try done.
      do 2 eexists. rewrite Hi. simpl. rewrite !lookup_alter_eq, Hi. simpl.
      split_and!; reflexivity.
  - intros Hadj.
    assert (Htail : forall (x1 : Interface) (n1 : Net),
              iface_heap n1 !! i = Some x1 ->
              exists x2,
                iface_heap (state_of (bind (on_get_header_adjacent i x1 header)
                                        (on_get_header_next i (server x)) n1)) !! i
                = Some x2
                ∧ good x2 = good x1 ∧ bad x2 = bad x1).
    { intros x1 n1 Hx1.
      assert (Hframe : framed (bind (on_get_header_adjacent i x1 header)
                                 (on_get_header_next i (server x)))).
      { apply preserves_bind;
          [apply preserves_on_get_header_adjacent
          |intros ?; apply preserves_on_get_header_next]. }
      destruct (Hframe n1) as (_ & _ & _ & _ & _ & Hheap).
      destruct (Hheap i x1 Hx1) as (x2 & Hx2 & _ & Hg2 & Hb2). by exists x2. }
    unfold on_get_header, on_get_header_binary, get_iface, upd_iface.
    repeat unfold_monad. rewrite Hi. simpl. rewrite Hreq.
    case_decide; [done|]. rewrite Hmode.
    subst g1 b1 h. destruct (check_header (chains n) header) as [r|] eqn:Hchk; simpl in *.
    + rewrite lookup_alter_eq, Hi. simpl. rewrite Hb. simpl.
      case_decide; [done|].
      match goal with
      | |- context [on_get_header_adjacent i ?x1 header ?n1] =>
          destruct (Htail x1 n1) as (x2 & Hx2 & Hg2 & Hb2)
      end.
      { simpl. by rewrite lookup_alter_eq, Hi. }
      exists x2. unfold bind in Hx2. split; [exact Hx2|]. by rewrite Hg2, Hb2.
    + rewrite lookup_alter_eq, Hi. simpl. rewrite Hg. simpl.
      case_decide; [done|].
      match goal with
      | |- context [on_get_header_adjacent i ?x1 header ?n1] =>
          destruct (Htail x1 n1) as (x2 & Hx2 & Hg2 & Hb2)
      end.
      { simpl. by rewrite lookup_alter_eq, Hi. }
      exists x2. unfold bind in Hx2. split; [exact Hx2|]. by rewrite Hg2, Hb2.
Qed.

#[local] Arguments on_get_header : simpl never.

(** The call that finds the bounds adjacent: [x1] is the interface after the
    response has been recorded.  If the call returns with the interface still
    in binary mode, the reorg branch was taken: a fork is registered at [bad],
    its header there differs from [bad_header], its parent holds the response,
    and the interface now follows the parent and awaits [bad] once more. *)
Lemma adjacent_stays_binary (i : IRef) (x1 : Interface) (header : Header) (srv : string)
    (g1 b1 : Z) (n1 n' : Net) (x' : Interface) :
  iface_heap n1 !! i = Some x1 ->
  mode x1 = Binary ->
  good x1 = Some g1 ->
  bad x1 = Some b1 ->
  0 <= b1 ->
  bind (on_get_header_adjacent i x1 header) (on_get_header_next i srv) n1 = Ok tt n' ->
  iface_heap n' !! i = Some x' ->
  mode x' = Binary ->
  exists r branch parent bad_hdr,
    blockchain x1 = Some r
    ∧ bad_header x1 = Some bad_hdr
    ∧ Blockchain_can_connect (chains n1) r bad_hdr false = true
    ∧ blockchains (chains n1) !! b1 = Some branch
    ∧ Blockchain_check_header (chains n1) branch bad_hdr = false
    ∧ Blockchain_parent (chains n1) branch = Some parent
    ∧ Blockchain_check_header (chains n1) parent header = true
    ∧ blockchain x' = Some parent
    ∧ request x' = Some b1
    ∧ good x' = Some g1
    ∧ bad x' = Some b1
    ∧ chains n' = chains n1.
Proof.
  intros Hx1 Hmode Hg Hb Hb0.
  unfold on_get_header_adjacent, resolve_fork, on_get_header_next, iface_chain, get_iface,
    get_chain, upd_iface, upd_chain, trigger_callback, request_header, request_chunk,
    floordiv, queue_request, Interface_queue_request, upd_iface.
  repeat unfold_monad. rewrite Hx1. simpl.
  repeat first
    [ progress simpl
    | rewrite lookup_alter_eq
    | rewrite Hx1
    | rewrite Hg
    | rewrite Hb
    | rewrite Hmode
    | match goal with
      | |- context [match ?t with _ => _ end] =>
          lazymatch t with
          | context [match _ with _ => _ end] => fail
          | blockchain _ => destruct t eqn:?
          | bad_header _ => destruct t eqn:?
          | negb _ => destruct t eqn:?
          | Blockchain_check_header _ _ _ => destruct t eqn:?
          | Blockchain_can_connect _ _ _ _ => destruct t eqn:?
          | Blockchain_parent _ _ => destruct t eqn:?
          | Blockchain_fork _ _ _ => destruct t eqn:?
          | connection_down _ _ => destruct t as [[] ?|? ?] eqn:?
          | blockchains _ !! _ => destruct t eqn:?
          | chain_heap _ !! _ => destruct t eqn:?
          | iface_heap _ !! _ => destruct t eqn:?
          | decide _ => destruct t
          | bool_decide _ => destruct t eqn:?
          | (_ && _)%bool => destruct t eqn:?
          end
      end ].
  all: try discriminate.
  all: try (intros [= <-]; simpl; rewrite ?lookup_alter_eq;
            match goal with
            | |- context [iface_heap ?m !! ?j] => destruct (iface_heap m !! j) eqn:?
            end; simpl; intros [= <-]; simpl; try rewrite Hmode; discriminate).
  intros [= <-]. simpl. rewrite !lookup_alter_eq, Hx1. simpl. intros [= <-] _.
  simplify_eq. eexists _, _, _, _. split_and!; try done.
  by destruct (Blockchain_can_connect _ _ _ _).
Qed.

(** Conversely, the reorg branch keeps the interface in binary mode and asks
    for [bad] again. *)
Lemma reorg_stays_binary (i : IRef) (x1 : Interface) (header bad_hdr : Header)
    (srv : string) (r branch parent : ChainRef) (b1 : Z) (n1 : Net) :
  iface_heap n1 !! i = Some x1 ->
  mode x1 = Binary ->
  bad x1 = Some b1 ->
  is_Some (good x1) ->
  0 <= b1 ->
  blockchain x1 = Some r ->
  bad_header x1 = Some bad_hdr ->
  Blockchain_can_connect (chains n1) r bad_hdr false = true ->
  blockchains (chains n1) !! b1 = Some branch ->
  Blockchain_check_header (chains n1) branch bad_hdr = false ->
  Blockchain_parent (chains n1) branch = Some parent ->
  Blockchain_check_header (chains n1) parent header = true ->
  exists n' x',
    bind (on_get_header_adjacent i x1 header) (on_get_header_next i srv) n1 = Ok tt n'
    ∧ iface_heap n' !! i = Some x'
    ∧ mode x' = Binary
    ∧ blockchain x' = Some parent
    ∧ header_requested i b1 n1 n'.
Proof.
  intros Hx1 Hmode Hb [g1 Hg] Hb0 Hr Hbh Hconnect Hbranch Hdiffers Hparent Hholds.
  unfold on_get_header_adjacent, resolve_fork, on_get_header_next, iface_chain, get_iface,
    upd_iface, request_header, queue_request, Interface_queue_request, upd_iface.
  repeat unfold_monad. rewrite Hx1. simpl. rewrite Hr, Hbh. simpl.
  rewrite Hconnect. simpl. rewrite Hx1. simpl. rewrite Hb, Hg, Hbh. simpl.
  rewrite Hbranch, Hdiffers. simpl. rewrite Hparent. simpl. rewrite Hholds. simpl.
  rewrite ?Hparent. simpl. rewrite decide_False by lia. simpl.
  rewrite lookup_alter_eq, Hx1. simpl. rewrite Hmode. simpl.
  do 2 eexists. split; [reflexivity|]. simpl.
  rewrite !lookup_alter_eq, Hx1. simpl. split_and!; try done.
  do 2 eexists. rewrite Hx1. simpl. rewrite !lookup_alter_eq, Hx1. simpl.
  split_and!; reflexivity.
Qed.

(** The narrowing phase: the round trips up to the one that leaves the
    bounds adjacent. *)
Lemma binary_search_narrowing (fuel : nat) (reply : Z -> Header) (i : IRef) :
  (forall h, block_height (reply h) = h) ->
  forall (x : Interface) (g b : Z) n,
    iface_heap n !! i = Some x ->
    mode x = Binary ->
    good x = Some g ->
    bad x = Some b ->
    request x = Some ((b + g) / 2) ->
    0 <= g ->
    g + 1 < b ->
    (Z.to_nat (Z.log2_up (b - g)) <= fuel)%nat ->
    exists k n1 x1 h1 x' g',
      binary_round_trips k reply i n = Some n1
      ∧ (forall j, (j <= k)%nat ->
           exists nj xj,
             binary_round_trips j reply i n = Some nj
             ∧ iface_heap nj !! i = Some xj
             ∧ mode xj = Binary
             ∧ adjacent xj = false)
      ∧ iface_heap n1 !! i = Some x1
      ∧ request x1 = Some h1
      ∧ iface_heap (state_of (on_get_header i (Some (reply h1)) n1)) !! i = Some x'
      ∧ good x' = Some g'
      ∧ bad x' = Some (g' + 1)
      ∧ g <= g' < b
      ∧ Z.log2 (b - g) <= Z.of_nat (S k) <= Z.log2_up (b - g).
Proof.
  intros Hreply.
  induction fuel as [|fuel IH]; intros x g b n Hi Hmode Hg Hb Hreq Hg0 Hgap Hfuel.
  { assert (0 < Z.log2_up (b - g)) by (apply Z.log2_up_pos; lia). lia. }
  assert (Hmid : (b + g) / 2 = g + (b - g) / 2) by apply midpoint.
  assert (Hhalf : 1 <= (b - g) / 2 < b - g).
  { pose proof (Z.div_mod (b - g) 2 ltac:(lia)).
    pose proof (Z.mod_pos_bound (b - g) 2 ltac:(lia)). lia. }
  assert (Hhere : adjacent x = false).
  { unfold adjacent. rewrite Hg, Hb. apply bool_decide_eq_false_2. lia. }
  pose proof (binary_step i x (reply ((b + g) / 2)) g b n Hi Hmode) as Hstep.
  cbv zeta in Hstep. rewrite !Hreply in Hstep. specialize (Hstep Hreq Hg Hb).
  set (matched := bool_decide (is_Some (check_header (chains n) (reply ((b + g) / 2)))))
    in Hstep.
  set (g1 := (bounds_after matched ((b + g) / 2) g b).1) in Hstep.
  set (b1 := (bounds_after matched ((b + g) / 2) g b).2) in Hstep.
  assert (Hcases : (g1 = (b + g) / 2 ∧ b1 = b) ∨ (g1 = g ∧ b1 = (b + g) / 2)).
  { subst g1 b1. destruct matched; simpl; [by left|by right]. }
  assert (Hgap1 : b1 - g1 = (b - g) / 2 ∨ b1 - g1 = (b - g) - (b - g) / 2) by lia.
  destruct (bisection_bounds (b - g) (b1 - g1) ltac:(lia) Hgap1) as [Hlo Hhi].
  destruct Hstep as [Hfar Hnear].
  destruct (decide (b1 = g1 + 1)) as [Hadj | Hapart].
  - destruct (Hnear Hadj) as (x' & Hx' & Hg' & Hb').
    exists 0%nat, n, x, ((b + g) / 2), x', g1.
    split_and!; try done; try lia.
    + intros j Hj. assert (j = 0%nat) as -> by lia. by exists n, x.
    + by rewrite Hb', Hadj.
    + replace (b1 - g1) with 1 in Hlo by lia. change (Z.log2 1) with 0 in Hlo. lia.
    + replace (b1 - g1) with 1 in Hhi by lia. change (Z.log2_up 1) with 0 in Hhi. lia.
  - destruct Hfar as (n1 & x1 & Hrun & Hx1 & Hmode1 & Hg1 & Hb1 & _ & Hsent); [done| |].
    { apply Z.div_pos; lia. }
    destruct Hsent as (y & y1 & _ & Hy1 & Hreq1 & _).
    rewrite Hx1 in Hy1. injection Hy1 as <-.
    assert (Hunfold : forall j, binary_round_trips (S j) reply i n
                                = binary_round_trips j reply i n1).
    { intros j. simpl. rewrite Hi. simpl. rewrite decide_True by done.
      rewrite Hreq. simpl. by rewrite Hrun. }
    destruct (IH x1 g1 b1 n1)
      as (k & n2 & x2 & h2 & x' & g' & Htrips & Hbefore & Hx2 & Hreq2 & Hx' & Hg' & Hb'
          & Hrange & Hk); try done; try lia.
    exists (S k), n2, x2, h2, x', g'.
    split_and!; try done; try lia.
    + by rewrite Hunfold.
    + intros [|j] Hj; [by exists n, x|].
      rewrite Hunfold. apply Hbefore. lia.
Qed.

(** A binary-mode response at the awaited height, up to the point where the
    recorded bounds are compared. *)
Lemma on_get_header_binary_adjacent (i : IRef) (x : Interface) (header : Header)
    (g b : Z) n :
  iface_heap n !! i = Some x ->
  mode x = Binary ->
  request x = Some (block_height header) ->
  good x = Some g ->
  bad x = Some b ->
  let h := block_height header in
  let chain := check_header (chains n) header in
  let g1 := (bounds_after (bool_decide (is_Some chain)) h g b).1 in
  let b1 := (bounds_after (bool_decide (is_Some chain)) h g b).2 in
  let record := fun x =>
    match chain with
    | Some r => set_blockchain (Some r) (set_good (Some h) x)
    | None => set_bad_header (Some header) (set_bad (Some h) x)
    end in
  good (record x) = Some g1
  ∧ bad (record x) = Some b1
  ∧ (b1 = g1 + 1 ->
     on_get_header i (Some header) n
     = bind (on_get_header_adjacent i (record x) header) (on_get_header_next i (server x))
         (set_iface_heap (alter record i (iface_heap n)) n)).
Proof.
  intros Hi Hmode Hreq Hg Hb h chain g1 b1 record.
  subst g1 b1 record h chain.
  destruct (check_header (chains n) header) as [r|] eqn:Hchk; simpl;
    (split_and!; [done|done|]); intros Hadj;
    unfold on_get_header, on_get_header_binary, get_iface, upd_iface;
    repeat unfold_monad; rewrite Hi; simpl; rewrite Hreq;
    (rewrite decide_False by (by intros []));
    rewrite Hmode, Hchk; simpl; rewrite lookup_alter_eq, Hi; simpl.
  - rewrite Hb. simpl. rewrite decide_False by (intros ?; done). reflexivity.
  - rewrite Hg. simpl. rewrite decide_False by (intros ?; done). reflexivity.
Qed.

(** C1 (amended): binary mode narrows the bounds by bisection.  For a
    response at the awaited height, recorded as the new [good] (the header is
    in a known chain) or the new [bad]: while the recorded bounds are not
    adjacent the interface stays in binary mode and [(bad + good) / 2] is
    requested; when they are adjacent the call leaves binary mode, except in
    the reorg branch, where the interface stays in binary mode and awaits
    [bad] once more.  From a gap of at least 2 with the midpoint awaited, the
    bounds first become adjacent at a round trip numbered between
    [floor (log2 (bad - good))] and [ceil (log2 (bad - good))]; every round
    trip before it is made in binary mode and returns. *)
Theorem binary_search_narrows (reply : Z -> Header) (i : IRef) (x : Interface)
    (g b : Z) n :
  iface_heap n !! i = Some x ->
  mode x = Binary ->
  good x = Some g ->
  bad x = Some b ->
  0 <= g < b ->
  (forall header,
     request x = Some (block_height header) ->
     0 <= block_height header ->
     let h := block_height header in
     let chain := check_header (chains n) header in
     let g1 := (bounds_after (bool_decide (is_Some chain)) h g b).1 in
     let b1 := (bounds_after (bool_decide (is_Some chain)) h g b).2 in
     let recorded :=
       match chain with
       | Some r => set_blockchain (Some r) (set_good (Some h) x)
       | None => set_bad_header (Some header) (set_bad (Some h) x)
       end in
     (b1 ≠ g1 + 1 ->
      exists n1 x1,
        on_get_header i (Some header) n = Ok tt n1
        ∧ iface_heap n1 !! i = Some x1
        ∧ mode x1 = Binary
        ∧ good x1 = Some g1
        ∧ bad x1 = Some b1
        ∧ header_requested i ((b1 + g1) / 2) n n1)
     ∧ (b1 = g1 + 1 ->
        ((exists n1 x1,
            on_get_header i (Some header) n = Ok tt n1
            ∧ iface_heap n1 !! i = Some x1
            ∧ mode x1 = Binary)
         <-> (exists r bad_hdr branch parent,
                blockchain recorded = Some r
                ∧ bad_header recorded = Some bad_hdr
                ∧ Blockchain_can_connect (chains n) r bad_hdr false = true
                ∧ blockchains (chains n) !! b1 = Some branch
                ∧ Blockchain_check_header (chains n) branch bad_hdr = false
                ∧ Blockchain_parent (chains n) branch = Some parent
                ∧ Blockchain_check_header (chains n) parent header = true))
        ∧ (forall n1 x1,
             on_get_header i (Some header) n = Ok tt n1 ->
             iface_heap n1 !! i = Some x1 ->
             mode x1 = Binary ->
             request x1 = Some b1 ∧ good x1 = Some g1 ∧ bad x1 = Some b1)))
  ∧ ((forall h, block_height (reply h) = h) ->
     request x = Some ((b + g) / 2) ->
     g + 1 < b ->
     exists k n1 x1 h1 x' g',
       binary_round_trips k reply i n = Some n1
       ∧ (forall j, (j <= k)%nat ->
            exists nj xj,
              binary_round_trips j reply i n = Some nj
              ∧ iface_heap nj !! i = Some xj
              ∧ mode xj = Binary
              ∧ adjacent xj = false)
       ∧ iface_heap n1 !! i = Some x1
       ∧ request x1 = Some h1
       ∧ iface_heap (state_of (on_get_header i (Some (reply h1)) n1)) !! i = Some x'
       ∧ good x' = Some g'
       ∧ bad x' = Some (g' + 1)
       ∧ g <= g' < b
       ∧ Z.log2 (b - g) <= Z.of_nat (S k) <= Z.log2_up (b - g)).
Proof.
  intros Hi Hmode Hg Hb Hbounds. split.
  - intros header Hreq Hh h chain g1 b1 recorded.
    pose proof (binary_step i x header g b n Hi Hmode Hreq Hg Hb) as [Hfar _].
    pose proof (on_get_header_binary_adjacent i x header g b n Hi Hmode Hreq Hg Hb)
      as (Hg1 & Hb1 & Hadjacent).
    cbv zeta in Hfar, Hg1, Hb1, Hadjacent.
    fold h chain in Hfar, Hg1, Hb1, Hadjacent.
    fold g1 b1 in Hfar, Hg1, Hb1, Hadjacent.
    assert (Hsum : 0 <= b1 ∧ 0 <= b1 + g1).
    { subst g1 b1. destruct (bool_decide (is_Some chain)); simpl; lia. }
    split.
    + intros Hapart.
      destruct Hfar as (n1 & x1 & Hrun & Hx1 & Hmode1 & Hg1' & Hb1' & _ & Hsent); [done| |].
      { apply Z.div_pos; lia. }
      by exists n1, x1.
    + intros Hadj. specialize (Hadjacent Hadj).
      set (n0 := set_iface_heap _ n) in Hadjacent.
      assert (Hrecorded : iface_heap n0 !! i = Some recorded).
      { unfold n0. simpl. rewrite lookup_alter_eq, Hi. simpl. unfold recorded.
        by destruct chain. }
      assert (Hmode0 : mode recorded = Binary).
      { unfold recorded. by destruct chain. }
      assert (Hg0 : good recorded = Some g1).
      { rewrite <- Hg1. unfold recorded. by destruct chain. }
      assert (Hb0 : bad recorded = Some b1).
      { rewrite <- Hb1. unfold recorded. by destruct chain. }
      assert (Hinto : on_get_header i (Some header) n
                      = bind (on_get_header_adjacent i recorded header)
                          (on_get_header_next i (server x)) n0).
      { rewrite Hadjacent. unfold recorded. by destruct chain. }
      split; [split|].
      * intros (n1 & x1 & Hrun & Hx1 & Hmode1). rewrite Hinto in Hrun.
        destruct (adjacent_stays_binary i recorded header (server x) g1 b1 n0 n1 x1)
          as (r & branch & parent & bad_hdr & Hr & Hbh & Hcan & Hbranch & Hdiff & Hparent
              & Hholds & _); try done; [lia|].
        by exists r, bad_hdr, branch, parent.
      * intros (r & bad_hdr & branch & parent & Hr & Hbh & Hcan & Hbranch & Hdiff & Hparent
                & Hholds).
        destruct (reorg_stays_binary i recorded header bad_hdr (server x) r branch parent
                    b1 n0) as (n1 & x1 & Hrun & Hx1 & Hmode1 & _); try done; [lia|].
        exists n1, x1. by rewrite Hinto.
      * intros n1 x1 Hrun Hx1 Hmode1. rewrite Hinto in Hrun.
        destruct (adjacent_stays_binary i recorded header (server x) g1 b1 n0 n1 x1)
          as (r & branch & parent & bad_hdr & _ & _ & _ & _ & _ & _ & _ & _ & Hreq1 & Hg1'
              & Hb1' & _); try done. lia.
  - intros Hreply Hreq Hgap.
    apply (binary_search_narrowing (Z.to_nat (Z.log2_up (b - g))) reply i Hreply x g b n);
      try done; lia.
Qed.

(** ** Catch-up markers *)

Lemma foldl_alter_lookup {A} (f : A -> A) (l : list nat) (h : gmap nat A) (r : nat) :
  (forall a, f (f a) = f a) ->
  foldl (fun h r => alter f r h) h l !! r
  = if decide (r ∈ l) then f <$> h !! r else h !! r.
Proof.
  intros Hidem. revert h. induction l as [|r' l IH]; intros h; cbn [foldl].
  - rewrite decide_False; [done|]. apply not_elem_of_nil.
  - rewrite IH. destruct (decide (r = r')) as [->|Hne].
    + rewrite lookup_alter_eq.
      rewrite (decide_True _ _ (list_elem_of_here r' l)).
      case_decide; [|done]. destruct (h !! r'); simpl; [|done]. by rewrite Hidem.
    + rewrite lookup_alter_ne by done.
      destruct (decide (r ∈ l)) as [Hin|Hin].
      * by rewrite decide_True by (by apply list_elem_of_further).
      * rewrite decide_False; [done|].
        intros [?|?]%elem_of_cons; done.
Qed.

(** [connection_down] gives back every marker the server held: afterwards no
    registered chain names the server in [catch_up]. *)
Lemma connection_down_clears_markers (srv : string) (k : Z) (r : ChainRef) n :
  (forall j, interfaces n !! srv = Some j -> is_Some (iface_heap n !! j)) ->
  blockchains (chains n) !! k = Some r ->
  exists n',
    connection_down srv n = Ok tt n'
    ∧ forall b', chain_heap (chains n') !! r = Some b' -> catch_up b' ≠ Some srv.
Proof.
  intros Hvalid Hk.
  destruct (connection_down_returns srv n Hvalid) as (n' & Hrun & _ & _ & _ & _ & _ & Hheap).
  exists n'. split; [done|]. intros b'. rewrite Hheap.
  rewrite foldl_alter_lookup.
  - rewrite decide_True.
    + destruct (chain_heap (chains n) !! r) as [b|]; simpl; [|done].
      intros Heq. injection Heq as Heq. subst b'.
      unfold clear_catch_up. case_decide; simpl; done.
    + unfold dict_refs. apply list_elem_of_fmap. exists (k, r). split; [done|].
      by apply elem_of_map_to_list.
  - intros b. unfold clear_catch_up.
    destruct (decide (catch_up b = Some srv)) as [Hc|Hc]; simpl.
    + done.
    + by rewrite decide_False.
Qed.

(** ** Lagging servers *)

(** A loop returns when its body does and re-establishes an invariant on the
    items still to come. *)
Lemma for_each_returns {A} (I : list A -> Net -> Prop) (l : list A)
    (body : A -> Mn unit) n :
  I l n ->
  (forall a l' m, I (a :: l') m -> exists m', body a m = Ok tt m' ∧ I l' m') ->
  exists n', for_each l body n = Ok tt n' ∧ I [] n'.
Proof.
  intros Hinv Hbody. revert n Hinv. induction l as [|a l IH]; intros n Hinv; simpl.
  - by exists n.
  - destruct (Hbody a l n Hinv) as (m' & Hrun & Hinv').
    unfold bind. rewrite Hrun. by apply IH.
Qed.

Lemma close_interface_registered (srv : string) (i : IRef) n :
  well_formed n ->
  interfaces n !! srv = Some i ->
  exists n',
    close_interface (Some i) n = Ok tt n'
    ∧ well_formed n'
    ∧ interfaces n' = delete srv (interfaces n)
    ∧ chains n' = chains n.
Proof.
  intros Hwf Hsrv. destruct (Hwf srv i Hsrv) as (x & Hx & Hserver).
  unfold close_interface, Interface_close, upd_iface, get_iface. repeat unfold_monad.
  rewrite Hx. simpl. rewrite Hserver.
  assert (Hwf' : forall h : gmap string IRef, h = delete srv (interfaces n) ->
            forall srv' j, h !! srv' = Some j ->
              exists y, alter (set_closed true) i (iface_heap n) !! j = Some y
                        ∧ server y = srv').
  { intros h -> srv' j Hj. apply lookup_delete_Some in Hj as [Hne Hj].
    destruct (Hwf srv' j Hj) as (y & Hy & Hsy).
    destruct (decide (j = i)) as [->|Hji].
    - rewrite lookup_alter_eq, Hy. by eexists.
    - rewrite lookup_alter_ne by done. by eexists. }
  destruct (bool_decide (srv = default_server n)); simpl;
    (eexists; split; [reflexivity|]); simpl; split_and!; try done;
    intros srv' j Hj; simpl in Hj |- *; by apply (Hwf' _ eq_refl).
Qed.

Lemma drop_invalid_chain_returns (k : Z) n :
  well_formed n ->
  is_Some (blockchains (chains n) !! k) ->
  exists n',
    drop_invalid_chain k n = Ok tt n'
    ∧ well_formed n'
    ∧ forall k', k' ≠ k -> blockchains (chains n') !! k' = blockchains (chains n) !! k'.
Proof.
  intros Hwf [r Hr].
  unfold drop_invalid_chain. repeat unfold_monad. rewrite Hr.
  destruct (Blockchain_is_valid (chains n) r); [by exists n|].
  set (body := fun srv : string => _).
  destruct (for_each_returns
              (fun l m => well_formed m ∧ chains m = chains n ∧ NoDup l
                          ∧ forall s, s ∈ l -> is_Some (interfaces m !! s))
              (get_interfaces n) body n) as (n1 & Hloop & Hwf1 & Hchains1 & _).
  { split_and!; try done.
    - apply NoDup_fst_map_to_list.
    - intros s [[s' j] [-> Hin]]%list_elem_of_fmap. simpl.
      apply elem_of_map_to_list in Hin. by eexists. }
  { intros srv l m (Hwfm & Hchm & Hnodup & Hpresent).
    apply NoDup_cons in Hnodup as [Hfresh Hnodup].
    destruct (Hpresent srv) as [i Hi]; [by left|].
    destruct (Hwfm srv i Hi) as (x & Hx & Hserver).
    unfold body, get_iface. repeat unfold_monad. rewrite Hi, Hx. simpl.
    destruct (blockchain x) as [rb|].
    - rewrite Hchm, Hr. destruct (bool_decide (rb = r)).
      + destruct (close_interface_registered srv i m Hwfm Hi)
          as (m' & Hclose & Hwfm' & Hifs & Hchm').
        exists m'. split; [done|]. split_and!; try done; [congruence|].
        intros s Hs. rewrite Hifs, lookup_delete_ne; [|by intros ->].
        apply Hpresent. by right.
      + exists m. split; [done|]. split_and!; try done.
        intros s Hs. apply Hpresent. by right.
    - exists m. split; [done|]. split_and!; try done.
      intros s Hs. apply Hpresent. by right. }
  simpl. rewrite Hloop. simpl.
  eexists. split; [reflexivity|]. simpl. split; [done|].
  intros k' Hk'. rewrite lookup_delete_ne by done. by rewrite Hchains1.
Qed.

Lemma get_local_height_interfaces (lh : Z) n n1 :
  get_local_height n = Ok lh n1 ->
  interfaces n1 = interfaces n ∧ iface_heap n1 = iface_heap n.
Proof.
  unfold get_local_height, Network_blockchain, get_iface. repeat unfold_monad.
  intros Hrun.
  repeat match type of Hrun with
         | context [match ?t with _ => _ end] =>
             lazymatch t with
             | context [match _ with _ => _ end] => fail
             | _ => destruct t eqn:?; simpl in Hrun; try discriminate
             end
         end;
    by injection Hrun as <- <-.
Qed.

Lemma get_server_height_disconnected n :
  interface n = None -> get_server_height n = Ok 0 n.
Proof. intros Hnone. unfold get_server_height. repeat unfold_monad. by rewrite Hnone. Qed.

#[local] Arguments get_local_height : simpl never.
#[local] Arguments get_server_height : simpl never.
#[local] Arguments drop_invalid_chain : simpl never.

(** C6: with [sh] the height [get_server_height] reports (0 when there is no
    active interface), [server_is_lagging] returns [True] when [sh = 0];
    otherwise, with [lh] the local height, it returns whether [lh - sh > 1].
    So it returns [True] exactly when [sh = 0] or [lh - sh > 1], and a server
    one block behind ([lh - sh = 1]) is not lagging. *)
Theorem server_is_lagging_iff (sh : Z) n :
  get_server_height n = Ok sh n ->
  (interface n = None -> sh = 0)
  ∧ (sh = 0 -> server_is_lagging n = Ok true n)
  ∧ (sh ≠ 0 ->
     forall lh n1,
     get_local_height n = Ok lh n1 ->
     well_formed n ->
     (exists n', server_is_lagging n = Ok (bool_decide (lh - sh > 1)) n')
     ∧ (lh - sh = 1 -> server_is_lagging n = Ok false n1)).
Proof.
  intros Hsh. split_and!.
  - intros Hnone. rewrite get_server_height_disconnected in Hsh by done. congruence.
  - intros ->. unfold server_is_lagging. repeat unfold_monad. rewrite Hsh.
    by rewrite decide_True.
  - intros Hnz lh n1 Hlocal Hwf.
    unfold server_is_lagging. repeat unfold_monad. rewrite Hsh.
    rewrite decide_False by done. rewrite Hlocal.
    split.
    + destruct (bool_decide (lh - sh > 1)); [|by exists n1].
      destruct (get_local_height_interfaces lh n n1 Hlocal) as [Hifs Hheap].
      destruct (for_each_returns
                  (fun l m => well_formed m ∧ NoDup l
                              ∧ forall k, k ∈ l -> is_Some (blockchains (chains m) !! k))
                  (map_to_list (blockchains (chains n1))).*1 drop_invalid_chain n1)
        as (n' & Hloop & _).
      * split_and!.
        -- intros srv i. rewrite Hifs, Hheap. apply Hwf.
        -- apply NoDup_fst_map_to_list.
        -- intros k [[k' r] [-> Hin]]%list_elem_of_fmap. simpl.
           apply elem_of_map_to_list in Hin. by eexists.
      * intros k l m (Hwfm & Hnodup & Hpresent).
        apply NoDup_cons in Hnodup as [Hfresh Hnodup].
        destruct (drop_invalid_chain_returns k m Hwfm) as (m' & Hdrop & Hwfm' & Hkeep).
        { apply Hpresent. by left. }
        exists m'. split; [done|]. split_and!; try done.
        intros k' Hk'. rewrite Hkeep; [|by intros ->]. apply Hpresent. by right.
      * rewrite Hloop. by exists n'.
    + intros Hone. by rewrite bool_decide_eq_false_2 by lia.
Qed.

(** ** Switching the active interface *)

Lemma number_from_app (start : Z) (l1 l2 : list (string * list Value)) :
  number_from start (l1 ++ l2)
  = number_from start l1 ++ number_from (start + Z.of_nat (length l1)) l2.
Proof.
  revert start. induction l1 as [|[m p] l1 IH]; intros start; simpl.
  - by rewrite Z.add_0_r.
  - rewrite IH. do 3 f_equal. lia.
Qed.

Lemma sent_nil (i : IRef) n : sent i [] n n.
Proof.
  unfold sent. simpl. split_and!; try done; [lia|].
  intros x Hx. exists x. by rewrite app_nil_r.
Qed.

Lemma sent_app (i : IRef) (l1 l2 : list (string * list Value)) n n1 n2 :
  sent i l1 n n1 -> sent i l2 n1 n2 -> sent i (l1 ++ l2) n n2.
Proof.
  intros (Ha1 & Hid1 & Hc1 & Hsa1 & Hst1 & Hq1) (Ha2 & Hid2 & Hc2 & Hsa2 & Hst2 & Hq2).
  unfold sent. rewrite length_app. split_and!; try congruence; [lia|].
  intros x Hx. destruct (Hq1 x Hx) as (x1 & Hx1 & Hu1).
  destruct (Hq2 x1 Hx1) as (x2 & Hx2 & Hu2).
  exists x2. split; [done|].
  by rewrite Hu2, Hu1, <- app_assoc, number_from_app, Hid1.
Qed.

Lemma sent_live (i : IRef) (l : list (string * list Value)) n n' :
  sent i l n n' -> is_Some (iface_heap n !! i) -> is_Some (iface_heap n' !! i).
Proof.
  intros (_ & _ & _ & _ & _ & Hq) [x Hx]. destruct (Hq x Hx) as (x' & Hx' & _). by eexists.
Qed.

(** One request queued through the active interface. *)
Lemma queue_request_sent (i : IRef) (method : string) (params : list Value) n :
  interface n = Some i ->
  is_Some (iface_heap n !! i) ->
  exists n',
    queue_request method params None n = Ok (Some (message_id n)) n'
    ∧ sent i [(method, params)] n n'
    ∧ unanswered_requests n' = unanswered_requests n.
Proof.
  intros Hactive [x Hx].
  unfold queue_request, Interface_queue_request, upd_iface. repeat unfold_monad.
  rewrite Hactive. simpl.
  eexists. split; [reflexivity|]. unfold sent. simpl.
  split_and!; try done.
  intros y Hy. rewrite lookup_alter_eq, Hy. simpl. by eexists.
Qed.

(** A loop that queues one request per item. *)
Lemma for_each_sent {A} (i : IRef) (g : A -> string * list Value) (l : list A)
    (body : A -> Mn unit) n :
  (forall a m, body a m = bind (queue_request (g a).1 (g a).2 None) (fun _ => ret tt) m) ->
  interface n = Some i ->
  is_Some (iface_heap n !! i) ->
  exists n',
    for_each l body n = Ok tt n'
    ∧ sent i (g <$> l) n n'
    ∧ unanswered_requests n' = unanswered_requests n.
Proof.
  intros Hbody. revert n. induction l as [|a l IH]; intros n Hactive Hlive; simpl.
  - exists n. split; [done|]. split; [apply sent_nil|done].
  - destruct (queue_request_sent i (g a).1 (g a).2 n Hactive Hlive)
      as (n1 & Hrun & Hsent & Hun).
    unfold bind at 1. rewrite Hbody. unfold bind at 1. rewrite Hrun. unfold ret at 1.
    destruct (IH n1) as (n' & Hloop & Hsent' & Hun').
    { destruct Hsent as (-> & _). done. }
    { by eapply sent_live. }
    exists n'. split; [done|]. split; [|congruence].
    apply (sent_app i [g a] (g <$> l) n n1 n'); [|done]. by destruct (g a).
Qed.

(** The loop that resends the unanswered client requests. *)
Lemma resend_unanswered_sent (i : IRef) (requests : list ClientRequest) n :
  interface n = Some i ->
  is_Some (iface_heap n !! i) ->
  exists n',
    resend_unanswered requests n = Ok tt n'
    ∧ sent i ((fun request : ClientRequest => (request.1.1, request.1.2)) <$> requests) n n'.
Proof.
  unfold resend_unanswered.
  revert n. induction requests as [|[[m p] cb] l IH]; intros n Hactive Hlive; simpl.
  - exists n. split; [done|]. apply sent_nil.
  - destruct (queue_request_sent i m p n Hactive Hlive) as (n1 & Hrun & Hsent & _).
    repeat unfold_monad. rewrite Hrun.
    set (n2 := set_unanswered_requests _ n1).
    assert (Hsent2 : sent i [(m, p)] n n2).
    { destruct Hsent as (? & ? & ? & ? & ? & ?). unfold sent. by split_and!. }
    destruct (IH n2) as (n' & Hloop & Hsent').
    { destruct Hsent2 as (-> & _). done. }
    { by eapply sent_live. }
    exists n'. split; [exact Hloop|].
    by apply (sent_app i [(m, p)] _ n n2 n').
Qed.

#[local] Arguments queue_request : simpl never.
#[local] Arguments resend_unanswered : simpl never.

(** [send_subscriptions] empties the cache and queues, on the active
    interface, the unanswered client requests and then the standing
    subscriptions. *)
Lemma send_subscriptions_sent (i : IRef) n :
  interface n = Some i ->
  is_Some (iface_heap n !! i) ->
  exists n',
    send_subscriptions n = Ok tt n'
    ∧ interface n' = Some i
    ∧ sub_cache n' = ∅
    ∧ forall x, iface_heap n !! i = Some x ->
        exists x', iface_heap n' !! i = Some x'
                   ∧ unsent_requests x'
                     = unsent_requests x
                       ++ number_from (message_id n)
                            (unanswered_resends n ++ standing_subscriptions n).
Proof.
  intros Hactive Hlive.
  set (n1 := set_unanswered_requests [] (set_sub_cache ∅ n)).
  assert (Hsent1 : sent i [] n1 n1) by apply sent_nil.
  destruct (resend_unanswered_sent i (dict_values (unanswered_requests n)) n1)
    as (n2 & Hrun2 & Hsent2); [done..|].
  assert (Hact2 : interface n2 = Some i) by (destruct Hsent2 as (-> & _); done).
  assert (Hlive2 : is_Some (iface_heap n2 !! i)) by (by eapply sent_live).
  destruct (queue_request_sent i "server.banner" [] n2) as (n3 & Hrun3 & Hsent3 & _);
    [done..|].
  assert (Hact3 : interface n3 = Some i) by (destruct Hsent3 as (-> & _); done).
  assert (Hlive3 : is_Some (iface_heap n3 !! i)) by (by eapply sent_live).
  destruct (for_each_sent i (fun t => ("blockchain.estimatefee", [VInt t])) FEE_TARGETS
              (fun t => bind (queue_request "blockchain.estimatefee" [VInt t] None)
                          (fun _ => ret tt)) n3)
    as (n4 & Hrun4 & Hsent4 & _); [done..|].
  assert (Hact4 : interface n4 = Some i) by (destruct Hsent4 as (-> & _); done).
  assert (Hlive4 : is_Some (iface_heap n4 !! i)) by (by eapply sent_live).
  destruct (queue_request_sent i "blockchain.relayfee" [] n4) as (n5 & Hrun5 & Hsent5 & _);
    [done..|].
  assert (Hact5 : interface n5 = Some i) by (destruct Hsent5 as (-> & _); done).
  assert (Hlive5 : is_Some (iface_heap n5 !! i)) by (by eapply sent_live).
  destruct (for_each_sent i (fun h => ("blockchain.scripthash.subscribe", [h]))
              (elements (subscribed_addresses n5))
              (fun h => bind (queue_request "blockchain.scripthash.subscribe" [h] None)
                          (fun _ => ret tt)) n5)
    as (n6 & Hrun6 & Hsent6 & _); [done..|].
  assert (Hact6 : interface n6 = Some i) by (destruct Hsent6 as (-> & _); done).
  assert (Hlive6 : is_Some (iface_heap n6 !! i)) by (by eapply sent_live).
  destruct (for_each_sent i
              (fun t : Value * Value * Value =>
                 ("blockchain.contract.event.subscribe", [t.1.1; t.1.2; t.2]))
              (elements (subscribed_tokens n6))
              (fun '(hash160, contract_addr, topic) =>
                 bind (queue_request "blockchain.contract.event.subscribe"
                         [hash160; contract_addr; topic] None)
                      (fun _ => ret tt)) n6)
    as (n7 & Hrun7 & Hsent7 & _); [by intros [[??]?] ?|done..|].
  assert (Hadds : subscribed_addresses n5 = subscribed_addresses n).
  { destruct Hsent2 as (_ & _ & _ & Hs2 & _), Hsent3 as (_ & _ & _ & Hs3 & _),
      Hsent4 as (_ & _ & _ & Hs4 & _), Hsent5 as (_ & _ & _ & Hs5 & _).
    by rewrite Hs5, Hs4, Hs3, Hs2. }
  assert (Htoks : subscribed_tokens n6 = subscribed_tokens n).
  { destruct Hsent2 as (_ & _ & _ & _ & Hs2 & _), Hsent3 as (_ & _ & _ & _ & Hs3 & _),
      Hsent4 as (_ & _ & _ & _ & Hs4 & _), Hsent5 as (_ & _ & _ & _ & Hs5 & _),
      Hsent6 as (_ & _ & _ & _ & Hs6 & _).
    by rewrite Hs6, Hs5, Hs4, Hs3, Hs2. }
  pose proof (sent_app _ _ _ _ _ _ Hsent2
               (sent_app _ _ _ _ _ _ Hsent3
                  (sent_app _ _ _ _ _ _ Hsent4
                     (sent_app _ _ _ _ _ _ Hsent5
                        (sent_app _ _ _ _ _ _ Hsent6 Hsent7))))) as Hall.
  rewrite Hadds, Htoks in Hall.
  exists n7. split.
  - unfold send_subscriptions. repeat unfold_monad. rewrite Hactive. simpl.
    fold n1. rewrite Hrun2, Hrun3. simpl.
    unfold bind, ret in Hrun4. rewrite Hrun4, Hrun5. simpl.
    unfold bind, ret in Hrun6. rewrite Hrun6.
    unfold bind, ret in Hrun7. exact Hrun7.
  - destruct Hall as (Ha & _ & Hc & _ & _ & Hq). split_and!.
    + by rewrite Ha.
    + by rewrite Hc.
    + intros x Hx. apply (Hq x). exact Hx.
Qed.

Lemma stop_current_interface_returns (srv : string) (i : IRef) (x : Interface)
    (cur : option IRef) n :
  iface_heap n !! i = Some x ->
  cur ≠ Some i ->
  (forall old, cur = Some old -> is_Some (iface_heap n !! old)) ->
  exists u n0,
    stop_current_interface srv i cur n = Ok u n0
    ∧ iface_heap n0 !! i = Some x
    ∧ message_id n0 = message_id n
    ∧ unanswered_requests n0 = unanswered_requests n
    ∧ subscribed_addresses n0 = subscribed_addresses n
    ∧ subscribed_tokens n0 = subscribed_tokens n.
Proof.
  intros Hx Hcur Hold. destruct cur as [old|]; [|by exists false, n].
  destruct (Hold old eq_refl) as [xo Hxo].
  assert (old ≠ i) by congruence.
  unfold stop_current_interface, close_interface, start_interface, _set_status,
    trigger_callback, Interface_close, upd_iface, get_iface.
  repeat unfold_monad. rewrite Hx, Hxo. simpl. rewrite Hxo. simpl.
  repeat (match goal with
          | |- context [bool_decide ?P] => destruct (bool_decide P); simpl
          end);
    do 2 eexists; (split; [reflexivity|]); simpl;
    by rewrite lookup_alter_ne.
Qed.

Lemma occurrences_app (r : string * list Value) (l1 l2 : list (string * list Value)) :
  occurrences r (l1 ++ l2) = (occurrences r l1 + occurrences r l2)%nat.
Proof. unfold occurrences. by rewrite filter_app, length_app. Qed.

Lemma occurrences_other {A} (r : string * list Value) (g : A -> string * list Value)
    (l : list A) :
  (forall a, g a ≠ r) -> occurrences r (g <$> l) = 0%nat.
Proof.
  intros Hne. unfold occurrences. induction l as [|a l IH]; [done|].
  rewrite fmap_cons, filter_cons_False; [done|]. apply Hne.
Qed.

Lemma occurrences_inj {A} `{EqDecision A} (g : A -> string * list Value) (a : A)
    (l : list A) :
  Inj (=) (=) g ->
  occurrences (g a) (g <$> l) = length (filter (fun a' => a' = a) l).
Proof.
  intros Hinj. unfold occurrences. induction l as [|a' l IH]; [done|].
  rewrite fmap_cons. destruct (decide (a' = a)) as [->|Hne].
  - rewrite !filter_cons_True by done. simpl. by rewrite IH.
  - rewrite !filter_cons_False; [done|done|]. by intros ?%Hinj.
Qed.

Lemma filter_eq_absent {A} `{EqDecision A} (a : A) (l : list A) :
  a ∉ l -> filter (fun a' => a' = a) l = [].
Proof.
  induction l as [|a' l IH]; [done|]. intros Hnot.
  rewrite filter_cons_False.
  - apply IH. intros Hin. apply Hnot. by right.
  - intros ->. apply Hnot. by left.
Qed.

Lemma filter_eq_NoDup {A} `{EqDecision A} (a : A) (l : list A) :
  NoDup l -> a ∈ l -> length (filter (fun a' => a' = a) l) = 1%nat.
Proof.
  intros Hnodup. induction Hnodup as [|a' l Hfresh Hnodup IH]; intros Hin.
  { by apply elem_of_nil in Hin. }
  destruct (decide (a' = a)) as [->|Hne].
  - rewrite filter_cons_True by done. by rewrite filter_eq_absent.
  - rewrite filter_cons_False by done. apply IH.
    apply elem_of_cons in Hin as [?|?]; [congruence|done].
Qed.

(** Each standing subscription is in the standing pass exactly once. *)
Lemma standing_subscriptions_once n :
  occurrences ("server.banner", []) (standing_subscriptions n) = 1%nat
  ∧ occurrences ("blockchain.relayfee", []) (standing_subscriptions n) = 1%nat
  ∧ (forall t, occurrences ("blockchain.estimatefee", [VInt t]) (standing_subscriptions n)
               = length (filter (fun t' => t' = t) FEE_TARGETS))
  ∧ (forall h, h ∈ subscribed_addresses n ->
       occurrences ("blockchain.scripthash.subscribe", [h]) (standing_subscriptions n)
       = 1%nat)
  ∧ (forall hash160 contract_addr topic,
       (hash160, contract_addr, topic) ∈ subscribed_tokens n ->
       occurrences ("blockchain.contract.event.subscribe", [hash160; contract_addr; topic])
         (standing_subscriptions n) = 1%nat).
Proof.
  unfold standing_subscriptions.
  split_and!; intros; rewrite !occurrences_app.
  - rewrite !occurrences_other by (by intros ? [=]). reflexivity.
  - rewrite !occurrences_other by (by intros ? [=]). reflexivity.
  - rewrite (occurrences_inj (fun i => ("blockchain.estimatefee", [VInt i])) t)
      by (by intros ?? [=]).
    rewrite !occurrences_other by (by intros ? [=]).
    change (occurrences _ [("server.banner", [])]) with 0%nat.
    change (occurrences _ [("blockchain.relayfee", [])]) with 0%nat. lia.
  - rewrite (occurrences_inj (fun h => ("blockchain.scripthash.subscribe", [h])) h)
      by (by intros ?? [=]).
    rewrite filter_eq_NoDup; [|apply NoDup_elements|by apply elem_of_elements].
    rewrite !occurrences_other by (by intros ? [=]).
    change (occurrences _ [("server.banner", [])]) with 0%nat.
    change (occurrences _ [("blockchain.relayfee", [])]) with 0%nat. lia.
  - rewrite (occurrences_inj
               (fun t : Value * Value * Value =>
                  ("blockchain.contract.event.subscribe", [t.1.1; t.1.2; t.2]))
               (hash160, contract_addr, topic))
      by (by intros [[??]?] [[??]?] [=]; simplify_eq/=).
    rewrite filter_eq_NoDup; [|apply NoDup_elements|by apply elem_of_elements].
    rewrite !occurrences_other by (by intros ? [=]).
    change (occurrences _ [("server.banner", [])]) with 0%nat.
    change (occurrences _ [("blockchain.relayfee", [])]) with 0%nat. lia.
Qed.

#[local] Arguments send_subscriptions : simpl never.
#[local] Arguments stop_current_interface : simpl never.

(** What a switch sends: when [switch_to_interface] makes a connected server
    other than the current one the active interface, the subscription cache
    is emptied and the new interface is sent, after what it already had
    queued, the still-unanswered client requests followed by the standing
    subscriptions; the standing pass holds the banner and relay-fee requests
    once, a fee estimate per entry of [FEE_TARGETS], and each subscribed
    scripthash and token tuple exactly once. *)
Theorem switch_to_interface_resends (srv : string) (i : IRef) (x : Interface) n :
  interfaces n !! srv = Some i ->
  interface n ≠ Some i ->
  iface_heap n !! i = Some x ->
  (forall old, interface n = Some old -> is_Some (iface_heap n !! old)) ->
  (exists n' x',
     switch_to_interface srv n = Ok tt n'
     ∧ interface n' = Some i
     ∧ sub_cache n' = ∅
     ∧ iface_heap n' !! i = Some x'
     ∧ unsent_requests x'
       = unsent_requests x
         ++ number_from (message_id n) (unanswered_resends n ++ standing_subscriptions n))
  ∧ occurrences ("server.banner", []) (standing_subscriptions n) = 1%nat
  ∧ occurrences ("blockchain.relayfee", []) (standing_subscriptions n) = 1%nat
  ∧ (forall t, occurrences ("blockchain.estimatefee", [VInt t]) (standing_subscriptions n)
               = length (filter (fun t' => t' = t) FEE_TARGETS))
  ∧ (forall h, h ∈ subscribed_addresses n ->
       occurrences ("blockchain.scripthash.subscribe", [h]) (standing_subscriptions n)
       = 1%nat)
  ∧ (forall hash160 contract_addr topic,
       (hash160, contract_addr, topic) ∈ subscribed_tokens n ->
       occurrences ("blockchain.contract.event.subscribe", [hash160; contract_addr; topic])
         (standing_subscriptions n) = 1%nat).
Proof.
  intros Hsrv Hother Hx Hold.
  split; [|apply standing_subscriptions_once].
  destruct (stop_current_interface_returns srv i x (interface n) (set_default_server srv n))
    as (u & n0 & Hstop & Hx0 & Hid0 & Hun0 & Hsa0 & Hst0); [done..|].
  destruct (send_subscriptions_sent i (set_interface (Some i) n0))
    as (n1 & Hsend & Hact1 & Hcache1 & Hq1); [done|by eexists|].
  destruct (Hq1 x Hx0) as (x1 & Hx1 & Hunsent).
  unfold switch_to_interface, _set_status, trigger_callback. repeat unfold_monad. simpl.
  rewrite Hsrv. rewrite decide_False by done.
  change (interface (set_default_server srv n)) with (interface n).
  rewrite Hstop, Hsend. simpl.
  destruct u; simpl; (do 2 eexists; split; [reflexivity|]); simpl;
    split_and!; try done;
    rewrite Hunsent; simpl; unfold unanswered_resends, standing_subscriptions; simpl;
    by rewrite Hid0, Hun0, Hsa0, Hst0.
Qed.

(** ** Disconnected servers *)

Lemma random_choice_returns {A} (l : list A) n :
  l ≠ [] ->
  exists a, random_choice l n = Ok a (set_rng (tail (rng n)) n) ∧ a ∈ l.
Proof.
  intros Hne. unfold random_choice.
  set (k := match rng n with [] => 0%nat | k :: _ => k end).
  destruct (lookup_lt_is_Some_2 l (k `mod` length l)%nat) as [a Ha].
  { apply Nat.mod_upper_bound. by destruct l. }
  rewrite Ha. exists a. split; [done|]. by eapply list_elem_of_lookup_2.
Qed.

Lemma start_interface_returns (srv : string) n :
  exists n',
    start_interface srv n = Ok tt n'
    ∧ connecting n' ⊆ connecting n ∪ {[srv]}
    ∧ (connection_attempts n' = connection_attempts n
       ∨ connection_attempts n' = connection_attempts n ++ [srv]).
Proof.
  unfold start_interface, _set_status, trigger_callback. repeat unfold_monad.
  destruct (bool_decide (srv ∉ dom (interfaces n)) && bool_decide (srv ∉ connecting n));
    simpl; [|exists n; split; [done|]; split; [set_solver|by left]].
  destruct (bool_decide (srv = default_server n)); simpl;
    (eexists; split; [reflexivity|]); simpl; (split; [done|by right]).
Qed.

(** [start_random_interface] picks outside [disconnected_servers]. *)
Lemma start_random_interface_excludes (s : string) n :
  s ∈ disconnected_servers n ->
  exists n' l,
    start_random_interface n = Ok tt n'
    ∧ (s ∈ connecting n' -> s ∈ connecting n)
    ∧ connection_attempts n' = connection_attempts n ++ l
    ∧ s ∉ l.
Proof.
  intros Hs. unfold start_random_interface, pick_random_server. repeat unfold_monad. simpl.
  set (eligible := elements _).
  destruct eligible as [|e eligible'] eqn:Hel.
  - exists n, []. rewrite app_nil_r. split_and!; try done. apply not_elem_of_nil.
  - destruct (random_choice_returns (e :: eligible') n) as (p & Hpick & Hp); [done|].
    rewrite Hpick.
    assert (Hps : p ≠ s).
    { intros ->. rewrite <- Hel in Hp. unfold eligible in Hp.
      apply elem_of_elements, elem_of_difference in Hp as [_ Hp].
      apply Hp. by apply elem_of_union_l. }
    destruct (start_interface_returns p (set_rng (tail (rng n)) n))
      as (n' & Hstart & Hconn & Hatt).
    rewrite Hstart. simpl in *.
    destruct Hatt as [Hatt | Hatt].
    + exists n', []. rewrite app_nil_r. split_and!; try done; [|apply not_elem_of_nil].
      intros Hin. apply Hconn, elem_of_union in Hin as [?|Heq%elem_of_singleton];
        [done|congruence].
    + exists n', [p]. split_and!; try done.
      * intros Hin. apply Hconn, elem_of_union in Hin as [?|Heq%elem_of_singleton];
          [done|congruence].
      * intros Heq%list_elem_of_singleton. congruence.
Qed.

Lemma state_of_bind {A B} (m : Mn A) (k : A -> Mn B) n :
  state_of (bind m k n)
  = match m n with
    | Ok a n1 => state_of (k a n1)
    | Raise _ n1 => n1
    end.
Proof. unfold bind. by destruct (m n). Qed.

Lemma stable_disconnected (s : string) n m :
  stable n m -> s ∈ disconnected_servers n -> s ∈ disconnected_servers m.
Proof. intros (Hsub & _) Hs. by apply Hsub. Qed.

(** The nodes step takes servers out of [disconnected_servers] only once
    [NODES_RETRY_INTERVAL] has passed since [nodes_retry_time]. *)
Lemma maintain_nodes_stable (t : Z) n :
  stable n (state_of (maintain_nodes t n))
  ∨ t - nodes_retry_time n > NODES_RETRY_INTERVAL.
Proof.
  unfold maintain_nodes. repeat unfold_monad. simpl.
  destruct (bool_decide (_ < num_server n)); simpl; [|by left].
  pose proof (preserves_start_random_interface n) as Hstable.
  destruct (start_random_interface n) as [[] n1|e n1]; simpl in *; [|by left].
  destruct (bool_decide (t - nodes_retry_time n1 > NODES_RETRY_INTERVAL)) eqn:Hretry;
    simpl; [|by left].
  right. apply bool_decide_eq_true in Hretry.
  destruct Hstable as (_ & _ & <- & _). done.
Qed.

(** The maintenance steps before the main-interface step leave
    [default_server] as it is. *)
Local Abbreviation keeps_default m :=
  (forall n, default_server (state_of (m n)) = default_server n).

Lemma keeps_default_ret {A} (a : A) : keeps_default (ret a : Mn A).
Proof. done. Qed.

Lemma keeps_default_raise {A} (e : Exn) : keeps_default (raise e : Mn A).
Proof. done. Qed.

Lemma keeps_default_gets {A} (f : Net -> A) : keeps_default (gets f).
Proof. done. Qed.

Lemma keeps_default_modify (f : Net -> Net) :
  (forall n, default_server (f n) = default_server n) -> keeps_default (modify f).
Proof. intros Hf n. apply Hf. Qed.

Lemma keeps_default_bind {A B} (m : Mn A) (k : A -> Mn B) :
  keeps_default m -> (forall a, keeps_default (k a)) -> keeps_default (bind m k).
Proof.
  intros Hm Hk n. unfold bind. specialize (Hm n).
  destruct (m n) as [a n1|e n1]; simpl in *; [|done].
  by rewrite Hk.
Qed.

Lemma keeps_default_when (b : bool) (m : Mn unit) :
  keeps_default m -> keeps_default (when b m).
Proof. intros Hm. by destruct b. Qed.

Lemma keeps_default_for_each {A} (l : list A) (body : A -> Mn unit) :
  (forall a, keeps_default (body a)) -> keeps_default (for_each l body).
Proof.
  intros Hbody. induction l as [|a l IH]; simpl; [done|].
  by apply keeps_default_bind.
Qed.

Lemma keeps_default_get_iface (i : IRef) : keeps_default (get_iface i).
Proof. intros n. unfold get_iface. by destruct (iface_heap n !! i). Qed.

Lemma keeps_default_random_choice {A} (l : list A) :
  keeps_default (random_choice l : Mn A).
Proof. intros n. unfold random_choice. by destruct (l !! _). Qed.

Lemma keeps_default_allocate_interface (x : Interface) :
  keeps_default (allocate_interface x).
Proof. done. Qed.

Create HintDb default_server.
#[local] Hint Resolve keeps_default_get_iface keeps_default_allocate_interface
  : default_server.

Ltac keeps_default_step :=
  first
    [ solve [auto with default_server]
    | apply keeps_default_ret
    | apply keeps_default_raise
    | apply keeps_default_gets
    | apply keeps_default_random_choice
    | apply keeps_default_bind; [|intros ?]
    | apply keeps_default_when
    | apply keeps_default_for_each; intros ?
    | apply keeps_default_modify; intros ?; reflexivity
    | match goal with
      | |- forall n, default_server (state_of ((match ?x with _ => _ end) n)) = _ =>
          destruct x
      end ].

Ltac keeps_default := repeat keeps_default_step.

Lemma keeps_default_trigger_callback (event : string) (args : list Value) :
  keeps_default (trigger_callback event args).
Proof. unfold trigger_callback. keeps_default. Qed.

Lemma keeps_default_upd_iface (i : IRef) (f : Interface -> Interface) :
  keeps_default (upd_iface i f).
Proof. unfold upd_iface. keeps_default. Qed.

Lemma keeps_default_upd_chain (r : ChainRef) (f : Blockchain -> Blockchain) :
  keeps_default (upd_chain r f).
Proof. unfold upd_chain. keeps_default. Qed.

#[local] Hint Resolve keeps_default_trigger_callback keeps_default_upd_iface
  keeps_default_upd_chain : default_server.

Lemma keeps_default_set_status (status : string) : keeps_default (_set_status status).
Proof. unfold _set_status. keeps_default. Qed.

Lemma keeps_default_queue_request (method : string) (params : list Value)
    (iface : option IRef) :
  keeps_default (queue_request method params iface).
Proof. unfold queue_request, Interface_queue_request. keeps_default. Qed.

Lemma keeps_default_close_interface (iface : option IRef) :
  keeps_default (close_interface iface).
Proof. unfold close_interface, Interface_close. keeps_default. Qed.

#[local] Hint Resolve keeps_default_set_status keeps_default_queue_request
  keeps_default_close_interface : default_server.

Lemma keeps_default_connection_down (srv : string) : keeps_default (connection_down srv).
Proof. unfold connection_down, get_chains. keeps_default. Qed.

Lemma keeps_default_start_interface (srv : string) : keeps_default (start_interface srv).
Proof. unfold start_interface. keeps_default. Qed.

#[local] Hint Resolve keeps_default_connection_down keeps_default_start_interface
  : default_server.

Lemma keeps_default_start_random_interface : keeps_default start_random_interface.
Proof. unfold start_random_interface, pick_random_server. keeps_default. Qed.

Lemma keeps_default_send_subscriptions : keeps_default send_subscriptions.
Proof. unfold send_subscriptions, resend_unanswered. keeps_default. Qed.

Lemma keeps_default_stop_current_interface (srv : string) (i : IRef) (cur : option IRef) :
  keeps_default (stop_current_interface srv i cur).
Proof. unfold stop_current_interface. keeps_default. Qed.

#[local] Hint Resolve keeps_default_start_random_interface keeps_default_send_subscriptions
  keeps_default_stop_current_interface : default_server.

(** A switch to the server that is the default server already leaves it the
    default server. *)
Lemma switch_to_interface_default (srv : string) n :
  srv = default_server n ->
  default_server (state_of (switch_to_interface srv n)) = default_server n.
Proof.
  intros Hsrv.
  assert (Hrest : keeps_default
            (bind (gets interfaces) (fun ifs =>
               match ifs !! srv with
               | None => bind (modify (set_interface None)) (fun _ => start_interface srv)
               | Some i =>
                   bind (gets interface) (fun cur =>
                     if decide (cur = Some i) then ret tt
                     else
                       bind (stop_current_interface srv i cur) (fun blockchain_updated =>
                       bind (modify (set_interface (Some i))) (fun _ =>
                       bind send_subscriptions (fun _ =>
                       bind (_set_status "connected") (fun _ =>
                       bind (trigger_callback "network_updated" []) (fun _ =>
                         when blockchain_updated
                           (trigger_callback "blockchain_updated" [])))))))
               end))).
  { keeps_default. }
  unfold switch_to_interface. unfold bind at 1. unfold modify at 1.
  rewrite Hrest. simpl. done.
Qed.

Lemma keeps_default_new_interface (srv : string) (socket : nat) :
  keeps_default (new_interface srv socket).
Proof.
  unfold new_interface, add_recent_server.
  do 4 (apply keeps_default_bind; [keeps_default|intros ?]).
  intros n. unfold bind, gets, when, modify.
  case_bool_decide as Hsrv; simpl; [|done].
  pose proof (switch_to_interface_default srv n Hsrv) as Hswitch.
  destruct (switch_to_interface srv n) as [[] n1|e n1]; simpl in *; done.
Qed.

#[local] Hint Resolve keeps_default_new_interface : default_server.

Lemma keeps_default_maintain_connections : keeps_default maintain_connections.
Proof. unfold maintain_connections. keeps_default. Qed.

Lemma keeps_default_maintain_interfaces : keeps_default maintain_interfaces.
Proof. unfold maintain_interfaces. keeps_default. Qed.

Lemma keeps_default_maintain_nodes (t : Z) : keeps_default (maintain_nodes t).
Proof. unfold maintain_nodes. keeps_default. Qed.

(** The main-interface step takes a server out only when auto_connect is off
    and [SERVER_RETRY_INTERVAL] has passed since [server_retry_time], and then
    it takes out the default server and no other. *)
Lemma maintain_main_interface_readmits (t : Z) n :
  stable n (state_of (maintain_main_interface t n))
  ∨ (auto_connect n = false
     ∧ interface n = None
     ∧ t - server_retry_time n > SERVER_RETRY_INTERVAL
     ∧ disconnected_servers (state_of (maintain_main_interface t n))
       = disconnected_servers n ∖ {[default_server n]}).
Proof.
  unfold maintain_main_interface, is_connected. repeat unfold_monad. simpl.
  destruct (interface n) as [j|] eqn:Hactive; simpl; [by left|].
  destruct (auto_connect n) eqn:Hauto; simpl.
  - left. destruct (negb (is_connecting n)); simpl; [|done].
    apply preserves_switch_to_random_interface.
  - case_decide; simpl; [|left; apply preserves_switch_to_interface].
    destruct (bool_decide (t - server_retry_time n > SERVER_RETRY_INTERVAL)) eqn:Hretry;
      simpl; [|by left].
    right. apply bool_decide_eq_true in Hretry. done.
Qed.

Lemma maintain_sockets_readmits (s : string) n :
  s ∈ disconnected_servers n ->
  s ∉ disconnected_servers (state_of (maintain_sockets n)) ->
  now n - nodes_retry_time n > NODES_RETRY_INTERVAL
  ∨ (s = default_server n
     ∧ auto_connect n = false
     ∧ now n - server_retry_time n > SERVER_RETRY_INTERVAL).
Proof.
  intros Hs Hgone. unfold maintain_sockets in Hgone.
  rewrite state_of_bind in Hgone.
  pose proof (preserves_maintain_connections n) as H1.
  pose proof (keeps_default_maintain_connections n) as D1.
  destruct (maintain_connections n) as [[] n1|e n1]; simpl in H1, D1;
    [|by destruct Hgone; eapply stable_disconnected].
  rewrite state_of_bind in Hgone.
  pose proof (preserves_maintain_interfaces n1) as H2.
  pose proof (keeps_default_maintain_interfaces n1) as D2.
  assert (H12 : stable n (state_of (maintain_interfaces n1))) by (by etransitivity).
  destruct (maintain_interfaces n1) as [[] n2|e n2]; simpl in H2, H12, D2;
    [|by destruct Hgone; eapply stable_disconnected].
  rewrite state_of_bind in Hgone. unfold gets at 1 in Hgone.
  rewrite state_of_bind in Hgone.
  destruct H12 as (Hsub & Hnow & Hnodes & Hserver & Hauto & Hheap).
  assert (Hstable2 : stable n n2) by (by split_and!).
  destruct (maintain_nodes_stable (now n2) n2) as [H3 | Helapsed];
    [|left; rewrite <- Hnow, <- Hnodes; exact Helapsed].
  pose proof (keeps_default_maintain_nodes (now n2) n2) as D3.
  assert (H13 : stable n (state_of (maintain_nodes (now n2) n2))) by (by etransitivity).
  destruct (maintain_nodes (now n2) n2) as [[] n3|e n3]; simpl in H3, H13, D3;
    [|by destruct Hgone; eapply stable_disconnected].
  destruct (maintain_main_interface_readmits (now n2) n3)
    as [H4 | (Hoff & _ & Helapsed & Hout)].
  - destruct Hgone. eapply stable_disconnected; [|done]. by etransitivity.
  - right. pose proof (stable_disconnected s n n3 H13 Hs) as Hs3.
    destruct H13 as (_ & _ & _ & Hserver3 & Hauto3 & _).
    split_and!.
    + rewrite Hout in Hgone. rewrite <- D1, <- D2, <- D3.
      destruct (decide (s = default_server n3)) as [|Hne]; [done|].
      destruct Hgone. apply elem_of_difference. split; [done|].
      by intros ?%elem_of_singleton.
    + by rewrite <- Hauto3.
    + by rewrite <- Hnow, <- Hserver3.
Qed.


(** * Further properties *)

(** ** Server strings *)

Lemma append_cons (a : ascii) (s t : string) :
  String a s +:+ t = String a (s +:+ t).
Proof. reflexivity. Qed.

Lemma rsplit1_absent (c : ascii) (s : string) :
  contains c s = false -> rsplit1 c s = None.
Proof.
  induction s as [|a s IH]; simpl; [done|].
  case_decide; [done|]. intros Hs. by rewrite IH.
Qed.

(** Splitting at the last [c]: what follows has no [c] in it. *)
Lemma rsplit1_last (c : ascii) (b e : string) :
  contains c e = false -> rsplit1 c (b +:+ String c e) = Some (b, e).
Proof.
  intros He. induction b as [|a b IH].
  - change ("" +:+ String c e) with (String c e). simpl.
    rewrite rsplit1_absent by done. by rewrite decide_True.
  - rewrite append_cons. simpl. by rewrite IH.
Qed.

Lemma rsplit1_Some (c : ascii) (s b e : string) :
  rsplit1 c s = Some (b, e) -> s = b +:+ String c e ∧ contains c e = false.
Proof.
  revert b. induction s as [|a s IH]; intros b; simpl; [done|].
  destruct (rsplit1 c s) as [[b' e']|] eqn:Hs.
  - intros [= <- <-]. destruct (IH b' eq_refl) as [-> He]. by rewrite append_cons.
  - case_decide as Hac; [|done]. intros [= <- <-]. subst a. split; [done|].
    clear IH. induction s as [|a s IH]; [done|]. simpl in *.
    destruct (rsplit1 c s) as [[??]|]; [done|].
    case_decide; [done|]. by apply IH.
Qed.

Lemma append_assoc (s t u : string) : (s +:+ t) +:+ u = s +:+ (t +:+ u).
Proof. induction s as [|a s IH]; [done|]. by rewrite !append_cons, IH. Qed.

(** X1: a server string built by [serialize_server] is read back by
    [deserialize_server] as the same host, port and protocol, whenever the
    port has no colon and parses as a number and the protocol passes the
    assertion; the host may contain colons. *)
Theorem deserialize_serialize_server (host port protocol : string) :
  contains ":" port = false ->
  int_parses port = true ->
  protocol ∈ [""; "s"; "t"; "st"] ->
  deserialize_server (serialize_server host port protocol) = Some (host, port, protocol).
Proof.
  intros Hport Hint Hprotocol.
  assert (Hcolon : contains ":" protocol = false).
  { repeat (apply elem_of_cons in Hprotocol as [->|Hprotocol]; [done|]).
    by apply elem_of_nil in Hprotocol. }
  unfold deserialize_server, serialize_server.
  change (host +:+ ":" +:+ port +:+ ":" +:+ protocol)
    with (host +:+ (String ":" port +:+ String ":" protocol)).
  rewrite <- append_assoc.
  rewrite rsplit1_last by done. rewrite rsplit1_last by done.
  rewrite bool_decide_eq_true_2 by done. by rewrite Hint.
Qed.

(** X2: whatever [deserialize_server] accepts is the serialization of what it
    returns: the string is host, port and protocol joined by colons, the port
    and the protocol have no colon, the port parses and the protocol passes
    the assertion.  With fewer than two colons it raises. *)
Theorem deserialize_server_accepts (s host port protocol : string) :
  deserialize_server s = Some (host, port, protocol) ->
  s = serialize_server host port protocol
  ∧ contains ":" port = false
  ∧ contains ":" protocol = false
  ∧ int_parses port = true
  ∧ protocol ∈ [""; "s"; "t"; "st"].
Proof.
  unfold deserialize_server, serialize_server.
  destruct (rsplit1 ":" s) as [[rest protocol']|] eqn:Hs; [|done].
  destruct (rsplit1 ":" rest) as [[host' port']|] eqn:Hrest; [|done].
  destruct (bool_decide (protocol' ∈ _)) eqn:Hprotocol; [|done].
  destruct (int_parses port') eqn:Hint; [|done].
  intros [= <- <- <-].
  apply rsplit1_Some in Hs as [-> Hcp]. apply rsplit1_Some in Hrest as [-> Hcport].
  apply bool_decide_eq_true in Hprotocol.
  split_and!; try done. by rewrite append_assoc.
Qed.

(** ** Server selection *)

(** X3: [filter_protocol] lists exactly the serialized servers of the hosts
    that offer the protocol on a non-empty port. *)
Theorem filter_protocol_spec (hostmap : gmap string (gmap string string))
    (protocol s : string) :
  s ∈ filter_protocol hostmap protocol
  ↔ exists host portmap port,
      hostmap !! host = Some portmap
      ∧ portmap !! protocol = Some port
      ∧ port ≠ ""
      ∧ s = serialize_server host port protocol.
Proof.
  unfold filter_protocol. rewrite list_elem_of_omap. split.
  - intros ([host portmap] & Hin & Hsome).
    apply elem_of_map_to_list in Hin.
    destruct (portmap !! protocol) as [port|] eqn:Hport; [|done].
    case_decide; [done|]. injection Hsome as <-.
    by exists host, portmap, port.
  - intros (host & portmap & port & Hhost & Hport & Hne & ->).
    exists (host, portmap). split; [by apply elem_of_map_to_list|].
    rewrite Hport. by rewrite decide_False.
Qed.

(** X4: [pick_random_server] always returns; a server it picks offers the
    protocol and is not in the exclude set, and it picks none only when every
    server offering the protocol is excluded. *)
Theorem pick_random_server_spec (hostmap : gmap string (gmap string string))
    (protocol : string) (exclude_set : gset string) n :
  exists picked,
    pick_random_server hostmap protocol exclude_set n
    = Ok picked (match picked with
                 | Some _ => set_rng (tail (rng n)) n
                 | None => n
                 end)
    ∧ match picked with
      | Some s => s ∈ filter_protocol hostmap protocol ∧ s ∉ exclude_set
      | None => forall s, s ∈ filter_protocol hostmap protocol -> s ∈ exclude_set
      end.
Proof.
  unfold pick_random_server.
  set (eligible := elements _).
  assert (Heligible : forall s, s ∈ eligible
            ↔ s ∈ filter_protocol hostmap protocol ∧ s ∉ exclude_set).
  { intros s. unfold eligible.
    by rewrite elem_of_elements, elem_of_difference, elem_of_list_to_set. }
  destruct eligible as [|e eligible'] eqn:Hel.
  - exists None. split; [done|]. intros s Hs.
    destruct (decide (s ∈ exclude_set)) as [|Hout]; [done|].
    exfalso. eapply not_elem_of_nil. apply Heligible. done.
  - destruct (random_choice_returns (e :: eligible') n) as (s & Hpick & Hs); [done|].
    exists (Some s). repeat unfold_monad. rewrite Hpick. split; [done|].
    by apply Heligible.
Qed.

Lemma get_servers_fold (recent : list string) (acc : gmap string (gmap string string))
    (host : string) :
  let out :=
    fold_left
      (fun out s =>
         match deserialize_server s with
         | None => out
         | Some (host, port, protocol) =>
             match out !! host with
             | Some _ => out
             | None => <[host := {[protocol := port]}]> out
             end
         end)
      recent acc in
  (forall portmap, acc !! host = Some portmap -> out !! host = Some portmap)
  ∧ (forall portmap, out !! host = Some portmap ->
       acc !! host = Some portmap
       ∨ exists s port protocol,
           s ∈ recent
           ∧ deserialize_server s = Some (host, port, protocol)
           ∧ portmap = {[protocol := port]}).
Proof.
  revert acc. induction recent as [|s recent IH]; intros acc; simpl.
  { split; [done|]. intros portmap Hout. by left. }
  destruct (deserialize_server s) as [[[h port] protocol]|] eqn:Hs.
  - destruct (acc !! h) as [pm|] eqn:Hacc.
    + destruct (IH acc) as [Hkeep Hfrom]. split; [done|].
      intros portmap Hout. destruct (Hfrom portmap Hout) as [?|(s' & p' & pr' & Hin & ?)];
        [by left|right]. exists s', p', pr'. split; [by right|done].
    + destruct (IH (<[h := {[protocol := port]}]> acc)) as [Hkeep Hfrom]. split.
      * intros portmap Hhost. apply Hkeep. rewrite lookup_insert_ne; [done|congruence].
      * intros portmap Hout.
        destruct (Hfrom portmap Hout) as [Hins|(s' & p' & pr' & Hin & ?)].
        -- destruct (decide (h = host)) as [->|Hne].
           ++ rewrite lookup_insert_eq in Hins. injection Hins as <-.
              right. exists s, port, protocol. split; [by left|done].
           ++ rewrite lookup_insert_ne in Hins by done. by left.
        -- right. exists s', p', pr'. split; [by right|done].
  - destruct (IH acc) as [Hkeep Hfrom]. split; [done|].
    intros portmap Hout. destruct (Hfrom portmap Hout) as [?|(s' & p' & pr' & Hin & ?)];
      [by left|right]. exists s', p', pr'. split; [by right|done].
Qed.

(** X5: in [get_servers] the default servers are never overridden by the
    recent-servers list, and every other host in the result comes from a
    recent server string that [deserialize_server] accepts, with that
    string's protocol and port. *)
Theorem get_servers_spec (host : string) n :
  (forall portmap, DEFAULT_SERVERS !! host = Some portmap ->
                   get_servers n !! host = Some portmap)
  ∧ (forall portmap, get_servers n !! host = Some portmap ->
       DEFAULT_SERVERS !! host = Some portmap
       ∨ exists s port protocol,
           s ∈ recent_servers n
           ∧ deserialize_server s = Some (host, port, protocol)
           ∧ portmap = {[protocol := port]}).
Proof. apply get_servers_fold. Qed.

Lemma list_remove_first_subseteq {A} `{EqDecision A} (x y : A) (l : list A) :
  y ∈ list_remove_first x l -> y ∈ l.
Proof.
  induction l as [|a l IH]; simpl; [done|].
  case_decide; [by right|]. intros [->|Hin]%elem_of_cons; [by left|right; by apply IH].
Qed.

Lemma list_remove_first_NoDup {A} `{EqDecision A} (x : A) (l : list A) :
  NoDup l -> NoDup (list_remove_first x l) ∧ x ∉ list_remove_first x l.
Proof.
  induction 1 as [|a l Hfresh Hnodup IH]; simpl.
  { split; [constructor|apply not_elem_of_nil]. }
  case_decide as Hax.
  - subst a. done.
  - destruct IH as [IH1 IH2]. split.
    + constructor; [|done]. intros Hin. by apply Hfresh, (list_remove_first_subseteq x).
    + intros [?|?]%elem_of_cons; [congruence|done].
Qed.

(** X6: [add_recent_server] puts the server in front, keeps at most 20
    entries and adds no other server; a list without duplicates stays
    without duplicates. *)
Theorem add_recent_server_spec (srv : string) n :
  exists n',
    add_recent_server srv n = Ok tt n'
    ∧ head (recent_servers n') = Some srv
    ∧ (length (recent_servers n') <= 20)%nat
    ∧ (forall s, s ∈ recent_servers n' -> s = srv ∨ s ∈ recent_servers n)
    ∧ (NoDup (recent_servers n) -> NoDup (recent_servers n')).
Proof.
  unfold add_recent_server. repeat unfold_monad.
  eexists. split; [reflexivity|]. simpl. split_and!.
  - done.
  - rewrite length_take. lia.
  - intros s [->|Hin]%elem_of_cons; [by left|right].
    apply subseteq_take in Hin. by apply (list_remove_first_subseteq srv).
  - intros Hnodup. destruct (list_remove_first_NoDup srv _ Hnodup) as [Hnd Hfresh].
    constructor.
    + intros Hin. by apply Hfresh, (subseteq_take 19).
    + eapply sublist_NoDup; [exact Hnd|apply sublist_take].
Qed.

(** ** More of the header-sync state machine *)

(** X7: a header response that carries no header, or a header at a height
    other than the one the interface awaits, tears the registered interface
    down: its server is marked disconnected, it is unregistered and closed,
    and nothing is requested. *)
Theorem on_get_header_unsolicited (i : IRef) (x : Interface) (result : option Header) n :
  iface_heap n !! i = Some x ->
  interfaces n !! server x = Some i ->
  (forall header, result = Some header -> request x ≠ Some (block_height header)) ->
  exists n',
    on_get_header i result n = Ok tt n'
    ∧ server x ∈ disconnected_servers n'
    ∧ interfaces n' !! server x = None
    ∧ closed <$> iface_heap n' !! i = Some true
    ∧ mode <$> iface_heap n' !! i = Some (mode x)
    ∧ nothing_sent n n'.
Proof.
  intros Hi Hregistered Hunsolicited.
  destruct (connection_down_returns (server x) n) as
    (n1 & Hdown & Hdisc & Hsent & Hifs & Hheap & _).
  { intros j Hj. rewrite Hregistered in Hj. injection Hj as <-. by eexists. }
  rewrite Hregistered in Hifs, Hheap. simpl in Hifs. rewrite Hi in Hifs.
  assert (Hrun : on_get_header i result n = Ok tt n1).
  { unfold on_get_header, get_iface. repeat unfold_monad.
    destruct result as [header|]; rewrite Hi; simpl; [|done].
    rewrite decide_True by (by apply Hunsolicited). done. }
  exists n1. split_and!; try done.
  - rewrite Hdisc. apply elem_of_union; right. by apply elem_of_singleton.
  - rewrite Hifs. apply lookup_delete_eq.
  - by rewrite Hheap, lookup_alter_eq, Hi.
  - by rewrite Hheap, lookup_alter_eq, Hi.
Qed.

(** X8: a header response that matches the awaited height while the
    interface is in default mode (the request is left over from an earlier
    search) makes [on_get_header] raise [Exception('default')]; nothing has
    been changed when it does. *)
Theorem on_get_header_default_mode_raises (i : IRef) (x : Interface) (header : Header) n :
  iface_heap n !! i = Some x ->
  mode x = Default ->
  request x = Some (block_height header) ->
  on_get_header i (Some header) n = Raise (ModeException Default) n.
Proof.
  intros Hi Hmode Hreq.
  unfold on_get_header, get_iface. repeat unfold_monad.
  rewrite Hi. simpl. rewrite Hreq. rewrite decide_False by (by intros []).
  by rewrite Hmode.
Qed.

(** X9: in catch_up mode a header that does not connect to the interface's
    chain sends the interface back: for a height [h > 0] it enters backward
    mode with [bad = h] and [bad_header] recorded, the header at [h - 1] is
    requested, and the chains (the catch-up marker included) are left as
    they are. *)
Theorem on_get_header_catch_up_rejected (i : IRef) (x : Interface) (r : ChainRef)
    (header : Header) n :
  iface_heap n !! i = Some x ->
  mode x = CatchUp ->
  request x = Some (block_height header) ->
  blockchain x = Some r ->
  Blockchain_can_connect (chains n) r header true = false ->
  0 < block_height header ->
  exists n' x',
    on_get_header i (Some header) n = Ok tt n'
    ∧ iface_heap n' !! i = Some x'
    ∧ mode x' = Backward
    ∧ bad x' = Some (block_height header)
    ∧ bad_header x' = Some header
    ∧ chains n' = chains n
    ∧ header_requested i (block_height header - 1) n n'.
Proof.
  intros Hi Hmode Hreq Hchain Hreject Hpos.
  unfold on_get_header, on_get_header_next, on_get_header_catch_up, iface_chain,
    get_iface, upd_iface.
  repeat unfold_monad. rewrite Hi. simpl. rewrite Hreq.
  rewrite decide_False by (by intros []). rewrite Hmode. simpl.
  rewrite Hi. simpl. rewrite Hchain. simpl. rewrite Hreject. simpl.
  rewrite decide_False by lia. simpl.
  rewrite lookup_alter_eq, Hi. simpl.
  unfold request_header, queue_request, Interface_queue_request, upd_iface.
  repeat unfold_monad. simpl.
  do 2 eexists. split; [reflexivity|]. simpl.
  rewrite !lookup_alter_eq, Hi. simpl.
  split_and!; try done.
  do 2 eexists. rewrite Hi. simpl. rewrite !lookup_alter_eq, Hi. simpl.
  split_and!; reflexivity.
Qed.

(** X10: in catch_up mode a header below the announced tip that connects is
    saved on the interface's chain and the next height [h + 1] is fetched: as
    a single header while the tip is at most 50 ahead of it, and otherwise as
    the chunk [(h + 1) // CHUNK_SIZE], which is requested only if it is not
    outstanding already; in the chunk case the interface keeps awaiting [h]. *)
Theorem on_get_header_catch_up_step (i : IRef) (x : Interface) (r : ChainRef)
    (header : Header) n :
  iface_heap n !! i = Some x ->
  mode x = CatchUp ->
  request x = Some (block_height header) ->
  blockchain x = Some r ->
  Blockchain_can_connect (chains n) r header true = true ->
  0 <= block_height header < tip x ->
  let h := block_height header in
  (tip x <= h + 51 ->
   exists n' x',
     on_get_header i (Some header) n = Ok tt n'
     ∧ chains n' = Blockchain_save_header (chains n) r header
     ∧ iface_heap n' !! i = Some x'
     ∧ mode x' = CatchUp
     ∧ header_requested i (h + 1) n n')
  ∧ (tip x > h + 51 ->
     CHUNK_SIZE ≠ 0 ->
     let index := (h + 1) / CHUNK_SIZE in
     exists n' x',
       on_get_header i (Some header) n = Ok tt n'
       ∧ chains n' = Blockchain_save_header (chains n) r header
       ∧ iface_heap n' !! i = Some x'
       ∧ mode x' = CatchUp
       ∧ request x' = Some h
       ∧ requested_chunks n' = requested_chunks n ∪ {[index]}
       ∧ if decide (index ∈ requested_chunks n) then nothing_sent n n'
         else chunk_requested i index n n').
Proof.
  intros Hi Hmode Hreq Hchain Hconnect Hrange h. subst h.
  split.
  - intros Hnear.
    unfold on_get_header, on_get_header_next, on_get_header_catch_up, iface_chain,
      get_iface, upd_iface, trigger_callback.
    repeat unfold_monad. rewrite Hi. simpl. rewrite Hreq.
    rewrite decide_False by (by intros []). rewrite Hmode. simpl.
    rewrite Hi. simpl. rewrite Hchain. simpl. rewrite Hconnect. simpl.
    rewrite Hi. simpl. rewrite decide_True by lia. simpl.
    rewrite decide_False by lia. simpl. rewrite Hi. simpl. rewrite Hmode. simpl.
    rewrite (bool_decide_eq_false_2 (tip x > _)) by lia. simpl.
    unfold request_header, queue_request, Interface_queue_request, upd_iface.
    repeat unfold_monad. simpl.
    do 2 eexists. split; [reflexivity|]. simpl.
    rewrite !lookup_alter_eq, Hi. simpl.
    split_and!; try done.
    do 2 eexists. rewrite Hi. simpl. rewrite !lookup_alter_eq, Hi. simpl.
    split_and!; reflexivity.
  - intros Hfar Hcs index.
    unfold on_get_header, on_get_header_next, on_get_header_catch_up, iface_chain,
      get_iface, upd_iface, trigger_callback.
    repeat unfold_monad. rewrite Hi. simpl. rewrite Hreq.
    rewrite decide_False by (by intros []). rewrite Hmode. simpl.
    rewrite Hi. simpl. rewrite Hchain. simpl. rewrite Hconnect. simpl.
    rewrite Hi. simpl. rewrite decide_True by lia. simpl.
    rewrite decide_False by lia. simpl. rewrite Hi. simpl. rewrite Hmode. simpl.
    rewrite (bool_decide_eq_true_2 (tip x > _)) by lia. simpl.
    unfold floordiv, request_chunk. repeat unfold_monad.
    rewrite decide_False by done. simpl. fold index.
    destruct (decide (index ∈ requested_chunks n)) as [Hin | Hout]; simpl.
    + do 2 eexists. split; [reflexivity|]. simpl. rewrite Hi.
      split_and!; try done.
      apply set_eq. intros k.
      rewrite elem_of_union, elem_of_singleton. split; [by left|]. by intros [?| ->].
    + unfold queue_request, Interface_queue_request, upd_iface.
      repeat unfold_monad. simpl.
      do 2 eexists. split; [reflexivity|]. simpl.
      rewrite !lookup_alter_eq, Hi. simpl.
      split_and!; try done.
      do 2 eexists. rewrite Hi. simpl. rewrite !lookup_alter_eq, Hi. simpl.
      split_and!; reflexivity.
Qed.

(** X11: in catch_up mode a header at or above the announced tip that
    connects ends the catch-up: it is saved, the chain's marker is released,
    and only then is the lagging-server check run, after which the interface
    returns to default mode awaiting nothing.  With auto_connect off nothing
    is sent. *)
Theorem on_get_header_catch_up_done (i : IRef) (x : Interface) (r : ChainRef)
    (header : Header) n :
  iface_heap n !! i = Some x ->
  mode x = CatchUp ->
  request x = Some (block_height header) ->
  blockchain x = Some r ->
  Blockchain_can_connect (chains n) r header true = true ->
  tip x <= block_height header ->
  let saved := Blockchain_save_header (chains n) r header in
  let released := set_chain_heap (alter (set_catch_up None) r (chain_heap saved)) saved in
  (exists n1,
     chains n1 = released
     ∧ iface_heap n1 = iface_heap n
     ∧ on_get_header i (Some header) n
       = bind switch_lagging_interface
           (fun _ => upd_iface i (fun x => set_request None (set_mode Default x))) n1)
  ∧ (auto_connect n = false ->
     exists n' x',
       on_get_header i (Some header) n = Ok tt n'
       ∧ chains n' = released
       ∧ iface_heap n' !! i = Some x'
       ∧ mode x' = Default
       ∧ request x' = None
       ∧ nothing_sent n n').
Proof.
  intros Hi Hmode Hreq Hchain Hconnect Htip saved released.
  assert (Hrun : forall k : unit -> Mn unit,
            exists n1,
              chains n1 = released
              ∧ iface_heap n1 = iface_heap n
              ∧ message_id n1 = message_id n
              ∧ auto_connect n1 = auto_connect n
              ∧ on_get_header i (Some header) n
                = bind switch_lagging_interface
                    (fun _ => upd_iface i (fun x => set_request None (set_mode Default x)))
                    n1).
  { intros _.
    unfold on_get_header, on_get_header_next, on_get_header_catch_up, iface_chain,
      get_iface, upd_chain, trigger_callback.
    repeat unfold_monad. rewrite Hi. simpl. rewrite Hreq.
    rewrite decide_False by (by intros []). rewrite Hmode. simpl.
    rewrite Hi. simpl. rewrite Hchain. simpl. rewrite Hconnect. simpl.
    rewrite Hi. simpl. rewrite decide_False by lia. simpl.
    rewrite Hi. simpl. rewrite Hchain. simpl.
    eexists. split_and!; cycle 4.
    { match goal with
      | |- context [switch_lagging_interface ?m] =>
          instantiate (1 := m); destruct (switch_lagging_interface m) as [[] ?|? ?]
      end; reflexivity. }
    all: done. }
  destruct (Hrun (fun _ => ret tt)) as (n1 & Hchains & Hheap & Hid & Hauto & Heq).
  split; [by exists n1|].
  intros Hoff. rewrite Heq.
  unfold switch_lagging_interface, upd_iface. repeat unfold_monad.
  rewrite Hauto, Hoff. simpl.
  do 2 eexists. split; [reflexivity|]. simpl.
  rewrite Hheap, lookup_alter_eq, Hi. simpl. split_and!; try done.
  split; [done|]. intros j. simpl.
  destruct (decide (j = i)) as [->|Hne].
  - by rewrite lookup_alter_eq, Hi.
  - by rewrite lookup_alter_ne.
Qed.

(** X12: a backward-mode response that connects to a chain whose marker is
    free starts the catch-up on that chain: the header is saved, the
    interface takes the marker and follows the chain in catch_up mode, and
    the next height is fetched as [on_get_header_next] does for [h + 1]; while
    the tip is at most 50 ahead of it, that is a single-header request. *)
Theorem on_get_header_backward_connects (i : IRef) (x : Interface) (r : ChainRef)
    (b : Blockchain) (header : Header) n :
  iface_heap n !! i = Some x ->
  mode x = Backward ->
  request x = Some (block_height header) ->
  can_connect (chains n) header = Some r ->
  chain_heap (chains n) !! r = Some b ->
  catch_up b = None ->
  let h := block_height header in
  let saved := Blockchain_save_header (chains n) r header in
  let marked :=
    set_chain_heap (alter (set_catch_up (Some (server x))) r (chain_heap saved)) saved in
  (exists n1 x1,
     iface_heap n1 !! i = Some x1
     ∧ mode x1 = CatchUp
     ∧ blockchain x1 = Some r
     ∧ chains n1 = marked
     ∧ on_get_header i (Some header) n = on_get_header_next i (server x) (Some (h + 1)) n1)
  ∧ (0 <= h -> tip x <= h + 51 ->
     exists n' x',
       on_get_header i (Some header) n = Ok tt n'
       ∧ iface_heap n' !! i = Some x'
       ∧ mode x' = CatchUp
       ∧ blockchain x' = Some r
       ∧ chains n' = marked
       ∧ header_requested i (h + 1) n n').
Proof.
  intros Hi Hmode Hreq Hconnect Hb Hfree h saved marked. subst h.
  assert (Hstart : on_get_header i (Some header) n
            = on_get_header_next i (server x) (Some (block_height header + 1))
                (set_pending_events
                   (<["blockchain_updated" :=
                        let l := default [] (pending_events n !! "blockchain_updated") in
                        if decide ([] ∈ l) then l else l ++ [[]]]> (pending_events n))
                   (set_chains marked
                      (set_iface_heap
                         (alter (fun x => set_blockchain (Some r) (set_mode CatchUp x)) i
                            (iface_heap n)) n)))).
  { unfold on_get_header, on_get_header_backward, get_iface, upd_iface, upd_chain,
      trigger_callback.
    repeat unfold_monad. rewrite Hi. simpl. rewrite Hreq.
    rewrite decide_False by (by intros []). rewrite Hmode. simpl.
    rewrite Hconnect, Hb. rewrite decide_True by done. simpl.
    rewrite Hi. simpl. reflexivity. }
  split.
  - do 2 eexists. split_and!; [| | | |exact Hstart]; simpl.
    + by rewrite lookup_alter_eq, Hi.
    + done.
    + done.
    + done.
  - intros Hpos Hnear. rewrite Hstart.
    unfold on_get_header_next, get_iface. repeat unfold_monad.
    rewrite decide_False by lia. simpl. rewrite lookup_alter_eq, Hi. simpl.
    rewrite (bool_decide_eq_false_2 (tip x > _)) by lia. simpl.
    unfold request_header, queue_request, Interface_queue_request, upd_iface.
    repeat unfold_monad. simpl.
    do 2 eexists. split; [reflexivity|]. simpl.
    rewrite !lookup_alter_eq, Hi. simpl.
    split_and!; try done.
    do 2 eexists. rewrite Hi. simpl. rewrite !lookup_alter_eq, Hi. simpl.
    split_and!; reflexivity.
Qed.

(** X13: a backward-mode response that does not connect but matches a known
    chain starts the bisection: the interface enters binary mode on that
    chain with [good = h] and the midpoint of [good] and [bad] is
    requested. *)
Theorem on_get_header_backward_match (i : IRef) (x : Interface) (r : ChainRef)
    (bad_height : Z) (header : Header) n :
  iface_heap n !! i = Some x ->
  mode x = Backward ->
  request x = Some (block_height header) ->
  (forall r', can_connect (chains n) header = Some r' ->
              exists b, chain_heap (chains n) !! r' = Some b ∧ catch_up b ≠ None) ->
  check_header (chains n) header = Some r ->
  bad x = Some bad_height ->
  let h := block_height header in
  0 <= (bad_height + h) / 2 ->
  exists n' x',
    on_get_header i (Some header) n = Ok tt n'
    ∧ iface_heap n' !! i = Some x'
    ∧ mode x' = Binary
    ∧ good x' = Some h
    ∧ bad x' = Some bad_height
    ∧ blockchain x' = Some r
    ∧ chains n' = chains n
    ∧ header_requested i ((bad_height + h) / 2) n n'.
Proof.
  intros Hi Hmode Hreq Hconn Hcheck Hbad h Hmid. subst h.
  assert (Hmiss :
    match can_connect (chains n) header with
    | Some r =>
        match chain_heap (chains n) !! r with
        | Some b => if decide (catch_up b = None) then Some (inl r) else None
        | None => Some (inr ())
        end
    | None => None
    end = (None : option (nat + unit))).
  { destruct (can_connect (chains n) header) as [r'|] eqn:Hr; [|done].
    destruct (Hconn r' eq_refl) as (b & -> & Hb). by case_decide. }
  unfold on_get_header, on_get_header_next, on_get_header_backward, get_iface, upd_iface.
  repeat unfold_monad. rewrite Hi. simpl. rewrite Hreq.
  rewrite decide_False by (by intros []). rewrite Hmode, Hcheck. simpl.
  rewrite Hmiss. simpl. rewrite lookup_alter_eq, Hi. simpl. rewrite Hbad. simpl.
  rewrite decide_False by lia. simpl. rewrite lookup_alter_eq, Hi. simpl.
  unfold request_header, queue_request, Interface_queue_request, upd_iface.
  repeat unfold_monad. simpl.
  do 2 eexists. split; [reflexivity|]. simpl.
  rewrite !lookup_alter_eq, Hi. simpl.
  split_and!; try done.
  do 2 eexists. rewrite Hi. simpl. rewrite !lookup_alter_eq, Hi. simpl.
  split_and!; reflexivity.
Qed.

(** ** Header chunks *)

(** X14: [request_chunk] asks for a chunk at most once: while the index is
    outstanding a further call changes nothing, and otherwise it queues
    [blockchain.block.headers] for [index * CHUNK_SIZE] and records the
    index.  Hence calling it twice in a row is the same as calling it once. *)
Theorem request_chunk_once (i : IRef) (index : Z) n :
  (index ∈ requested_chunks n -> request_chunk i index n = Ok tt n)
  ∧ (index ∉ requested_chunks n ->
     exists n',
       request_chunk i index n = Ok tt n'
       ∧ requested_chunks n' = requested_chunks n ∪ {[index]}
       ∧ (is_Some (iface_heap n !! i) -> chunk_requested i index n n'))
  ∧ bind (request_chunk i index) (fun _ => request_chunk i index) n
    = request_chunk i index n.
Proof.
  assert (Hfresh : index ∉ requested_chunks n ->
            exists n', request_chunk i index n = Ok tt n'
                       ∧ requested_chunks n' = requested_chunks n ∪ {[index]}
                       ∧ (is_Some (iface_heap n !! i) -> chunk_requested i index n n')).
  { intros Hout.
    unfold request_chunk, queue_request, Interface_queue_request, upd_iface.
    repeat unfold_monad. simpl. rewrite decide_False by done. simpl.
    eexists. split; [reflexivity|]. simpl. split; [done|].
    intros [x Hx]. exists x. eexists. simpl. rewrite lookup_alter_eq, Hx. simpl.
    split_and!; reflexivity. }
  assert (Hdone : forall m : Net,
            index ∈ requested_chunks m -> request_chunk i index m = Ok tt m).
  { intros m Hin. unfold request_chunk. repeat unfold_monad. simpl.
    by rewrite decide_True. }
  split_and!; [apply Hdone|exact Hfresh|].
  unfold bind at 1. destruct (decide (index ∈ requested_chunks n)) as [Hin|Hout].
  - rewrite (Hdone n Hin). by apply Hdone.
  - destruct (Hfresh Hout) as (n' & -> & Hreq & _). apply Hdone.
    rewrite Hreq. apply elem_of_union. right. by apply elem_of_singleton.
Qed.

(** X15: a solicited chunk that connects is taken off the outstanding set;
    while the chain is still below the announced tip the next chunk is
    requested, and otherwise the catch-up ends: the interface returns to
    default mode and the chain's marker is released, while the height the
    interface awaits is left as it was. *)
Theorem on_block_headers_connects (i : IRef) (x : Interface) (b : ChainRef)
    (hexdata : string) (height : Z) (rest : list Z) (c' : ChainSet) n :
  iface_heap n !! i = Some x ->
  blockchain x = Some b ->
  CHUNK_SIZE ≠ 0 ->
  let index := height / CHUNK_SIZE in
  let response := Build_ChunkResponse None (Some (Some hexdata)) (Some (height :: rest)) in
  index * CHUNK_SIZE = height ->
  index ∈ requested_chunks n ->
  Blockchain_connect_chunk (chains n) b index hexdata = (true, c') ->
  (Blockchain_height c' b < tip x ->
   index + 1 ∉ requested_chunks n ->
   exists n',
     on_block_headers i response n = Ok tt n'
     ∧ chains n' = c'
     ∧ requested_chunks n' = requested_chunks n ∖ {[index]} ∪ {[index + 1]}
     ∧ mode <$> iface_heap n' !! i = Some (mode x)
     ∧ chunk_requested i (index + 1) n n')
  ∧ (tip x <= Blockchain_height c' b ->
     exists n' x',
       on_block_headers i response n = Ok tt n'
       ∧ chains n' = set_chain_heap (alter (set_catch_up None) b (chain_heap c')) c'
       ∧ requested_chunks n' = requested_chunks n ∖ {[index]}
       ∧ iface_heap n' !! i = Some x'
       ∧ mode x' = Default
       ∧ request x' = request x
       ∧ nothing_sent n n').
Proof.
  intros Hi Hchain Hsize index response Haligned Hrequested Hconnect.
  split.
  - intros Hbelow Hnext.
    unfold on_block_headers, floordiv, get_iface, request_chunk, queue_request,
      Interface_queue_request, upd_iface.
    repeat unfold_monad. rewrite Hi. simpl.
    rewrite decide_False by done. simpl. fold index.
    rewrite (bool_decide_eq_false_2 (index * CHUNK_SIZE ≠ height)) by (intros ?; done).
    rewrite (bool_decide_eq_false_2 (index ∉ requested_chunks n)) by (intros ?; done).
    simpl. rewrite Hchain. simpl. rewrite Hconnect. simpl. rewrite Hi. simpl.
    rewrite bool_decide_eq_true_2 by done.
    rewrite decide_False.
    2:{ simpl. intros [? _]%elem_of_difference. done. }
    simpl. eexists. split; [reflexivity|]. simpl.
    rewrite lookup_alter_eq, Hi. simpl. split_and!; try done.
    exists x. eexists. rewrite Hi. simpl. rewrite lookup_alter_eq, Hi. simpl.
    split_and!; reflexivity.
  - intros Hreached.
    unfold on_block_headers, floordiv, get_iface, upd_chain, upd_iface.
    repeat unfold_monad. rewrite Hi. simpl.
    rewrite decide_False by done. simpl. fold index.
    rewrite (bool_decide_eq_false_2 (index * CHUNK_SIZE ≠ height)) by (intros ?; done).
    rewrite (bool_decide_eq_false_2 (index ∉ requested_chunks n)) by (intros ?; done).
    simpl. rewrite Hchain. simpl. rewrite Hconnect. simpl. rewrite Hi. simpl.
    rewrite bool_decide_eq_false_2 by lia.
    do 2 eexists. split; [reflexivity|]. simpl.
    rewrite lookup_alter_eq, Hi. simpl. split_and!; try done.
    split; [done|]. simpl.
    intros j. destruct (decide (j = i)) as [->|Hne].
    + by rewrite lookup_alter_eq, Hi.
    + by rewrite lookup_alter_ne.
Qed.

(** X16: a solicited chunk that does not connect costs the server its
    connection: the index is no longer outstanding, the server is marked
    disconnected, its interface is unregistered and closed, and no further
    chunk is requested. *)
Theorem on_block_headers_rejected (i : IRef) (x : Interface) (b : ChainRef)
    (hexdata : string) (height : Z) (rest : list Z) (c' : ChainSet) n :
  iface_heap n !! i = Some x ->
  interfaces n !! server x = Some i ->
  blockchain x = Some b ->
  CHUNK_SIZE ≠ 0 ->
  let index := height / CHUNK_SIZE in
  let response := Build_ChunkResponse None (Some (Some hexdata)) (Some (height :: rest)) in
  index * CHUNK_SIZE = height ->
  index ∈ requested_chunks n ->
  Blockchain_connect_chunk (chains n) b index hexdata = (false, c') ->
  exists n',
    on_block_headers i response n = Ok tt n'
    ∧ requested_chunks n' = requested_chunks n ∖ {[index]}
    ∧ server x ∈ disconnected_servers n'
    ∧ interfaces n' !! server x = None
    ∧ closed <$> iface_heap n' !! i = Some true
    ∧ nothing_sent n n'.
Proof.
  intros Hi Hregistered Hchain Hsize index response Haligned Hrequested Hconnect.
  set (n1 := set_chains c' (set_requested_chunks (requested_chunks n ∖ {[index]}) n)).
  destruct (connection_down_returns (server x) n1) as
    (n' & Hdown & Hdisc & Hsent & Hifs & Hheap & _).
  { intros j Hj. simpl in Hj. rewrite Hregistered in Hj. injection Hj as <-.
    simpl. by eexists. }
  simpl in Hifs, Hheap. rewrite Hregistered in Hifs, Hheap. simpl in Hifs.
  rewrite Hi in Hifs.
  assert (Hrun : on_block_headers i response n = connection_down (server x) n1).
  { unfold on_block_headers, floordiv, get_iface.
    repeat unfold_monad. rewrite Hi. simpl.
    rewrite decide_False by done. simpl. fold index.
    rewrite (bool_decide_eq_false_2 (index * CHUNK_SIZE ≠ height)) by (intros ?; done).
    rewrite (bool_decide_eq_false_2 (index ∉ requested_chunks n)) by (intros ?; done).
    simpl. rewrite Hchain. simpl. rewrite Hconnect. simpl. reflexivity. }
  exists n'. rewrite Hrun. split; [exact Hdown|].
  assert (Hkeeps : requested_chunks n' = requested_chunks n1).
  { revert Hdown. unfold n1, connection_down, _set_status, trigger_callback, close_interface,
      Interface_close, upd_iface, get_iface.
    repeat unfold_monad. simpl.
    destruct (bool_decide (server x = default_server n)) eqn:Hdefault; simpl;
      rewrite Hregistered; simpl; rewrite Hi; simpl; rewrite Hdefault; simpl;
      rewrite for_each_upd_chain; intros [= <-]; reflexivity. }
  split_and!.
  - by rewrite Hkeeps.
  - rewrite Hdisc. apply elem_of_union; right. by apply elem_of_singleton.
  - rewrite Hifs. apply lookup_delete_eq.
  - by rewrite Hheap, lookup_alter_eq, Hi.
  - exact Hsent.
Qed.

(** X17: a chunk response that carries neither a result nor an error never
    returns normally: after the attempt to switch to another server, reading
    the error's code fails. *)
Theorem on_block_headers_without_result_raises (i : IRef) (x : Interface)
    (params : option (list Z)) n :
  iface_heap n !! i = Some x ->
  exists e n', on_block_headers i (Build_ChunkResponse None None params) n = Raise e n'.
Proof.
  intros Hi. unfold on_block_headers, get_iface. repeat unfold_monad.
  rewrite Hi. simpl.
  destruct (switch_to_random_interface n) as [[] n'|e n'].
  - by exists AttributeError, n'.
  - by exists e, n'.
Qed.

(** ** Tip announcements *)

(** X18: a tip announcement that arrives while the interface is searching or
    catching up only moves the interface's tip: its mode, the height it
    awaits and its bounds stay, the chains are untouched and nothing is
    sent. *)
Theorem on_notify_header_during_search (i : IRef) (x : Interface) (hex : string)
    (height : Z) (header : Header) n :
  iface_heap n !! i = Some x ->
  mode x ≠ Default ->
  deserialize_header hex height = Some header ->
  block_height header ≠ 0 ->
  on_notify_header i (Some (hex, height)) n
  = Ok tt (set_iface_heap
             (<[i := set_tip (block_height header) (set_tip_header (Some header) x)]>
                (iface_heap n)) n).
Proof.
  intros Hi Hmode Hheader Hheight.
  unfold on_notify_header, get_iface, upd_iface. repeat unfold_monad.
  rewrite Hheader. simpl. rewrite decide_False by done. simpl.
  rewrite lookup_alter_eq, Hi. simpl. rewrite decide_True by done.
  do 2 f_equal. apply map_eq. intros j. destruct (decide (j = i)) as [->|Hne].
  - by rewrite lookup_alter_eq, lookup_insert_eq, Hi.
  - by rewrite lookup_alter_ne, lookup_insert_ne.
Qed.

(** X19: in default mode a tip that no chain contains but that extends one
    is saved on that chain, which the interface then follows; the interface
    stays in default mode and, with [auto_connect] off, nothing is
    requested. *)
Theorem on_notify_header_extends (i : IRef) (x : Interface) (b : ChainRef)
    (hex : string) (height : Z) (header : Header) n :
  iface_heap n !! i = Some x ->
  mode x = Default ->
  deserialize_header hex height = Some header ->
  block_height header ≠ 0 ->
  check_header (chains n) header = None ->
  can_connect (chains n) header = Some b ->
  auto_connect n = false ->
  exists n' x',
    on_notify_header i (Some (hex, height)) n = Ok tt n'
    ∧ chains n' = Blockchain_save_header (chains n) b header
    ∧ iface_heap n' !! i = Some x'
    ∧ blockchain x' = Some b
    ∧ tip x' = block_height header
    ∧ tip_header x' = Some header
    ∧ mode x' = Default
    ∧ request x' = request x
    ∧ nothing_sent n n'.
Proof.
  intros Hi Hmode Hheader Hheight Hcheck Hconnect Hauto.
  unfold on_notify_header, switch_lagging_interface, get_iface, upd_iface,
    trigger_callback.
  repeat unfold_monad. rewrite Hheader. simpl. rewrite decide_False by done. simpl.
  rewrite lookup_alter_eq, Hi. simpl. rewrite decide_False by (by rewrite Hmode; intros []).
  simpl. rewrite Hcheck, Hconnect. simpl. rewrite Hauto. simpl.
  do 2 eexists. split; [reflexivity|]. simpl.
  rewrite !lookup_alter_eq, Hi. simpl. split_and!; try done.
  split; [done|]. simpl. intros j. destruct (decide (j = i)) as [->|Hne].
  - by rewrite !lookup_alter_eq, Hi.
  - by rewrite !lookup_alter_ne.
Qed.

(** X20: when every chain is empty (the greatest height is negative) a tip
    that fits nowhere starts the download from the genesis header on chain
    0, provided that chain's marker is free: the interface takes the marker,
    enters catch_up mode and requests height 0.  If the marker is held, only
    the interface's tip moves. *)
Theorem on_notify_header_empty_chains (i : IRef) (x : Interface) (chain : ChainRef)
    (b : Blockchain) (hex : string) (height top : Z) (header : Header) n :
  iface_heap n !! i = Some x ->
  mode x = Default ->
  deserialize_header hex height = Some header ->
  block_height header ≠ 0 ->
  check_header (chains n) header = None ->
  can_connect (chains n) header = None ->
  max_list (Blockchain_height (chains n) <$> dict_refs (blockchains (chains n))) = Some top ->
  top < 0 ->
  blockchains (chains n) !! 0 = Some chain ->
  chain_heap (chains n) !! chain = Some b ->
  exists n' x',
    on_notify_header i (Some (hex, height)) n = Ok tt n'
    ∧ iface_heap n' !! i = Some x'
    ∧ tip x' = block_height header
    ∧ if decide (catch_up b = None) then
        mode x' = CatchUp
        ∧ blockchain x' = Some chain
        ∧ chains n'
          = set_chain_heap (alter (set_catch_up (Some (server x))) chain
                              (chain_heap (chains n))) (chains n)
        ∧ header_requested i 0 n n'
      else
        mode x' = Default
        ∧ request x' = request x
        ∧ chains n' = chains n
        ∧ nothing_sent n n'.
Proof.
  intros Hi Hmode Hheader Hheight Hcheck Hconnect Htop Hneg Hzero Hb.
  unfold on_notify_header, get_chain, get_iface, upd_iface, upd_chain, trigger_callback.
  repeat unfold_monad. rewrite Hheader. simpl. rewrite decide_False by done. simpl.
  rewrite lookup_alter_eq, Hi. simpl. rewrite decide_False by (by rewrite Hmode; intros []).
  simpl. rewrite Hcheck, Hconnect, Htop. rewrite decide_False by lia.
  rewrite Hzero. simpl. rewrite Hb. simpl.
  destruct (decide (catch_up b = None)) as [Hfree|Hheld]; simpl.
  - unfold request_header, queue_request, Interface_queue_request, upd_iface.
    repeat unfold_monad. simpl.
    do 2 eexists. split; [reflexivity|]. simpl.
    rewrite !lookup_alter_eq, Hi. simpl. split_and!; try done.
    do 2 eexists. rewrite Hi. simpl. rewrite !lookup_alter_eq, Hi. simpl.
    split_and!; reflexivity.
  - do 2 eexists. split; [reflexivity|]. simpl.
    rewrite !lookup_alter_eq, Hi. simpl. split_and!; try done.
    split; [done|]. simpl. intros j. destruct (decide (j = i)) as [->|Hne].
    + by rewrite !lookup_alter_eq, Hi.
    + by rewrite !lookup_alter_ne.
Qed.

(** ** The request router *)

(** A property of the state that every step of a loop keeps, whether the
    step returns or raises, holds when the loop is left. *)
Lemma for_each_keeps {A} (P : Net -> Prop) (l : list A) (body : A -> Mn unit) n :
  (forall a m, P m -> P (state_of (body a m))) ->
  P n ->
  P (state_of (for_each l body n)).
Proof.
  intros Hbody. revert n. induction l as [|a l IH]; intros n Hn; simpl; [done|].
  unfold bind. specialize (Hbody a n Hn).
  destruct (body a n) as [[] m|e m]; simpl in *; [by apply IH|done].
Qed.

Lemma queue_request_subscriptions (method : string) (params : list Value)
    (iface : option IRef) n :
  subscriptions (state_of (queue_request method params iface n)) = subscriptions n.
Proof.
  unfold queue_request, Interface_queue_request, upd_iface. repeat unfold_monad.
  destruct iface as [i|]; simpl; [done|].
  by destruct (interface n).
Qed.

Lemma process_pending_send_subscribed_once (callback : Callback) (method : string)
    (params : list Value) n :
  subscribed_once n ->
  subscribed_once (state_of (process_pending_send callback method params n)).
Proof.
  intros Hn.
  assert (Hqueue : forall m : Net, subscribed_once m ->
            subscribed_once
              (state_of
                 (bind (queue_request method params None)
                    (fun message_id =>
                       modify (fun n =>
                         set_unanswered_requests
                           (dict_set message_id (method, params, callback)
                              (unanswered_requests n)) n)) m))).
  { intros m Hm. unfold bind, modify.
    pose proof (queue_request_subscriptions method params None m) as Hsubs.
    destruct (queue_request method params None m) as [id m'|e m']; simpl in *;
      intros k l Hl; apply (Hm k); by rewrite <- Hsubs. }
  unfold process_pending_send. unfold bind at 1.
  destruct (endswith method ".subscribe"); [|by apply Hqueue].
  destruct (get_index method params) as [k|]; [|done].
  repeat unfold_monad. simpl.
  set (l' := if decide (callback ∈ default [] (subscriptions n !! k))
             then default [] (subscriptions n !! k)
             else default [] (subscriptions n !! k) ++ [callback]).
  assert (Hadded : subscribed_once (set_subscriptions (<[k := l']> (subscriptions n)) n)).
  { intros k' l. simpl. destruct (decide (k' = k)) as [->|Hne].
    - rewrite lookup_insert_eq. intros [= <-]. unfold l'.
      assert (Hold : NoDup (default [] (subscriptions n !! k))).
      { destruct (subscriptions n !! k) as [l0|] eqn:Hk; simpl; [by apply (Hn k)|constructor]. }
      case_decide; [done|]. apply NoDup_app. split_and!; [done| |apply NoDup_singleton].
      intros c Hc ->%list_elem_of_singleton. done.
    - rewrite lookup_insert_ne by done. apply Hn. }
  destruct (sub_cache n !! k) as [r|]; [|by apply Hqueue].
  destruct (negb (endswith method "contract.subscribe")); [|by apply Hqueue].
  exact Hadded.
Qed.

(** X21: the router never registers a callback twice under one index:
    whatever [process_pending_sends] processes, and whether it returns or
    raises, subscription lists that held no duplicate hold none
    afterwards. *)
Theorem process_pending_sends_subscribed_once n :
  subscribed_once n -> subscribed_once (state_of (process_pending_sends n)).
Proof.
  intros Hn. unfold process_pending_sends. repeat unfold_monad.
  destruct (interface n); simpl; [|done].
  apply for_each_keeps; [|done].
  intros [messages callback] m Hm.
  apply for_each_keeps; [|done].
  intros [method params] m' Hm'. by apply process_pending_send_subscribed_once.
Qed.

Lemma list_remove_first_filter {A} `{EqDecision A} (x : A) (l : list A) :
  NoDup l -> list_remove_first x l = filter (fun y => y ≠ x) l.
Proof.
  induction 1 as [|a l Hfresh Hnodup IH]; simpl; [done|].
  case_decide as Hax.
  - subst a. rewrite filter_cons_False by (intros ?; done).
    symmetry. clear IH Hnodup. induction l as [|b l IH]; [done|].
    rewrite filter_cons_True.
    + f_equal. apply IH. intros ?. apply Hfresh. by right.
    + intros ->. apply Hfresh. by left.
  - rewrite filter_cons_True by done. by rewrite IH.
Qed.

(** X22: on subscription lists without duplicates [unsubscribe] removes the
    callback from every index and nothing else: each list keeps its other
    callbacks in their order, and no index is dropped. *)
Theorem unsubscribe_removes (callback : Callback) n :
  subscribed_once n ->
  exists n',
    unsubscribe callback n = Ok tt n'
    ∧ subscriptions n' = filter (fun c => c ≠ callback) <$> subscriptions n
    ∧ (forall k l, subscriptions n' !! k = Some l -> callback ∉ l)
    ∧ subscribed_once n'.
Proof.
  intros Hn.
  assert (Hsubs : list_remove_first callback <$> subscriptions n
                  = filter (fun c => c ≠ callback) <$> subscriptions n).
  { apply map_eq. intros k. rewrite !lookup_fmap.
    destruct (subscriptions n !! k) as [l|] eqn:Hk; simpl; [|done].
    f_equal. apply list_remove_first_filter. by apply (Hn k). }
  eexists. split; [reflexivity|]. simpl. split_and!.
  - exact Hsubs.
  - intros k l. rewrite Hsubs, lookup_fmap.
    destruct (subscriptions n !! k) as [l0|]; simpl; [|done].
    intros [= <-]. intros [Hne _]%list_elem_of_filter. done.
  - intros k l. simpl. rewrite Hsubs, lookup_fmap.
    destruct (subscriptions n !! k) as [l0|] eqn:Hk; simpl; [|done].
    intros [= <-]. apply NoDup_filter. by apply (Hn k).
Qed.

(** X23: a client request is never lost for want of a connection: [send]
    followed by [process_pending_sends] without an active interface leaves
    the messages pending, behind those already waiting, and touches nothing
    else. *)
Theorem send_without_interface_is_kept (messages : list (string * list Value))
    (callback : Callback) n :
  interface n = None ->
  bind (send messages callback) (fun _ => process_pending_sends) n
  = Ok tt (set_pending_sends (pending_sends n ++ [(messages, callback)]) n).
Proof.
  intros Hnone. unfold send, process_pending_sends. repeat unfold_monad. simpl.
  by rewrite Hnone.
Qed.

(** X24: with an active interface a client request that is not a
    subscription is queued on that interface under the next message id and
    entered in [unanswered_requests] under that id with its callback; the
    pending list is emptied. *)
Theorem send_request_is_queued (method : string) (params : list Value)
    (callback : Callback) (i : IRef) (x : Interface) n :
  interface n = Some i ->
  iface_heap n !! i = Some x ->
  pending_sends n = [] ->
  endswith method ".subscribe" = false ->
  exists n' x',
    bind (send [(method, params)] callback) (fun _ => process_pending_sends) n = Ok tt n'
    ∧ pending_sends n' = []
    ∧ message_id n' = message_id n + 1
    ∧ iface_heap n' !! i = Some x'
    ∧ unsent_requests x' = unsent_requests x ++ [(method, params, message_id n)]
    ∧ unanswered_requests n'
      = dict_set (Some (message_id n)) (method, params, callback) (unanswered_requests n)
    ∧ subscriptions n' = subscriptions n
    ∧ callback_log n' = callback_log n.
Proof.
  intros Hactive Hi Hpending Hplain.
  unfold send, process_pending_sends, process_pending_send, queue_request,
    Interface_queue_request, upd_iface.
  repeat unfold_monad. simpl. rewrite Hactive, Hpending. simpl.
  rewrite Hplain. simpl. repeat unfold_monad. simpl. rewrite Hactive. simpl.
  do 2 eexists. split; [reflexivity|]. simpl.
  rewrite lookup_alter_eq, Hi. simpl. split_and!; reflexivity.
Qed.

(** ** Stale requests *)

(** What [connection_down] does to a well-formed state. *)
Lemma connection_down_well_formed (srv : string) n :
  well_formed n ->
  exists n',
    connection_down srv n = Ok tt n'
    ∧ well_formed n'
    ∧ now n' = now n
    ∧ disconnected_servers n' = disconnected_servers n ∪ {[srv]}
    ∧ interfaces n' = delete srv (interfaces n)
    ∧ nothing_sent n n'
    ∧ forall j y, iface_heap n !! j = Some y ->
        exists y', iface_heap n' !! j = Some y'
                   ∧ server y' = server y
                   ∧ request y' = request y
                   ∧ request_time y' = request_time y.
Proof.
  intros Hwf.
  destruct (connection_down_returns srv n) as
    (n' & Hdown & Hdisc & Hsent & Hifs & Hheap & _).
  { intros j Hj. destruct (Hwf srv j Hj) as (y & Hy & _). by eexists. }
  pose proof (preserves_connection_down srv n) as Hstable.
  rewrite Hdown in Hstable. simpl in Hstable.
  destruct Hstable as (_ & Hnow & _).
  assert (Hifs' : interfaces n' = delete srv (interfaces n)).
  { rewrite Hifs. destruct (interfaces n !! srv) as [j|] eqn:Hj; simpl.
    - destruct (Hwf srv j Hj) as (y & -> & ->). done.
    - by rewrite delete_id. }
  assert (Hfields : forall j y, iface_heap n !! j = Some y ->
            exists y', iface_heap n' !! j = Some y'
                       ∧ server y' = server y
                       ∧ request y' = request y
                       ∧ request_time y' = request_time y).
  { intros j y Hy. rewrite Hheap. destruct (interfaces n !! srv) as [k|]; [|by exists y].
    destruct (decide (j = k)) as [->|Hne].
    - rewrite lookup_alter_eq, Hy. by eexists.
    - rewrite lookup_alter_ne by done. by exists y. }
  exists n'. split_and!; try done.
  intros s j Hj. rewrite Hifs' in Hj. apply lookup_delete_Some in Hj as [_ Hj].
  destruct (Hwf s j Hj) as (y & Hy & Hsy).
  destruct (Hfields j y Hy) as (y' & Hy' & Hs' & _). exists y'. split; congruence.
Qed.

Lemma nothing_sent_trans n1 n2 n3 :
  nothing_sent n1 n2 -> nothing_sent n2 n3 -> nothing_sent n1 n3.
Proof.
  intros [Hid1 Hq1] [Hid2 Hq2]. split; [congruence|].
  intros j. by rewrite Hq2, Hq1.
Qed.

Lemma dict_refs_registered (d : gmap string nat) (a : nat) :
  a ∈ dict_refs d -> exists srv, d !! srv = Some a.
Proof.
  unfold dict_refs. intros ([srv a'] & -> & Hin)%list_elem_of_fmap.
  exists srv. by apply elem_of_map_to_list.
Qed.

Lemma registered_dict_refs (d : gmap string nat) (srv : string) (a : nat) :
  d !! srv = Some a -> a ∈ dict_refs d.
Proof.
  intros Hin. unfold dict_refs. apply list_elem_of_fmap. exists (srv, a).
  split; [done|]. by apply elem_of_map_to_list.
Qed.

(** X25: [maintain_requests] leaves alone every interface that awaits
    nothing, that has been waiting for at most 30 seconds, or that awaits
    height 0: a request for the genesis header never times out, however old
    it is. *)
Theorem maintain_requests_keeps n :
  (forall srv i, interfaces n !! srv = Some i ->
     exists x, iface_heap n !! i = Some x
               ∧ (request x = None ∨ request x = Some 0 ∨ now n - request_time x <= 30)) ->
  maintain_requests n = Ok tt n.
Proof.
  intros Hfresh. unfold maintain_requests. repeat unfold_monad. simpl.
  assert (Hall : forall a, a ∈ dict_refs (interfaces n) ->
            exists x, iface_heap n !! a = Some x
                      ∧ (request x = None ∨ request x = Some 0
                         ∨ now n - request_time x <= 30)).
  { intros a [srv Hsrv]%dict_refs_registered. by apply (Hfresh srv). }
  induction (dict_refs (interfaces n)) as [|a l IH]; simpl; [done|].
  destruct (Hall a) as (x & Hx & Hok); [by left|].
  unfold bind at 1. unfold get_iface. rewrite Hx. simpl.
  assert (Hskip : bool_decide (request x ≠ None ∧ request x ≠ Some 0)
                  && bool_decide (now n - request_time x > 30) = false).
  { destruct Hok as [Hnone|[Hzero|Hrecent]].
    - rewrite (bool_decide_eq_false_2 (_ ∧ _)); [done|]. by intros [? _].
    - rewrite (bool_decide_eq_false_2 (_ ∧ _)); [done|]. by intros [_ ?].
    - rewrite (bool_decide_eq_false_2 (_ > _)) by lia. apply andb_false_r. }
  rewrite Hskip. apply IH. intros b Hb. apply Hall. by right.
Qed.


(** ** Shutdown and start *)

Lemma close_interface_effect (i : IRef) (x : Interface) n :
  iface_heap n !! i = Some x ->
  close_interface (Some i) n
  = Ok tt (set_iface_heap (alter (set_closed true) i (iface_heap n))
             (set_interface
                (if bool_decide (server x = default_server n) then None else interface n)
                (set_interfaces (delete (server x) (interfaces n)) n))).
Proof.
  intros Hi. unfold close_interface, Interface_close, upd_iface, get_iface.
  repeat unfold_monad. rewrite Hi. simpl.
  destruct (bool_decide (server x = default_server n)); simpl; [done|].
  by destruct n.
Qed.

(** X27: [stop_network] closes every connection.  On a well-formed state
    whose active interface, if any, is the one registered for the default
    server, both of its assertions hold: it returns with no interface
    registered or active, nothing connecting and an empty socket queue;
    every interface that was registered is closed, no server is marked
    disconnected and nothing is sent. *)
Theorem stop_network_closes_all n :
  well_formed n ->
  (forall i, interface n = Some i -> interfaces n !! default_server n = Some i) ->
  exists n',
    stop_network n = Ok tt n'
    ∧ interfaces n' = ∅
    ∧ interface n' = None
    ∧ connecting n' = ∅
    ∧ socket_queue n' = []
    ∧ disconnected_servers n' = disconnected_servers n
    ∧ (forall srv i, interfaces n !! srv = Some i -> closed <$> iface_heap n' !! i = Some true)
    ∧ nothing_sent n n'.
Proof.
  intros Hwf Hactive.
  set (I := fun (l : list IRef) (m : Net) =>
    default_server m = default_server n
    ∧ disconnected_servers m = disconnected_servers n
    ∧ nothing_sent n m
    ∧ (forall j y, iface_heap n !! j = Some y ->
         exists y', iface_heap m !! j = Some y' ∧ server y' = server y)
    ∧ (forall s j, interfaces m !! s = Some j -> interfaces n !! s = Some j ∧ j ∈ l)
    ∧ (interface m = None ∨ exists j, interface m = Some j ∧ interface n = Some j ∧ j ∈ l)
    ∧ (forall s j, interfaces n !! s = Some j ->
         j ∈ l ∨ closed <$> iface_heap m !! j = Some true)
    ∧ (forall a, a ∈ l -> exists s, interfaces n !! s = Some a)).
  destruct (for_each_returns I (dict_refs (interfaces n))
              (fun i => close_interface (Some i)) n) as (n1 & Hrun & Hend).
  - unfold I. split_and!; try done.
    + intros j y Hy. by exists y.
    + intros s j Hj. split; [done|]. by eapply registered_dict_refs.
    + destruct (interface n) as [j|] eqn:Hj; [right|by left].
      exists j. split_and!; try done. eapply registered_dict_refs. by apply Hactive.
    + intros s j Hj. left. by eapply registered_dict_refs.
    + intros a. apply dict_refs_registered.
  - intros a l m (Hds & Hdisc & Hsent & Hservers & Hifs & Hact & Hclosed & Hreg).
    destruct (Hreg a) as [sa Hsa]; [by left|].
    destruct (Hwf sa a Hsa) as (y & Hy & Hsy).
    destruct (Hservers a y Hy) as (y' & Hy' & Hsy').
    rewrite (close_interface_effect a y' m Hy'). eexists. split; [reflexivity|].
    rewrite Hsy', Hsy. unfold I. simpl. split_and!; try done.
    + destruct Hsent as [Hid Hq]. split; [done|]. simpl. intros k.
      rewrite <- Hq. by apply nothing_sent_close.
    + intros j z Hz. destruct (Hservers j z Hz) as (z' & Hz' & Hsz).
      destruct (decide (j = a)) as [->|Hne].
      * rewrite lookup_alter_eq, Hz'. by eexists.
      * rewrite lookup_alter_ne by done. by exists z'.
    + intros s j [Hne Hj]%lookup_delete_Some.
      destruct (Hifs s j Hj) as [Hn [->|Hin]%elem_of_cons]; [|done].
      destruct (Hwf s a Hn) as (z & Hz & Hsz). congruence.
    + case_bool_decide as Hdefault; [by left|].
      destruct Hact as [?|(j & Hj & Hnj & [->|Hin]%elem_of_cons)]; [by left| |].
      * exfalso. apply Hdefault. rewrite Hds.
        destruct (Hwf _ _ (Hactive a Hnj)) as (z & Hz & Hsz).
        destruct (Hwf sa a Hsa) as (z1 & Hz1 & Hsz1). congruence.
      * right. by exists j.
    + intros s j Hj. destruct (decide (j = a)) as [->|Hne].
      * right. by rewrite lookup_alter_eq, Hy'.
      * rewrite lookup_alter_ne by done.
        destruct (Hclosed s j Hj) as [[->|Hin]%elem_of_cons|?]; [done|by left|by right].
    + intros b Hb. apply Hreg. by right.
  - destruct Hend as (Hds & Hdisc & Hsent & Hservers & Hifs & Hact & Hclosed & _).
    assert (Hnone : interface n1 = None).
    { destruct Hact as [?|(j & _ & _ & Hin)]; [done|]. by apply elem_of_nil in Hin. }
    assert (Hempty : interfaces n1 = ∅).
    { apply map_empty. intros s. destruct (interfaces n1 !! s) as [j|] eqn:Hj; [|done].
      destruct (Hifs s j Hj) as [_ Hin]. by apply elem_of_nil in Hin. }
    unfold stop_network, trigger_callback. repeat unfold_monad. cbv beta.
    rewrite Hrun. simpl. rewrite Hnone. simpl.
    rewrite (bool_decide_eq_false_2 (interface n1 ≠ None)) by (intros ?; done).
    rewrite (bool_decide_eq_false_2 (interfaces n1 ≠ ∅)) by (intros ?; done).
    eexists. split; [reflexivity|]. simpl. split_and!; try done.
    intros s j Hj. destruct (Hclosed s j Hj) as [Hin|?]; [|done].
    by apply elem_of_nil in Hin.
Qed.

Lemma start_interface_effect (srv : string) n :
  exists n',
    start_interface srv n = Ok tt n'
    ∧ interfaces n' = interfaces n
    ∧ disconnected_servers n' = disconnected_servers n
    ∧ num_server n' = num_server n
    ∧ if bool_decide (srv ∉ dom (interfaces n)) && bool_decide (srv ∉ connecting n)
      then connecting n' = connecting n ∪ {[srv]}
           ∧ connection_attempts n' = connection_attempts n ++ [srv]
      else connecting n' = connecting n
           ∧ connection_attempts n' = connection_attempts n.
Proof.
  unfold start_interface, _set_status, trigger_callback. repeat unfold_monad.
  destruct (bool_decide (srv ∉ dom (interfaces n)) && bool_decide (srv ∉ connecting n));
    simpl; [|by exists n].
  destruct (bool_decide (srv = default_server n)); simpl;
    (eexists; split; [reflexivity|]); simpl; done.
Qed.

(** X28: [start_interfaces] opens the connection to the default server and
    then draws [num_server - 1] random servers.  It never opens more than
    [max 1 num_server] connections, never two to one server, and none to a
    server that is connected or connecting already; apart from the default
    server none of them is marked disconnected.  Afterwards the default
    server is connecting unless it is connected already. *)
Theorem start_interfaces_opens n :
  exists n' l,
    start_interfaces n = Ok tt n'
    ∧ connection_attempts n' = connection_attempts n ++ l
    ∧ NoDup l
    ∧ Z.of_nat (length l) <= Z.max 1 (num_server n)
    ∧ (forall s, s ∈ connecting n' <-> s ∈ connecting n ∨ s ∈ l)
    ∧ (forall s, s ∈ l ->
         (s ∉ connecting n)
         ∧ (s ∉ dom (interfaces n))
         ∧ (s = default_server n ∨ s ∉ disconnected_servers n))
    ∧ (default_server n ∈ connecting n' ∨ default_server n ∈ dom (interfaces n)).
Proof.
  set (J := fun (l : list string) (m : Net) =>
    connection_attempts m = connection_attempts n ++ l
    ∧ NoDup l
    ∧ (forall s, s ∈ connecting m <-> s ∈ connecting n ∨ s ∈ l)
    ∧ (forall s, s ∈ l ->
         (s ∉ connecting n)
         ∧ (s ∉ dom (interfaces n))
         ∧ (s = default_server n ∨ s ∉ disconnected_servers n))
    ∧ interfaces m = interfaces n
    ∧ disconnected_servers m = disconnected_servers n
    ∧ num_server m = num_server n).
  assert (Hstep : forall l (m : Net) srv,
            J l m ->
            srv = default_server n ∨ srv ∉ disconnected_servers n ->
            exists m' l',
              start_interface srv m = Ok tt m'
              ∧ J l' m'
              ∧ (length l' <= S (length l))%nat
              ∧ (forall s, s ∈ l -> s ∈ l')
              ∧ (srv ∈ l' ∨ srv ∈ connecting n ∨ srv ∈ dom (interfaces n))).
  { intros l m srv (Hatt & Hnodup & Hconn & Hnew & Hifs & Hdisc & Hnum) Hsrv.
    destruct (start_interface_effect srv m) as (m' & Hrun & Hifs' & Hdisc' & Hnum' & Heff).
    exists m'.
    destruct (bool_decide (srv ∉ dom (interfaces m))) eqn:Hfree; simpl in Heff.
    2:{ destruct Heff as [Hc Ha]. exists l. split; [done|].
        split; [unfold J; split_and!; try done; try congruence; by intros s; rewrite Hc|].
        split; [lia|]. split; [done|].
        right; right. apply bool_decide_eq_false_1 in Hfree.
        rewrite <- Hifs. by destruct (decide (srv ∈ dom (interfaces m))). }
    destruct (bool_decide (srv ∉ connecting m)) eqn:Hidle; simpl in Heff.
    2:{ destruct Heff as [Hc Ha]. exists l. split; [done|].
        split; [unfold J; split_and!; try done; try congruence; by intros s; rewrite Hc|].
        split; [lia|]. split; [done|].
        apply bool_decide_eq_false_1 in Hidle.
        assert (Hin : srv ∈ connecting m) by (by destruct (decide (srv ∈ connecting m))).
        apply Hconn in Hin as [?|?]; [right; by left|by left]. }
    destruct Heff as [Hc Ha].
    apply bool_decide_eq_true_1 in Hfree, Hidle.
    assert (Hfresh1 : srv ∉ connecting n) by (intros ?; apply Hidle, Hconn; by left).
    assert (Hfresh2 : srv ∉ l) by (intros ?; apply Hidle, Hconn; by right).
    exists (l ++ [srv]). split; [done|]. split; [unfold J; split_and!; try done; try congruence|split_and!].
    - by rewrite Ha, Hatt, app_assoc.
    - apply NoDup_app. split_and!; [done| |apply NoDup_singleton].
      by intros s Hs ->%list_elem_of_singleton.
    - intros s. rewrite Hc, elem_of_union, elem_of_singleton, Hconn, elem_of_app,
        list_elem_of_singleton. tauto.
    - intros s [Hs| ->%list_elem_of_singleton]%elem_of_app; [by apply Hnew|].
      split_and!; [done|by rewrite <- Hifs|done].
    - rewrite length_app. simpl. lia.
    - intros s Hs. apply elem_of_app. by left.
    - left. apply elem_of_app. right. by apply list_elem_of_singleton. }
  assert (Hrandom : forall l (m : Net),
            J l m ->
            exists m' l',
              start_random_interface m = Ok tt m'
              ∧ J l' m'
              ∧ (length l' <= S (length l))%nat
              ∧ (forall s, s ∈ l -> s ∈ l')).
  { intros l m HJ.
    unfold start_random_interface, pick_random_server. repeat unfold_monad. simpl.
    set (eligible := elements _).
    destruct eligible as [|e eligible'] eqn:Hel.
    - exists m, l. split_and!; try done. lia.
    - destruct (random_choice_returns (e :: eligible') m) as (p & Hpick & Hp); [done|].
      rewrite Hpick.
      assert (Hpd : p ∉ disconnected_servers n).
      { rewrite <- Hel in Hp. unfold eligible in Hp.
        apply elem_of_elements, elem_of_difference in Hp as [_ Hp].
        destruct HJ as (_ & _ & _ & _ & _ & <- & _).
        intros ?. apply Hp. by apply elem_of_union_l. }
      destruct (Hstep l (set_rng (tail (rng m)) m) p)
        as (m' & l' & Hstart & HJ' & Hlen & Hgrow & _); [exact HJ|by right|].
      by exists m', l'. }
  destruct (Hstep [] n (default_server n)) as (n1 & l1 & Hfirst & HJ1 & Hlen1 & _ & Hdefault).
  { unfold J. rewrite app_nil_r. split_and!; try done; [constructor| |].
    - intros s. split; [by left|]. intros [?|Hin]; [done|]. by apply elem_of_nil in Hin.
    - intros s Hin. by apply elem_of_nil in Hin. }
  { by left. }
  simpl in Hlen1.
  set (rounds := seq 0 (Z.to_nat (num_server n - 1))).
  set (I := fun (rest : list nat) (m : Net) =>
    exists l, J l m
              ∧ (length l + length rest <= 1 + length rounds)%nat
              ∧ (forall s, s ∈ l1 -> s ∈ l)).
  destruct (for_each_returns I rounds (fun _ => start_random_interface) n1)
    as (n' & Hloop & (l & HJ & Hlen & Hgrow)).
  - exists l1. split_and!; [done|lia|done].
  - intros a rest m (l & HJ & Hlen & Hgrow).
    destruct (Hrandom l m HJ) as (m' & l' & Hrun & HJ' & Hlen' & Hgrow').
    exists m'. split; [done|]. exists l'. split_and!; [done|simpl in Hlen; lia|].
    intros s Hs. by apply Hgrow', Hgrow.
  - exists n', l.
    destruct HJ as (Hatt & Hnodup & Hconn & Hnew & Hifs & Hdisc & Hnum).
    split_and!; try done.
    + unfold start_interfaces. repeat unfold_monad. cbv beta. rewrite Hfirst.
      destruct HJ1 as (_ & _ & _ & _ & _ & _ & ->). exact Hloop.
    + simpl in Hlen. unfold rounds in Hlen. rewrite length_seq in Hlen. lia.
    + destruct Hdefault as [Hin|[Hin|Hin]]; [| |by right].
      * left. apply Hconn. right. by apply Hgrow.
      * left. apply Hconn. by left.
Qed.

(** ** Proxy strings *)

Lemma split_nonempty (c : ascii) (s : string) : split c s ≠ [].
Proof. destruct s as [|a s]; simpl; [done|]. case_decide; [done|]. by destruct (split c s). Qed.

Lemma split_field (c : ascii) (w rest : string) :
  contains c w = false ->
  split c (w +:+ String c EmptyString +:+ rest) = w :: split c rest.
Proof.
  induction w as [|a w IH]; simpl; intros Hw.
  - by rewrite decide_True.
  - case_decide; [done|]. by rewrite IH.
Qed.

Lemma split_last (c : ascii) (w : string) : contains c w = false -> split c w = [w].
Proof.
  induction w as [|a w IH]; simpl; intros Hw; [done|].
  case_decide; [done|]. by rewrite IH.
Qed.

Lemma lower_ascii_colon (a : ascii) : lower_ascii a = ":"%char -> a = ":"%char.
Proof. destruct a as [[] [] [] [] [] [] [] []]; vm_compute; congruence. Qed.

Lemma contains_colon_lower (s : string) :
  contains ":" s = true -> contains ":" (lower s) = true.
Proof.
  induction s as [|a s IH]; simpl; [done|].
  destruct (decide (a = ":"%char)) as [->|Hne]; [done|].
  intros Hs. case_decide; [done|]. by apply IH.
Qed.

Lemma contains_append (c : ascii) (w rest : string) :
  contains c (w +:+ String c EmptyString +:+ rest) = true.
Proof.
  induction w as [|a w IH]; simpl; [by rewrite decide_True|]. by case_decide.
Qed.

(** X29: what [serialize_proxy] writes [deserialize_proxy] reads back: for
    a proxy with one of the three modes, a host and a port, and no colon in
    any field, the round trip returns the same mode, host and port, with
    user and password as given or empty where they were missing. *)
Theorem deserialize_serialize_proxy (p : gmap string string) (m h port : string) :
  p !! "mode" = Some m ->
  m ∈ proxy_modes ->
  p !! "host" = Some h ->
  p !! "port" = Some port ->
  let user := default "" (p !! "user") in
  let password := default "" (p !! "password") in
  contains ":" h = false ->
  contains ":" port = false ->
  contains ":" user = false ->
  contains ":" password = false ->
  exists s,
    serialize_proxy p = Some s
    ∧ deserialize_proxy s
      = Some {[ "mode" := m; "host" := h; "port" := port; "user" := user;
                "password" := password ]}.
Proof.
  intros Hm Hmode Hh Hport user password Hch Hcp Hcu Hcw.
  unfold serialize_proxy. rewrite Hm, Hh, Hport. simpl.
  fold user password. eexists. split; [reflexivity|].
  assert (Hcm : contains ":" m = false).
  { unfold proxy_modes in Hmode. apply list_elem_of_In in Hmode. simpl in Hmode.
    destruct Hmode as [<-|[<-|[<-|[]]]]; reflexivity. }
  assert (Hargs : split ":" (m +:+ ":" +:+ h +:+ ":" +:+ port +:+ ":" +:+ user +:+ ":"
                             +:+ password)
                  = [m; h; port; user; password]).
  { rewrite !split_field by done. by rewrite split_last. }
  unfold deserialize_proxy. rewrite decide_False.
  2:{ intros Hnone.
      assert (Hcolon : contains ":" (lower (m +:+ ":" +:+ h +:+ ":" +:+ port +:+ ":" +:+ user
                                            +:+ ":" +:+ password)) = true).
      { apply contains_colon_lower. apply contains_append. }
      rewrite Hnone in Hcolon. discriminate. }
  rewrite Hargs. simpl.
  rewrite decide_True; [done|].
  unfold proxy_modes in *. apply list_elem_of_In in Hmode. simpl in Hmode.
  destruct Hmode as [<-|[<-|[<-|[]]]]; reflexivity.
Qed.

(** X30: the defaults of [deserialize_proxy]: a bare host is a socks5 proxy
    on port 1080; a mode followed by a host takes port 8080 for http and 1080
    otherwise; a bare mode names that kind of proxy on localhost. *)
Theorem deserialize_proxy_defaults (h : string) :
  contains ":" h = false ->
  h ∉ proxy_modes ->
  lower h ≠ "none" ->
  deserialize_proxy h = Some {[ "mode" := "socks5"; "host" := h; "port" := "1080" ]}
  ∧ forall m, m ∈ proxy_modes ->
      let port := if decide (m = "http") then "8080" else "1080" in
      deserialize_proxy (m +:+ ":" +:+ h)
      = Some {[ "mode" := m; "host" := h; "port" := port ]}
      ∧ deserialize_proxy m
        = Some {[ "mode" := m; "host" := "localhost"; "port" := port ]}.
Proof.
  intros Hch Hother Hnone. split.
  - unfold deserialize_proxy. rewrite decide_False by done.
    rewrite split_last by done. simpl.
    rewrite decide_False; [done|].
    unfold proxy_modes in *. intros Hcount. apply Hother.
    apply list_elem_of_In. simpl.
    repeat (rewrite filter_cons in Hcount; case_decide; [subst; tauto|]).
    done.
  - intros m Hmode port. unfold proxy_modes in Hmode. apply list_elem_of_In in Hmode.
    simpl in Hmode. split.
    + unfold deserialize_proxy. rewrite decide_False.
      2:{ intros Hlow.
          assert (Hcolon : contains ":" (lower (m +:+ ":" +:+ h)) = true).
          { apply contains_colon_lower. apply contains_append. }
          rewrite Hlow in Hcolon. discriminate. }
      rewrite split_field, split_last by (destruct Hmode as [<-|[<-|[<-|[]]]]; done).
      destruct Hmode as [<-|[<-|[<-|[]]]]; reflexivity.
    + destruct Hmode as [<-|[<-|[<-|[]]]]; reflexivity.
Qed.
End properties.

Lemma queue_request_without_interface_drops_witness :
  queue_request "blockchain.relayfee" [] None idle_network = Ok None idle_network.
Proof. apply queue_request_without_interface_drops. reflexivity. Defined.

Lemma on_block_headers_ignores_unsolicited_witness :
  let n := set_iface_heap {[ 0%nat := new_Interface "node.example:50002:s" ]} idle_network in
  on_block_headers 0%nat (Build_ChunkResponse None (Some (Some "00")) (Some [1000; 1024])) n
  = Ok tt n.
Proof.
  intros n.
  apply (on_block_headers_ignores_unsolicited 0%nat
           (new_Interface "node.example:50002:s") (Some "00") 1000 [1024] n).
  - reflexivity.
  - discriminate.
  - left. vm_compute. discriminate.
Defined.

(** C7 as stated fails: the response has no error and its start height 1000
    is not a multiple of 1024, but it has no result either, so it is handled
    as an error response: the active interface, which received it, is closed
    and unregistered in favour of the other server, and the call raises. *)
Lemma on_block_headers_resultless_chunk_not_ignored :
  cr_error (Build_ChunkResponse None None (Some [1000; 1024])) = None
  ∧ 1000 / CHUNK_SIZE * CHUNK_SIZE ≠ 1000
  ∧ interface two_servers_network = Some 0%nat
  ∧ exists n',
      on_block_headers 0%nat (Build_ChunkResponse None None (Some [1000; 1024]))
        two_servers_network
      = Raise AttributeError n'
      ∧ interface n' = Some 1%nat
      ∧ interfaces n' !! "node.example:50002:s" = None
      ∧ closed <$> iface_heap n' !! 0%nat = Some true.
Proof.
  split; [reflexivity|]. split; [by vm_compute|]. split; [reflexivity|].
  eexists. split; [vm_compute; reflexivity|].
  split_and!; reflexivity.
Qed.

Lemma process_pending_sends_cache_hit_witness :
  callback_log
    (after_cache_hit 7%nat "blockchain.scripthash.subscribe:ab12" "status-1" cached_scripthash)
  = [(7%nat, "status-1")]
  ∧ process_pending_sends cached_scripthash
    = Ok tt (set_pending_sends []
               (after_cache_hit 7%nat "blockchain.scripthash.subscribe:ab12" "status-1"
                  cached_scripthash)).
Proof.
  destruct (process_pending_sends_cache_hit 7%nat "blockchain.scripthash.subscribe"
              [VStr "ab12"] "blockchain.scripthash.subscribe:ab12" "status-1"
              cached_scripthash) as (_ & Hlog & _ & _ & _ & Hrun);
    [reflexivity | reflexivity | reflexivity | reflexivity |].
  split; [exact Hlog|].
  apply Hrun; [by eexists | reflexivity].
Defined.

(** C8 as stated fails: a response is cached under the index of the
    subscribe call, yet the callback is not called and the request is queued
    and entered in the unanswered-request table. *)
Lemma process_pending_sends_contract_subscribe_bypasses_cache :
  endswith "blockchain.hash160.contract.subscribe" ".subscribe" = true
  ∧ get_index "blockchain.hash160.contract.subscribe" [VStr "ab12"]
    = Some "blockchain.hash160.contract.subscribe:ab12"
  ∧ sub_cache cached_contract !! "blockchain.hash160.contract.subscribe:ab12"
    = Some "status-1"
  ∧ exists n',
      process_pending_sends cached_contract = Ok tt n'
      ∧ callback_log n' = []
      ∧ unanswered_requests n'
        = [(Some 0, ("blockchain.hash160.contract.subscribe", [VStr "ab12"], 7%nat))]
      ∧ unanswered_requests cached_contract = []
      ∧ (unsent_requests <$> iface_heap n' !! 0%nat)
        = Some [("blockchain.hash160.contract.subscribe", [VStr "ab12"], 0)].
Proof.
  repeat split; try reflexivity.
  eexists. split; [vm_compute; reflexivity|].
  repeat split; reflexivity.
Qed.

Lemma on_notify_header_unknown_tip_witness :
  exists n' x',
    on_notify_header 0%nat (Some ("abcdef", 10)) synced_network = Ok tt n'
    ∧ iface_heap n' !! 0%nat = Some x'
    ∧ mode x' = Backward
    ∧ bad x' = Some 10
    ∧ bad_header x' = Some (Build_SimpleHeader 10 6 0)
    ∧ header_requested 0%nat 3 synced_network n'.
Proof.
  destruct (on_notify_header_unknown_tip 0%nat (new_Interface "node.example:50002:s")
              "abcdef" 10 (Build_SimpleHeader 10 6 0) 3 synced_network) as [Hge _];
    try (vm_compute; reflexivity).
  - vm_compute. discriminate.
  - apply Hge. lia.
Defined.

(** C3 as stated fails for an announced height of 0: the header neither
    matches nor connects to the local chain, whose height 3 is non-negative,
    yet the interface does not enter backward mode and nothing is requested:
    the call returns with the state unchanged. *)
Lemma on_notify_header_height_zero_ignored :
  let header := Build_SimpleHeader 0 6 0 in
  deserialize_header "abcdef" 0 = Some header
  ∧ mode <$> iface_heap synced_network !! 0%nat = Some Default
  ∧ check_header (chains synced_network) header = None
  ∧ can_connect (chains synced_network) header = None
  ∧ max_list (Blockchain_height (chains synced_network)
                <$> dict_refs (blockchains (chains synced_network))) = Some 3
  ∧ on_notify_header 0%nat (Some ("abcdef", 0)) synced_network = Ok tt synced_network.
Proof. repeat split; vm_compute; reflexivity. Qed.

Lemma on_get_header_backward_miss_witness :
  exists n' x',
    on_get_header 0%nat (Some (Build_SimpleHeader 5 55 54)) searching_network = Ok tt n'
    ∧ iface_heap n' !! 0%nat = Some x'
    ∧ mode x' = Backward
    ∧ bad x' = Some 5
    ∧ bad_header x' = Some (Build_SimpleHeader 5 55 54)
    ∧ header_requested 0%nat 0 searching_network n'.
Proof.
  destruct (on_get_header_backward_miss 0%nat searching_interface
              (Build_SimpleHeader 5 55 54) searching_network) as [Hpos _];
    try (vm_compute; reflexivity).
  - intros r Hr. vm_compute in Hr. discriminate.
  - apply Hpos. vm_compute. discriminate.
Defined.

Lemma binary_search_narrows_witness :
  exists k n1 x1 h1 x' g',
    binary_round_trips k forked_header 0%nat bisecting_network = Some n1
    ∧ (forall j, (j <= k)%nat ->
         exists nj xj,
           binary_round_trips j forked_header 0%nat bisecting_network = Some nj
           ∧ iface_heap nj !! 0%nat = Some xj
           ∧ mode xj = Binary
           ∧ adjacent xj = false)
    ∧ iface_heap n1 !! 0%nat = Some x1
    ∧ request x1 = Some h1
    ∧ iface_heap (state_of (on_get_header 0%nat (Some (forked_header h1)) n1)) !! 0%nat
      = Some x'
    ∧ good x' = Some g'
    ∧ bad x' = Some (g' + 1)
    ∧ 0 <= g' < 3
    ∧ Z.log2 (3 - 0) <= Z.of_nat (S k) <= Z.log2_up (3 - 0).
Proof.
  destruct (binary_search_narrows forked_header 0%nat bisecting_interface 0 3
              bisecting_network) as [_ Hnarrows]; try reflexivity.
  - by vm_compute.
  - apply Hnarrows; [|reflexivity|by vm_compute].
    intros h. unfold forked_header. by destruct (Z.eqb_spec h 0); [subst|].
Defined.

(** C1 as stated fails in two ways.  From [good = 0], [bad = 3] the header at
    the midpoint 1 does not match, the bounds become [good = 0], [bad = 1]
    after one round trip, while [ceil (log2 3) = 2].  And from [good = 0],
    [bad = 2] the one response that makes the bounds adjacent takes the reorg
    branch: the interface is still in binary mode, awaits [bad] again, and a
    second response is handled in binary mode, while [ceil (log2 2) = 1]. *)
Lemma binary_round_trips_differ_from_ceil_log2 :
  (good bisecting_interface = Some 0
   ∧ bad bisecting_interface = Some 3
   ∧ Z.log2_up (3 - 0) = 2
   ∧ exists n1 x1,
       binary_round_trips 1 forked_header 0%nat bisecting_network = Some n1
       ∧ iface_heap n1 !! 0%nat = Some x1
       ∧ good x1 = Some 0
       ∧ bad x1 = Some 1)
  ∧ (Z.log2_up (2 - 0) = 1
     ∧ exists x0 n1 x1 n2 x2,
         iface_heap reorg_network !! 0%nat = Some x0
         ∧ (mode x0, good x0, bad x0, request x0) = (Binary, Some 0, Some 2, Some 1)
         ∧ binary_round_trips 1 reorg_header 0%nat reorg_network = Some n1
         ∧ iface_heap n1 !! 0%nat = Some x1
         ∧ (mode x1, good x1, bad x1, request x1) = (Binary, Some 1, Some 2, Some 2)
         ∧ binary_round_trips 2 reorg_header 0%nat reorg_network = Some n2
         ∧ iface_heap n2 !! 0%nat = Some x2
         ∧ mode x2 = CatchUp).
Proof.
  split.
  - split_and!; try reflexivity.
    eexists _, _. split; [vm_compute; reflexivity|].
    split_and!; reflexivity.
  - split; [reflexivity|].
    eexists _, _, _, _, _. split; [reflexivity|]. split; [reflexivity|].
    split; [vm_compute; reflexivity|]. split; [reflexivity|]. split; [reflexivity|].
    split; [vm_compute; reflexivity|]. split; reflexivity.
Qed.

(** C2 fails on the "forkpoint conflicts with existing fork" path of
    [on_get_header]: the marker of the chain at forkpoint 2 is held by
    "other.example", whose interface is catching that chain up; the response
    to "node.example" overwrites the marker, and both interfaces end up in
    catch_up mode on the same chain. *)
Lemma forkpoint_conflict_overwrites_marker :
  catch_up <$> chain_heap (chains contested_network) !! 1%nat
  = Some (Some "other.example:50002:s")
  ∧ exists n' x0 x1,
      on_get_header 0%nat (Some (Build_SimpleHeader 2 402 101)) contested_network
      = Ok tt n'
      ∧ catch_up <$> chain_heap (chains n') !! 1%nat = Some (Some "node.example:50002:s")
      ∧ iface_heap n' !! 0%nat = Some x0
      ∧ iface_heap n' !! 1%nat = Some x1
      ∧ (mode x0, blockchain x0) = (CatchUp, Some 1%nat)
      ∧ (mode x1, blockchain x1) = (CatchUp, Some 1%nat).
Proof.
  split; [reflexivity|].
  eexists _, _, _. split; [vm_compute; reflexivity|].
  split_and!; reflexivity.
Qed.

Lemma server_is_lagging_iff_witness :
  server_is_lagging one_behind_network = Ok false one_behind_network.
Proof.
  destruct (server_is_lagging_iff 2 one_behind_network) as (_ & _ & Hbehind);
    [reflexivity|].
  destruct (Hbehind ltac:(lia) 3 one_behind_network) as [_ Hone].
  - reflexivity.
  - intros srv i Hsrv. exists (set_tip 2 (set_blockchain (Some 0%nat)
                                  (new_Interface "node.example:50002:s"))).
    change (interfaces one_behind_network)
      with ({[ "node.example:50002:s" := 0%nat ]} : gmap string nat) in Hsrv.
    apply lookup_singleton_Some in Hsrv as [<- <-]. by split.
  - apply Hone. lia.
Defined.

Lemma switch_to_interface_resends_witness :
  exists n' x',
    switch_to_interface "other.example:50002:s" two_servers_network = Ok tt n'
    ∧ interface n' = Some 1%nat
    ∧ sub_cache n' = ∅
    ∧ iface_heap n' !! 1%nat = Some x'
    ∧ unsent_requests x'
      = number_from 40 (standing_subscriptions two_servers_network).
Proof.
  destruct (switch_to_interface_resends "other.example:50002:s" 1%nat
              (new_Interface "other.example:50002:s") two_servers_network)
    as [Hrun _].
  - reflexivity.
  - discriminate.
  - reflexivity.
  - intros old Hold. injection Hold as <-. by eexists.
  - exact Hrun.
Defined.

(** C5 fails on the code: the scripthash is a standing subscription and a
    client request for it is still unanswered; after the switch the new
    interface has the subscription queued twice, the double send on
    reconnection that [subscribed_addresses] is kept to avoid. *)
Lemma switch_to_interface_queues_subscription_twice :
  VStr "ab12" ∈ subscribed_addresses resubscribing_network
  ∧ exists n' x',
      switch_to_interface "other.example:50002:s" resubscribing_network = Ok tt n'
      ∧ interface n' = Some 1%nat
      ∧ iface_heap n' !! 1%nat = Some x'
      ∧ length (filter (fun r : string * list Value * Z =>
                          r.1 = ("blockchain.scripthash.subscribe", [VStr "ab12"]))
                       (unsent_requests x')) = 2%nat.
Proof.
  split; [by apply elem_of_singleton|].
  eexists _, _. split; [vm_compute; reflexivity|].
  split_and!; reflexivity.
Qed.



(** * Instances of the further properties *)

Lemma deserialize_serialize_server_witness :
  deserialize_server (serialize_server "2001:db8::1" "50002" "s")
  = Some ("2001:db8::1", "50002", "s").
Proof.
  apply deserialize_serialize_server; [reflexivity|reflexivity|].
  apply list_elem_of_In. simpl. tauto.
Defined.

Lemma deserialize_server_accepts_witness :
  "node.example:50002:s" = serialize_server "node.example" "50002" "s"
  ∧ contains ":" "50002" = false
  ∧ contains ":" "s" = false
  ∧ int_parses "50002" = true
  ∧ "s" ∈ [""; "s"; "t"; "st"].
Proof. apply deserialize_server_accepts. reflexivity. Defined.

Lemma on_get_header_unsolicited_witness :
  exists n',
    on_get_header 0%nat (Some (local_header 4)) searching_network = Ok tt n'
    ∧ "node.example:50002:s" ∈ disconnected_servers n'
    ∧ interfaces n' !! "node.example:50002:s" = None
    ∧ closed <$> iface_heap n' !! 0%nat = Some true
    ∧ mode <$> iface_heap n' !! 0%nat = Some Backward
    ∧ nothing_sent searching_network n'.
Proof.
  apply (on_get_header_unsolicited 0%nat searching_interface (Some (local_header 4))
           searching_network).
  - reflexivity.
  - reflexivity.
  - intros header [= <-]. vm_compute. discriminate.
Defined.

Lemma on_get_header_default_mode_raises_witness :
  let n :=
    set_iface_heap {[ 0%nat := set_request (Some 2) (new_Interface "node.example:50002:s") ]}
      synced_network in
  on_get_header 0%nat (Some (local_header 2)) n = Raise (ModeException Default) n.
Proof.
  intros n.
  apply (on_get_header_default_mode_raises 0%nat
           (set_request (Some 2) (new_Interface "node.example:50002:s")) (local_header 2) n);
    reflexivity.
Defined.

Lemma on_get_header_catch_up_rejected_witness :
  exists n' x',
    on_get_header 0%nat (Some (Build_SimpleHeader 4 204 999)) catching_network = Ok tt n'
    ∧ iface_heap n' !! 0%nat = Some x'
    ∧ mode x' = Backward
    ∧ bad x' = Some 4
    ∧ bad_header x' = Some (Build_SimpleHeader 4 204 999)
    ∧ chains n' = catching_chains
    ∧ header_requested 0%nat 3 catching_network n'.
Proof.
  destruct (on_get_header_catch_up_rejected 0%nat catching_interface 0%nat
              (Build_SimpleHeader 4 204 999) catching_network)
    as (n' & x' & Hrun & Hx' & Hmode & Hbad & Hheader & Hchains & Hreq);
    [try reflexivity; by vm_compute ..|].
  exists n', x'. split_and!; [exact Hrun|exact Hx'|exact Hmode|exact Hbad|exact Hheader
                             |exact Hchains|exact Hreq].
Defined.

Lemma on_get_header_catch_up_step_witness :
  exists n' x',
    on_get_header 0%nat (Some (local_header 4)) catching_network = Ok tt n'
    ∧ chains n' = simple_save_header catching_chains 0%nat (local_header 4)
    ∧ iface_heap n' !! 0%nat = Some x'
    ∧ mode x' = CatchUp
    ∧ header_requested 0%nat 5 catching_network n'.
Proof.
  destruct (on_get_header_catch_up_step 0%nat catching_interface 0%nat (local_header 4)
              catching_network) as [Hheader _];
    [try reflexivity; by vm_compute ..|].
  apply Hheader. by vm_compute.
Defined.

Lemma on_get_header_catch_up_done_witness :
  let n :=
    set_auto_connect false
      (set_iface_heap {[ 0%nat := set_tip 4 catching_interface ]} catching_network) in
  exists n' x',
    on_get_header 0%nat (Some (local_header 4)) n = Ok tt n'
    ∧ catch_up <$> chain_heap (chains n') !! 0%nat = Some None
    ∧ iface_heap n' !! 0%nat = Some x'
    ∧ mode x' = Default
    ∧ request x' = None
    ∧ nothing_sent n n'.
Proof.
  intros n.
  destruct (on_get_header_catch_up_done 0%nat (set_tip 4 catching_interface) 0%nat
              (local_header 4) n) as [_ Hdone];
    [try reflexivity; by vm_compute ..|].
  destruct (Hdone eq_refl) as (n' & x' & Hrun & Hchains & Hx' & Hmode & Hreq & Hsent).
  exists n', x'. split_and!; [exact Hrun| |exact Hx'|exact Hmode|exact Hreq|exact Hsent].
  rewrite Hchains. reflexivity.
Defined.

Lemma on_get_header_backward_connects_witness :
  let n :=
    set_iface_heap {[ 0%nat := set_request (Some 4) searching_interface ]} synced_network in
  exists n' x',
    on_get_header 0%nat (Some (local_header 4)) n = Ok tt n'
    ∧ iface_heap n' !! 0%nat = Some x'
    ∧ mode x' = CatchUp
    ∧ blockchain x' = Some 0%nat
    ∧ catch_up <$> chain_heap (chains n') !! 0%nat = Some (Some "node.example:50002:s")
    ∧ header_requested 0%nat 5 n n'.
Proof.
  intros n.
  destruct (on_get_header_backward_connects 0%nat (set_request (Some 4) searching_interface)
              0%nat (Build_Blockchain None
                       (Build_SimpleStore 0 None (local_header <$> [0; 1; 2; 3])))
              (local_header 4) n) as [_ Hnear];
    [try reflexivity; by vm_compute ..|].
  destruct Hnear as (n' & x' & Hrun & Hx' & Hmode & Hchain & Hchains & Hreq);
    [by vm_compute ..|].
  exists n', x'. split_and!; [exact Hrun|exact Hx'|exact Hmode|exact Hchain| |exact Hreq].
  rewrite Hchains. reflexivity.
Defined.

Lemma on_get_header_backward_match_witness :
  let n :=
    set_iface_heap {[ 0%nat := set_request (Some 2) searching_interface ]} synced_network in
  exists n' x',
    on_get_header 0%nat (Some (local_header 2)) n = Ok tt n'
    ∧ iface_heap n' !! 0%nat = Some x'
    ∧ mode x' = Binary
    ∧ good x' = Some 2
    ∧ bad x' = Some 10
    ∧ blockchain x' = Some 0%nat
    ∧ chains n' = chains n
    ∧ header_requested 0%nat 6 n n'.
Proof.
  intros n.
  destruct (on_get_header_backward_match 0%nat (set_request (Some 2) searching_interface)
              0%nat 10 (local_header 2) n)
    as (n' & x' & Hrun & Hx' & Hmode & Hgood & Hbad & Hchain & Hchains & Hreq);
    [try reflexivity; by vm_compute ..|].
  exists n', x'. split_and!; [exact Hrun|exact Hx'|exact Hmode|exact Hgood|exact Hbad
                             |exact Hchain|exact Hchains|exact Hreq].
Defined.

Lemma on_block_headers_connects_witness :
  exists n' x',
    on_block_headers (H := chunk_collaborators) 0%nat
      (Build_ChunkResponse None (Some (Some "000000")) (Some [0; 1024])) chunked_network
    = Ok tt n'
    ∧ requested_chunks n' = requested_chunks chunked_network ∖ {[0]}
    ∧ catch_up <$> chain_heap (chains n') !! 0%nat = Some None
    ∧ simple_height (chains n') 0%nat = 5
    ∧ iface_heap n' !! 0%nat = Some x'
    ∧ mode x' = Default
    ∧ request x' = Some 4
    ∧ nothing_sent chunked_network n'.
Proof.
  destruct (on_block_headers_connects (H := chunk_collaborators) 0%nat
              (set_tip 5 catching_interface) 0%nat "000000" 0 [1024]
              (chunk_connect catching_chains 0%nat 0 "000000").2 chunked_network)
    as [_ Hdone]; [try reflexivity; by vm_compute ..|].
  destruct Hdone as (n' & x' & Hrun & Hchains & Hchunks & Hx' & Hmode & Hreq & Hsent);
    [by vm_compute|].
  exists n', x'.
  split_and!; [exact Hrun|exact Hchunks| | |exact Hx'|exact Hmode|exact Hreq|exact Hsent].
  - rewrite Hchains. reflexivity.
  - rewrite Hchains. reflexivity.
Defined.

Lemma on_block_headers_rejected_witness :
  exists n',
    on_block_headers 0%nat
      (Build_ChunkResponse None (Some (Some "000000")) (Some [0; 1024])) chunked_network
    = Ok tt n'
    ∧ requested_chunks n' = requested_chunks chunked_network ∖ {[0]}
    ∧ "node.example:50002:s" ∈ disconnected_servers n'
    ∧ interfaces n' !! "node.example:50002:s" = None
    ∧ closed <$> iface_heap n' !! 0%nat = Some true
    ∧ nothing_sent chunked_network n'.
Proof.
  apply (on_block_headers_rejected 0%nat (set_tip 5 catching_interface) 0%nat "000000"
           0 [1024] catching_chains chunked_network);
    try reflexivity; by vm_compute.
Defined.

Lemma on_block_headers_without_result_raises_witness :
  exists e n',
    on_block_headers 0%nat (Build_ChunkResponse None None (Some [0; 1024])) chunked_network
    = Raise e n'.
Proof.
  apply (on_block_headers_without_result_raises 0%nat (set_tip 5 catching_interface)).
  reflexivity.
Defined.

Lemma on_notify_header_during_search_witness :
  on_notify_header 0%nat (Some ("abcd", 12)) searching_network
  = Ok tt (set_iface_heap
             {[ 0%nat := set_tip 12 (set_tip_header (Some (Build_SimpleHeader 12 4 0))
                           searching_interface) ]}
             searching_network).
Proof.
  rewrite (on_notify_header_during_search 0%nat searching_interface "abcd" 12
             (Build_SimpleHeader 12 4 0) searching_network);
    try reflexivity; by vm_compute.
Defined.

Lemma on_notify_header_extends_witness :
  exists n' x',
    on_notify_header 0%nat (Some ("abcd", 1)) genesis_network = Ok tt n'
    ∧ simple_height (chains n') 0%nat = 1
    ∧ iface_heap n' !! 0%nat = Some x'
    ∧ blockchain x' = Some 0%nat
    ∧ tip x' = 1
    ∧ mode x' = Default
    ∧ nothing_sent genesis_network n'.
Proof.
  destruct (on_notify_header_extends 0%nat (new_Interface "node.example:50002:s") 0%nat
              "abcd" 1 (Build_SimpleHeader 1 4 0) genesis_network)
    as (n' & x' & Hrun & Hchains & Hx' & Hchain & Htip & _ & Hmode & _ & Hsent);
    [try reflexivity; by vm_compute ..|].
  exists n', x'.
  split_and!; [exact Hrun| |exact Hx'|exact Hchain|exact Htip|exact Hmode|exact Hsent].
  rewrite Hchains. reflexivity.
Defined.

Lemma on_notify_header_empty_chains_witness :
  exists n' x',
    on_notify_header 0%nat (Some ("abcd", 5)) empty_chain_network = Ok tt n'
    ∧ iface_heap n' !! 0%nat = Some x'
    ∧ tip x' = 5
    ∧ mode x' = CatchUp
    ∧ blockchain x' = Some 0%nat
    ∧ catch_up <$> chain_heap (chains n') !! 0%nat = Some (Some "node.example:50002:s")
    ∧ header_requested 0%nat 0 empty_chain_network n'.
Proof.
  destruct (on_notify_header_empty_chains 0%nat (new_Interface "node.example:50002:s") 0%nat
              (Build_Blockchain None (Build_SimpleStore 0 None [])) "abcd" 5 (-1)
              (Build_SimpleHeader 5 4 0) empty_chain_network)
    as (n' & x' & Hrun & Hx' & Htip & Hmode & Hchain & Hchains & Hreq);
    [try reflexivity; by vm_compute ..|].
  exists n', x'.
  split_and!; [exact Hrun|exact Hx'|exact Htip|exact Hmode|exact Hchain| |exact Hreq].
  rewrite Hchains. reflexivity.
Defined.

Lemma subscribed_network_once : subscribed_once subscribed_network.
Proof.
  intros k l.
  change (subscriptions subscribed_network)
    with ({[ "blockchain.scripthash.subscribe:ab12" := [7%nat; 8%nat];
             "blockchain.headers.subscribe:True" := [7%nat] ]} : gmap string (list nat)).
  intros [[_ <-]|[_ [_ <-]%lookup_singleton_Some]]%lookup_insert_Some.
  - apply NoDup_cons. split; [|apply NoDup_singleton].
    intros Hin%list_elem_of_singleton. discriminate.
  - apply NoDup_singleton.
Qed.

Lemma process_pending_sends_subscribed_once_witness :
  subscribed_once (state_of (process_pending_sends subscribed_network)).
Proof.
  apply process_pending_sends_subscribed_once. exact subscribed_network_once.
Defined.

Lemma unsubscribe_removes_witness :
  exists n',
    unsubscribe 7%nat subscribed_network = Ok tt n'
    ∧ subscriptions n'
      = {[ "blockchain.scripthash.subscribe:ab12" := [8%nat];
           "blockchain.headers.subscribe:True" := [] ]}.
Proof.
  destruct (unsubscribe_removes 7%nat subscribed_network subscribed_network_once)
    as (n' & Hrun & Hsubs & _).
  exists n'. split; [exact Hrun|]. rewrite Hsubs. reflexivity.
Defined.

Lemma send_without_interface_is_kept_witness :
  bind (send [("blockchain.transaction.get", [VStr "f00d"])] 7%nat)
    (fun _ => process_pending_sends) idle_network
  = Ok tt (set_pending_sends [([("blockchain.transaction.get", [VStr "f00d"])], 7%nat)]
             idle_network).
Proof.
  apply (send_without_interface_is_kept [("blockchain.transaction.get", [VStr "f00d"])]
           7%nat idle_network).
  reflexivity.
Defined.

Lemma send_request_is_queued_witness :
  exists n' x',
    bind (send [("blockchain.transaction.get", [VStr "f00d"])] 7%nat)
      (fun _ => process_pending_sends) connected_network
    = Ok tt n'
    ∧ pending_sends n' = []
    ∧ message_id n' = 1
    ∧ iface_heap n' !! 0%nat = Some x'
    ∧ unsent_requests x' = [("blockchain.transaction.get", [VStr "f00d"], 0)]
    ∧ unanswered_requests n'
      = [(Some 0, ("blockchain.transaction.get", [VStr "f00d"], 7%nat))].
Proof.
  destruct (send_request_is_queued "blockchain.transaction.get" [VStr "f00d"] 7%nat 0%nat
              (new_Interface "node.example:50002:s") connected_network)
    as (n' & x' & Hrun & Hpending & Hid & Hx' & Hqueue & Hunanswered & _);
    [reflexivity ..|].
  exists n', x'.
  split_and!; [exact Hrun|exact Hpending|exact Hid|exact Hx'|exact Hqueue|exact Hunanswered].
Defined.

Lemma catching_interface_registered (n : SimpleNetwork) (x : Interface) :
  interfaces n = {[ "node.example:50002:s" := 0%nat ]} ->
  iface_heap n !! 0%nat = Some x ->
  server x = "node.example:50002:s" ->
  well_formed n.
Proof.
  intros Hifs Hx Hserver srv i. rewrite Hifs.
  intros [<- <-]%lookup_singleton_Some. by exists x.
Qed.

Lemma maintain_requests_keeps_witness :
  now genesis_wait_network - 0 > 30
  ∧ maintain_requests genesis_wait_network = Ok tt genesis_wait_network.
Proof.
  split; [by vm_compute|].
  apply maintain_requests_keeps. intros srv i.
  change (interfaces genesis_wait_network)
    with ({[ "node.example:50002:s" := 0%nat ]} : gmap string nat).
  intros [_ <-]%lookup_singleton_Some.
  exists (set_request (Some 0) catching_interface). split; [reflexivity|].
  right. left. reflexivity.
Defined.


Lemma stop_network_closes_all_witness :
  exists n',
    stop_network two_servers_network = Ok tt n'
    ∧ interfaces n' = ∅
    ∧ interface n' = None
    ∧ closed <$> iface_heap n' !! 0%nat = Some true
    ∧ closed <$> iface_heap n' !! 1%nat = Some true
    ∧ nothing_sent two_servers_network n'.
Proof.
  destruct (stop_network_closes_all two_servers_network)
    as (n' & Hrun & Hifs & Hactive & _ & _ & _ & Hclosed & Hsent).
  - intros srv i.
    change (interfaces two_servers_network)
      with ({[ "node.example:50002:s" := 0%nat; "other.example:50002:s" := 1%nat ]}
            : gmap string nat).
    intros [[<- <-]|[_ [<- <-]%lookup_singleton_Some]]%lookup_insert_Some.
    + by exists (new_Interface "node.example:50002:s").
    + by exists (new_Interface "other.example:50002:s").
  - intros i [= <-]. reflexivity.
  - exists n'. split_and!; [exact Hrun|exact Hifs|exact Hactive| | |exact Hsent].
    + by apply (Hclosed "node.example:50002:s").
    + by apply (Hclosed "other.example:50002:s").
Defined.

Lemma deserialize_serialize_proxy_witness :
  exists s,
    serialize_proxy {[ "mode" := "socks5"; "host" := "proxy.example"; "port" := "9050" ]}
    = Some s
    ∧ deserialize_proxy s
      = Some {[ "mode" := "socks5"; "host" := "proxy.example"; "port" := "9050";
                "user" := ""; "password" := "" ]}.
Proof.
  destruct (deserialize_serialize_proxy
              {[ "mode" := "socks5"; "host" := "proxy.example"; "port" := "9050" ]}
              "socks5" "proxy.example" "9050") as (s & Hs & Hback); try reflexivity.
  - apply list_elem_of_In. simpl. tauto.
  - exists s. split; [exact Hs|exact Hback].
Defined.

Lemma deserialize_proxy_defaults_witness :
  deserialize_proxy "proxy.example"
  = Some {[ "mode" := "socks5"; "host" := "proxy.example"; "port" := "1080" ]}.
Proof.
  apply (deserialize_proxy_defaults "proxy.example").
  - reflexivity.
  - intros Hin%list_elem_of_In. simpl in Hin.
    destruct Hin as [?|[?|[?|[]]]]; discriminate.
  - vm_compute. discriminate.
Defined.
